(** * hyper-ops: the HostedCluster reconciler and its upsert primitive

    A shallow embedding of [controllers/hyperops_controller.go] (the current
    revision, with [setupClusterConfig] and [createArgoCDClusterSecret], and
    in the module [Rev1] the revision before it) and of
    [controllers/utils.go].

    Go values are embedded as follows.
    - [string] and [[]byte] are byte sequences: Rocq [string].
    - [error] is an interface value that may be nil: [option error].
    - A Go map is a reference to a mutable table (or nil): a location in
      the process heap, [option loc].  Two variables holding the same map
      share the location.
    - Kubernetes API servers are finite maps from object identities to the
      stored manifests.  Every client call consumes one entry of an
      environment script that may make the call fail with a status error,
      and is recorded in a call log.
    - A panic aborts the whole computation. *)

From Stdlib Require Import String Ascii ZArith.
From stdpp Require Import base strings gmap list.

Local Open Scope string_scope.

(** ** Errors *)

Inductive StatusReason :=
| NotFound | AlreadyExists | Conflict | Forbidden | Unauthorized
| ServerTimeout | InternalError.

Inductive error :=
| StatusError (reason : StatusReason)   (* apierrors.StatusError *)
| ErrWaitTimeout                        (* wait.ErrWaitTimeout *)
| Errorf (msg : string).                (* fmt.Errorf and library errors *)

#[global] Instance StatusReason_eq_dec : EqDecision StatusReason.
Proof. solve_decision. Defined.
#[global] Instance error_eq_dec : EqDecision error.
Proof. solve_decision. Defined.

Definition IsNotFound (err : error) : bool :=
  match err with StatusError NotFound => true | _ => false end.

Definition IsConflict (err : error) : bool :=
  match err with StatusError Conflict => true | _ => false end.

(* client.IgnoreNotFound *)
Definition IgnoreNotFound (err : option error) : option error :=
  match err with
  | Some e => if IsNotFound e then None else Some e
  | None => None
  end.

(** ** Objects *)

Inductive ObjKind := HostedCluster | Secret | ServiceAccount | ClusterRoleBinding.

#[global] Instance ObjKind_eq_dec : EqDecision ObjKind.
Proof. solve_decision. Defined.

Definition ObjKind_to_nat (k : ObjKind) : nat :=
  match k with
  | HostedCluster => 0 | Secret => 1 | ServiceAccount => 2 | ClusterRoleBinding => 3
  end.

Definition ObjKind_of_nat (n : nat) : option ObjKind :=
  match n with
  | 0 => Some HostedCluster | 1 => Some Secret | 2 => Some ServiceAccount
  | 3 => Some ClusterRoleBinding | _ => None
  end.

#[global] Instance ObjKind_countable : Countable ObjKind.
Proof.
  apply (inj_countable ObjKind_to_nat ObjKind_of_nat).
  intros []; reflexivity.
Defined.

Record Subject := mkSubject {
  subjKind : string; subjName : string; subjNamespace : string }.

Record RoleRef := mkRoleRef {
  refAPIGroup : string; refKind : string; refName : string }.

#[global] Instance Subject_eq_dec : EqDecision Subject.
Proof. solve_decision. Defined.
#[global] Instance RoleRef_eq_dec : EqDecision RoleRef.
Proof. solve_decision. Defined.

(** What an API server stores under an identity (kind, namespace, name):
    the fields of HostedCluster, Secret, ServiceAccount and
    ClusterRoleBinding that the controller touches.  An absent map and an
    empty map serialise alike. *)
Record Manifest := mkManifest {
  mLabels : gmap string string;
  mAnnotations : gmap string string;
  mDeletionTimestamp : option Z;
  mData : gmap string string;
  mType : string;
  mSubjects : list Subject;
  mRoleRef : RoleRef }.

#[global] Instance Manifest_eq_dec : EqDecision Manifest.
Proof. solve_decision. Defined.

Abbreviation loc := nat.

(** The same object decoded into process memory.  [Labels] is a Go map:
    a reference into the heap, or nil. *)
Record Object := mkObject {
  kind : ObjKind;
  Namespace : string;
  Name : string;
  Labels : option loc;
  Annotations : gmap string string;
  DeletionTimestamp : option Z;
  Data : gmap string string;
  Type_ : string;
  Subjects : list Subject;
  RoleRef_ : RoleRef }.

Definition noRoleRef : RoleRef := mkRoleRef "" "" "".

(* &T{ObjectMeta: metav1.ObjectMeta{Name: name, Namespace: ns}} *)
Definition newObject (k : ObjKind) (ns name : string) : Object :=
  mkObject k ns name None ∅ None ∅ "" [] noRoleRef.

Abbreviation Client := nat.

Abbreviation ApiKey := (Client * (ObjKind * (string * string)))%type.

Inductive Call :=
| CallGet (c : Client) (k : ObjKind) (ns name : string)
| CallCreate (c : Client) (k : ObjKind) (ns name : string) (m : Manifest)
| CallUpdate (c : Client) (k : ObjKind) (ns name : string) (m : Manifest)
| CallDelete (c : Client) (k : ObjKind) (ns name : string).

(** ** Process and environment state *)

Record State := mkState {
  gitOpsNamespace : string;                (* the package-level variable *)
  heap : list (gmap string string);        (* Go maps allocated so far *)
  api : gmap ApiKey Manifest;              (* the clusters' stored objects *)
  faults : list (option StatusReason);     (* fate of the coming client calls *)
  calls : list Call }.                     (* client calls made, newest first *)

Definition set_gitOpsNamespace (v : string) (s : State) : State :=
  mkState v (heap s) (api s) (faults s) (calls s).
Definition set_heap (h : list (gmap string string)) (s : State) : State :=
  mkState (gitOpsNamespace s) h (api s) (faults s) (calls s).
Definition set_api (a : gmap ApiKey Manifest) (s : State) : State :=
  mkState (gitOpsNamespace s) (heap s) a (faults s) (calls s).

(* One client call starts: it is logged and the environment decides
   whether it fails. *)
Definition begin_call (c : Call) (s : State) : option StatusReason * State :=
  (mjoin (head (faults s)),
   mkState (gitOpsNamespace s) (heap s) (api s) (tail (faults s)) (c :: calls s)).

(** ** Computations: state passing, with panics *)

Inductive Exec (A : Type) :=
| Normal (a : A)
| Panic (msg : string).
Arguments Normal {A} a.
Arguments Panic {A} msg.

Definition M (A : Type) : Type := State -> Exec A * State.

Definition ret {A} (a : A) : M A := fun s => (Normal a, s).

Definition bind {A B} (m : M A) (k : A -> M B) : M B :=
  fun s =>
    match m s with
    | (Normal a, s') => k a s'
    | (Panic msg, s') => (Panic msg, s')
    end.

Definition panic {A} (msg : string) : M A := fun s => (Panic msg, s).

Definition gets {A} (f : State -> A) : M A := fun s => (Normal (f s), s).
Definition modify (f : State -> State) : M unit := fun s => (Normal tt, f s).

Notation "'let*' x ':=' m 'in' k" := (bind m (fun x => k))
  (at level 10, x pattern, m at level 100, k at level 200, only parsing).
Notation "m ';;' k" := (bind m (fun _ => k))
  (at level 100, k at level 200, right associativity, only parsing).

(** ** Go maps *)

Definition heap_read (h : list (gmap string string)) (m : option loc) : gmap string string :=
  match m with
  | Some l => default ∅ (h !! l)
  | None => ∅
  end.

(* map[string]string{...} *)
Definition map_literal (content : gmap string string) : M (option loc) :=
  fun s => (Normal (Some (length (heap s))), set_heap (heap s ++ [content]) s).

(* v, ok := m[k] *)
Definition map_index (m : option loc) (k : string) : M (string * bool) :=
  let* h := gets heap in
  match heap_read h m !! k with
  | Some v => ret (v, true)
  | None => ret ("", false)
  end.

(* delete(m, k) *)
Definition map_delete (m : option loc) (k : string) : M unit :=
  match m with
  | Some l => modify (fun s => set_heap (alter (delete k) l (heap s)) s)
  | None => ret tt
  end.

(* m[k] = v *)
Definition map_assign (m : option loc) (k v : string) : M unit :=
  match m with
  | Some l => modify (fun s => set_heap (alter (insert k v) l (heap s)) s)
  | None => panic "assignment to entry in nil map"
  end.

(* the keys a [for k := range m] visits *)
Definition map_range (m : option loc) : M (list string) :=
  let* h := gets heap in
  ret ((map_to_list (heap_read h m)).*1).

Fixpoint for_each {A} (l : list A) (body : A -> M unit) : M unit :=
  match l with
  | [] => ret tt
  | x :: l' => body x ;; for_each l' body
  end.

(** ** The Kubernetes client *)

Definition begin_call_M (c : Call) : M (option StatusReason) :=
  fun s => let '(fault, s') := begin_call c s in (Normal fault, s').

(* what is sent to the server for an in-memory object *)
Definition freeze (h : list (gmap string string)) (o : Object) : Manifest :=
  mkManifest (heap_read h (Labels o)) (Annotations o) (DeletionTimestamp o)
             (Data o) (Type_ o) (Subjects o) (RoleRef_ o).

(* decoding a response builds a fresh object; a label map is allocated
   only when the manifest carries labels *)
Definition decode (k : ObjKind) (ns name : string) (m : Manifest) : M Object :=
  let* labels :=
    (if decide (mLabels m = ∅) then ret None else map_literal (mLabels m)) in
  ret (mkObject k ns name labels (mAnnotations m) (mDeletionTimestamp m)
                (mData m) (mType m) (mSubjects m) (mRoleRef m)).

(* c.Get(ctx, client.ObjectKey{Namespace: ns, Name: name}, obj) *)
Definition client_Get (c : Client) (ns name : string) (obj : Object)
  : M (Object * option error) :=
  let* fault := begin_call_M (CallGet c (kind obj) ns name) in
  match fault with
  | Some r => ret (obj, Some (StatusError r))
  | None =>
      let* a := gets api in
      match a !! (c, (kind obj, (ns, name))) with
      | None => ret (obj, Some (StatusError NotFound))
      | Some m => let* o := decode (kind obj) ns name m in ret (o, None)
      end
  end.

(* c.Create(ctx, obj) *)
Definition client_Create (c : Client) (obj : Object) : M (option error) :=
  let* h := gets heap in
  let m := freeze h obj in
  let* fault := begin_call_M (CallCreate c (kind obj) (Namespace obj) (Name obj) m) in
  match fault with
  | Some r => ret (Some (StatusError r))
  | None =>
      let* a := gets api in
      match a !! (c, (kind obj, (Namespace obj, Name obj))) with
      | Some _ => ret (Some (StatusError AlreadyExists))
      | None =>
          modify (set_api (<[(c, (kind obj, (Namespace obj, Name obj))) := m]> a)) ;;
          ret None
      end
  end.

(* c.Update(ctx, obj) *)
Definition client_Update (c : Client) (obj : Object) : M (option error) :=
  let* h := gets heap in
  let m := freeze h obj in
  let* fault := begin_call_M (CallUpdate c (kind obj) (Namespace obj) (Name obj) m) in
  match fault with
  | Some r => ret (Some (StatusError r))
  | None =>
      let* a := gets api in
      match a !! (c, (kind obj, (Namespace obj, Name obj))) with
      | None => ret (Some (StatusError NotFound))
      | Some _ =>
          modify (set_api (<[(c, (kind obj, (Namespace obj, Name obj))) := m]> a)) ;;
          ret None
      end
  end.

(* c.Delete(ctx, obj) *)
Definition client_Delete (c : Client) (obj : Object) : M (option error) :=
  let* fault := begin_call_M (CallDelete c (kind obj) (Namespace obj) (Name obj)) in
  match fault with
  | Some r => ret (Some (StatusError r))
  | None =>
      let* a := gets api in
      match a !! (c, (kind obj, (Namespace obj, Name obj))) with
      | None => ret (Some (StatusError NotFound))
      | Some _ =>
          modify (set_api (delete (c, (kind obj, (Namespace obj, Name obj))) a)) ;;
          ret None
      end
  end.

(** ** controllerutil.CreateOrUpdate *)

(* A MutateFn is a closure over the object it changes; the object is passed
   and returned explicitly. *)
Definition MutateFn : Type := Object -> Object * option error.

Definition OperationResult : Type := string.
Definition OperationResultNone : OperationResult := "unchanged".
Definition OperationResultCreated : OperationResult := "created".
Definition OperationResultUpdated : OperationResult := "updated".

Definition mutate (f : MutateFn) (key : string * string) (obj : Object)
  : Object * option error :=
  let '(obj, err) := f obj in
  match err with
  | Some e => (obj, Some e)
  | None =>
      if decide (key = (Namespace obj, Name obj)) then (obj, None)
      else (obj, Some (Errorf "MutateFn cannot mutate object name and/or object namespace"))
  end.

Definition CreateOrUpdate (c : Client) (obj : Object) (f : MutateFn)
  : M (Object * OperationResult * option error) :=
  let key := (Namespace obj, Name obj) in
  let* (obj, err) := client_Get c (fst key) (snd key) obj in
  match err with
  | Some e =>
      if negb (IsNotFound e) then ret (obj, OperationResultNone, Some e)
      else
        let '(obj, err) := mutate f key obj in
        match err with
        | Some e => ret (obj, OperationResultNone, Some e)
        | None =>
            let* err := client_Create c obj in
            match err with
            | Some e => ret (obj, OperationResultNone, Some e)
            | None => ret (obj, OperationResultCreated, None)
            end
        end
  | None =>
      let* h := gets heap in
      let existing := freeze h obj in                (* obj.DeepCopyObject() *)
      let '(obj, err) := mutate f key obj in
      match err with
      | Some e => ret (obj, OperationResultNone, Some e)
      | None =>
          let* h := gets heap in
          if decide (existing = freeze h obj)        (* equality.Semantic.DeepEqual *)
          then ret (obj, OperationResultNone, None)
          else
            let* err := client_Update c obj in
            match err with
            | Some e => ret (obj, OperationResultNone, Some e)
            | None => ret (obj, OperationResultUpdated, None)
            end
      end
  end.

(** ** wait.ExponentialBackoff and retry.DefaultBackoff *)

(* Factor and Jitter only scale the pause between two attempts; time is
   not part of the model. *)
Record Backoff := mkBackoff { Duration : Z; Steps : Z }.

Definition DefaultBackoff : Backoff := mkBackoff 10000000 4.

(* The condition is a closure; [St] is the type of the variables it
   captures and assigns. *)
Fixpoint backoff_loop {St : Type} (steps : nat)
    (condition : St -> M (St * bool * option error)) (st : St)
  : M (St * option error) :=
  match steps with
  | O => ret (st, Some ErrWaitTimeout)
  | S steps' =>
      let* (st, ok, err) := condition st in
      match err with
      | Some e => ret (st, Some e)
      | None =>
          if ok then ret (st, None)
          else backoff_loop steps' condition st      (* after time.Sleep(backoff.Step()) *)
      end
  end.

Definition ExponentialBackoff {St : Type} (backoff : Backoff)
    (condition : St -> M (St * bool * option error)) (st : St)
  : M (St * option error) :=
  backoff_loop (Z.to_nat (Steps backoff)) condition st.

(** ** controllers/utils.go *)

Definition retry_condition (c : Client) (f : MutateFn)
    (st : Object * OperationResult) : M (Object * OperationResult * bool * option error) :=
  let* (obj, operationResult, err) := CreateOrUpdate c (fst st) f in
  match err with
  | None => ret (obj, operationResult, true, None)
  | Some e =>
      if negb (IsConflict e) then ret (obj, operationResult, false, Some e)
      else ret (obj, operationResult, false, None)
  end.

Definition CreateOrUpdateWithRetries (c : Client) (obj : Object) (f : MutateFn)
  : M (Object * OperationResult * option error) :=
  let operationResult : OperationResult := "" in
  let* (st, updateErr) :=
    ExponentialBackoff DefaultBackoff (retry_condition c f) (obj, operationResult) in
  ret (fst st, snd st, updateErr).

Module api.
(* github.com/kubernetes-client/go-base/config/api: the part of a parsed
   kubeconfig that the controller reads *)
Record Cluster := mkCluster { Server : string }.
Record NamedCluster := mkNamedCluster { Name : string; Cluster_ : Cluster }.
Record Config := mkConfig { Clusters : list NamedCluster }.
End api.

Inductive result (T : Type) :=
| Ok (v : T)
| Err (e : error).
Arguments Ok {T} v.
Arguments Err {T} e.

Local Unset Elimination Schemes.
Inductive JSON :=
| JString (s : string)
| JObject (fields : list (string * JSON)).
Local Set Elimination Schemes.

(** The parsers, the client constructor and the JSON serialiser come from
    libraries outside the repository. *)
Record Lib := mkLib {
  RestConfig : Type;
  clientcmd_RESTConfigFromKubeConfig : string -> result RestConfig;
  configv1_AddToScheme : option error;
  client_New : RestConfig -> result Client;
  yaml_Unmarshal : string -> result api.Config;
  json_encode : JSON -> string }.

(** ** encoding/base64: URLEncoding.EncodeToString *)

Definition encodeURL : string :=
  "ABCDEFGHIJKLMNOPQRSTUVWXYZabcdefghijklmnopqrstuvwxyz0123456789-_".

Definition enc (val : N) (shift : N) : ascii :=
  default "="%char
    (String.get (N.to_nat (N.land (N.shiftr val shift) 63)) encodeURL).

Fixpoint base64_URLEncoding_EncodeToString (src : string) : string :=
  match src with
  | EmptyString => ""
  | String a EmptyString =>
      let val := N.shiftl (N_of_ascii a) 16 in
      String (enc val 18) (String (enc val 12) "==")
  | String a (String b EmptyString) =>
      let val := N.lor (N.shiftl (N_of_ascii a) 16) (N.shiftl (N_of_ascii b) 8) in
      String (enc val 18) (String (enc val 12) (String (enc val 6) "="))
  | String a (String b (String c rest)) =>
      let val := N.lor (N.lor (N.shiftl (N_of_ascii a) 16) (N.shiftl (N_of_ascii b) 8))
                       (N_of_ascii c) in
      String (enc val 18) (String (enc val 12) (String (enc val 6) (String (enc val 0)
        (base64_URLEncoding_EncodeToString rest))))
  end.

(** ** controllers/hyperops_controller.go *)

Definition hyperOpsLabel : string := "hyper-ops.cloudmonkey.org".
Definition argoCDSecretTypeLabel : string := "argocd.argoproj.io/secret-type".
Definition argoCDSecretTypeCluster : string := "cluster".
Definition hostedClusterServiceAccountName : string := "hyper-ops-admin".
Definition hostedClusterServiceAccountNamespace : string := "kube-system".

Definition hyperOpsEnabledLabel : string := hyperOpsLabel +:+ "/enabled".
Definition hyperOpsGitopsNamespaceLabel : string := hyperOpsLabel +:+ "/gitops-namespace".
(* the initial value of the variable [gitOpsNamespace] *)
Definition gitOpsNamespace_init : string := "openshift-gitops".

Record TLSClientConfig := mkTLSClientConfig { CAData : string }.
Record ClusterConfig := mkClusterConfig {
  BearerToken : string;
  TLSClientConfig_ : TLSClientConfig }.
Record Cluster := mkCluster {
  Cluster_Name : string;
  Cluster_Server : string;
  Cluster_Config : ClusterConfig;
  Cluster_HostedCluster : option Object }.

(* the document json.Marshal builds from the struct tags *)
Definition ClusterConfig_json (c : ClusterConfig) : JSON :=
  JObject [("bearerToken", JString (BearerToken c));
           ("tlsClientConfig", JObject [("caData", JString (CAData (TLSClientConfig_ c)))])].

Record Request := mkRequest { req_Namespace : string; req_Name : string }.

(* ctrl.Result *)
Record Result := mkResult { Requeue : bool; RequeueAfter : Z }.
Definition Result_zero : Result := mkResult false 0.

(* event.UpdateEvent and event.CreateEvent *)
Record UpdateEvent := mkUpdateEvent { ObjectOld : Object; ObjectNew : Object }.
Record CreateEvent := mkCreateEvent { Object_ : Object }.

Definition SecretTypeOpaque : string := "Opaque".
Definition SecretTypeServiceAccountToken : string := "kubernetes.io/service-account-token".
Definition ServiceAccountNameKey : string := "kubernetes.io/service-account.name".

Definition data_get (d : gmap string string) (k : string) : string :=
  default "" (d !! k).

Section Controller.
Variable lib : Lib.

(* json.Marshal of a struct of strings has no failing case *)
Definition json_Marshal (c : ClusterConfig) : string * option error :=
  (json_encode lib (ClusterConfig_json c), None).

Definition GetClientForCluster (configBytes : string) : result Client :=
  match clientcmd_RESTConfigFromKubeConfig lib configBytes with
  | Err err => Err err
  | Ok restConfig =>
      match configv1_AddToScheme lib with
      | Some err => Err err
      | None => client_New lib restConfig
      end
  end.

Definition getServerFromKubeConfig (kubeConfigSecret : Object) : M (string * option error) :=
  match yaml_Unmarshal lib (data_get (Data kubeConfigSecret) "kubeconfig") with
  | Err err => ret ("", Some err)
  | Ok kubeconfig =>
      match api.Clusters kubeconfig with
      | [] => panic "runtime error: index out of range [0] with length 0"
      | c0 :: _ => ret (api.Server (api.Cluster_ c0), None)
      end
  end.

Definition no_mutation : MutateFn := fun obj => (obj, None).

(* the three object literals of setupClusterConfig *)
Definition serviceAccount : Object :=
  newObject ServiceAccount hostedClusterServiceAccountNamespace
            hostedClusterServiceAccountName.

Definition clusterRoleBinding : Object :=
  mkObject ClusterRoleBinding "" hostedClusterServiceAccountName None ∅ None ∅ ""
    [mkSubject "ServiceAccount" hostedClusterServiceAccountName
               hostedClusterServiceAccountNamespace]
    (mkRoleRef "rbac.authorization.k8s.io" "ClusterRole" "cluster-admin").

Definition tokenSecret (sa : Object) : Object :=
  mkObject Secret hostedClusterServiceAccountNamespace
    (hostedClusterServiceAccountName +:+ "-token") None
    {[ ServiceAccountNameKey := Name sa ]} None ∅ SecretTypeServiceAccountToken
    [] noRoleRef.

Definition setupClusterConfig (clnt : Client) (server name : string) (hc : option Object)
  : M (result Cluster) :=
  let sa := serviceAccount in
  let* (sa, op, err) := CreateOrUpdateWithRetries clnt sa no_mutation in
  match err with
  | Some e => ret (Err e)
  | None =>
  (* create a cluster role binding *)
  let crb := clusterRoleBinding in
  let* (crb, op, err) := CreateOrUpdateWithRetries clnt crb no_mutation in
  match err with
  | Some e => ret (Err e)
  | None =>
  (* Create an sa token secret *)
  let saTokenSecret := tokenSecret sa in
  let* (saTokenSecret, op, err) := CreateOrUpdateWithRetries clnt saTokenSecret no_mutation in
  match err with
  | Some e => ret (Err e)
  | None =>
  (* Get the token secret *)
  let* (saTokenSecret, err) :=
    client_Get clnt "kube-system" "hyper-ops-admin-token" saTokenSecret in
  match err with
  | Some e => ret (Err e)
  | None =>
  if decide (String.length (data_get (Data saTokenSecret) "token") = 0) then
    ret (Err (Errorf "token not found"))
  else if decide (String.length (data_get (Data saTokenSecret) "ca.crt") = 0) then
    ret (Err (Errorf "ca.crt not found"))
  else
    (* create the cluster config *)
    ret (Ok (mkCluster name server
               (mkClusterConfig (data_get (Data saTokenSecret) "token")
                  (mkTLSClientConfig
                     (base64_URLEncoding_EncodeToString
                        (data_get (Data saTokenSecret) "ca.crt"))))
               hc))
  end end end end.

(* the closure passed by createArgoCDClusterSecret *)
Definition argocd_mutation (argocdClusterLabels : option loc) (cluster : Cluster)
    (jsonConfig : string) : MutateFn :=
  fun argocdCluster =>
    (mkObject (kind argocdCluster) (Namespace argocdCluster) (Name argocdCluster)
       argocdClusterLabels
       (Annotations argocdCluster) (DeletionTimestamp argocdCluster)
       {[ "name" := Cluster_Name cluster;
          "server" := Cluster_Server cluster;
          "config" := jsonConfig ]}
       SecretTypeOpaque
       (Subjects argocdCluster) (RoleRef_ argocdCluster),
     None).

Definition createArgoCDClusterSecret (r : Client) (labels : option loc) (cluster : Cluster)
  : M (option error) :=
  (* create the secret for the local cluster *)
  let argocdClusterLabels := labels in
  map_assign argocdClusterLabels argoCDSecretTypeLabel argoCDSecretTypeCluster ;;
  let '(jsonConfig, err) := json_Marshal (Cluster_Config cluster) in
  match err with
  | Some e => ret (Some e)
  | None =>
  let* ns := gets gitOpsNamespace in
  let argocdCluster := newObject Secret ns (Cluster_Name cluster) in
  let* (argocdCluster, op, err) :=
    CreateOrUpdateWithRetries r argocdCluster
      (argocd_mutation argocdClusterLabels cluster jsonConfig) in
  match err with
  | Some e => ret (Some e)
  | None => ret None
  end end.

Definition Reconcile (r : Client) (req : Request) : M (Result * option error) :=
  let hc := newObject HostedCluster "" "" in
  let* (hc, err) := client_Get r (req_Namespace req) (req_Name req) hc in
  match err with
  | Some e => ret (Result_zero, IgnoreNotFound (Some e))
  | None =>
  if decide (DeletionTimestamp hc <> None) then
    (* cleanup secret *)
    let* ns := gets gitOpsNamespace in
    let* err := client_Delete r (newObject Secret ns (req_Name req)) in
    match err with
    | Some e => ret (Result_zero, IgnoreNotFound (Some e))
    | None => ret (Result_zero, None)
    end
  else
  (* check if the hostedcluster has defined the gitops namespace *)
  let* (_, ok) := map_index (Labels hc) hyperOpsGitopsNamespaceLabel in
  (if negb ok then ret tt
   else
     let* (v, _) := map_index (Labels hc) hyperOpsGitopsNamespaceLabel in
     modify (set_gitOpsNamespace v)) ;;
  (* create the service account for the local cluster *)
  let* localCluster :=
    setupClusterConfig r "https://kubernetes.default.svc" "in-cluster-local" None in
  match localCluster with
  | Err e => ret (Result_zero, Some e)
  | Ok localCluster =>
  let* localClusterLabels := map_literal {[ "hyper-ops.cloudmonkey.org/type" := "local" ]} in
  let* err := createArgoCDClusterSecret r localClusterLabels localCluster in
  match err with
  | Some e => ret (Result_zero, Some e)
  | None =>
  (* skip if the hosted cluster sets the label to false *)
  let* (enabled, ok) := map_index (Labels hc) hyperOpsEnabledLabel in
  if ok && bool_decide (enabled = "false") then ret (Result_zero, None)
  else
  (* get the kubeconfig for the hosted cluster *)
  let kubeConfigSecret := newObject Secret "" "" in
  let* (kubeConfigSecret, err) :=
    client_Get r (req_Namespace req) (req_Name req +:+ "-admin-kubeconfig")
               kubeConfigSecret in
  match err with
  | Some e => ret (Result_zero, IgnoreNotFound (Some e))
  | None =>
  match GetClientForCluster (data_get (Data kubeConfigSecret) "kubeconfig") with
  | Err e => ret (Result_zero, Some e)
  | Ok hostedClusterClient =>
  let* (server, err) := getServerFromKubeConfig kubeConfigSecret in
  match err with
  | Some e => ret (Result_zero, Some e)
  | None =>
  let* hostedClusterConfig :=
    setupClusterConfig hostedClusterClient server (Name hc) (Some hc) in
  match hostedClusterConfig with
  | Err e => ret (Result_zero, Some e)
  | Ok hostedClusterConfig =>
  let hostedClusterLabels := Labels hc in
  (* only keep the labels that are related to hyper-ops *)
  let* keys := map_range hostedClusterLabels in
  for_each keys (fun k =>
    if negb (String.prefix hyperOpsLabel k) then map_delete hostedClusterLabels k
    else ret tt) ;;
  map_assign hostedClusterLabels "hyper-ops.cloudmonkey.org/type" "hosted" ;;
  let* err := createArgoCDClusterSecret r hostedClusterLabels hostedClusterConfig in
  match err with
  | Some e => ret (Result_zero, Some e)
  | None => ret (Result_zero, None)
  end end end end end end end end.

(* the event filter of SetupWithManager; the log line each function writes
   before it returns true is left out, like every other log line *)
Definition UpdateFunc (e : UpdateEvent) : M bool :=
  let* (_, ok) := map_index (Labels (ObjectNew e)) hyperOpsEnabledLabel in
  if negb ok then ret false
  else ret true.

Definition CreateFunc (e : CreateEvent) : M bool :=
  let* (_, ok) := map_index (Labels (Object_ e)) hyperOpsEnabledLabel in
  if negb ok then ret false
  else ret true.

(** *** The steps of [Reconcile]

    The same statements, cut at the points where [Reconcile] may return;
    [Reconcile_steps] below chains them and is shown equal to
    [Reconcile]. *)

Definition fetchHostedCluster (r : Client) (req : Request) : M (Object * option error) :=
  client_Get r (req_Namespace req) (req_Name req) (newObject HostedCluster "" "").

Definition cleanupSecret (r : Client) (req : Request) : M (Result * option error) :=
  let* ns := gets gitOpsNamespace in
  let* err := client_Delete r (newObject Secret ns (req_Name req)) in
  match err with
  | Some e => ret (Result_zero, IgnoreNotFound (Some e))
  | None => ret (Result_zero, None)
  end.

Definition selectNamespace (hc : Object) : M unit :=
  let* (_, ok) := map_index (Labels hc) hyperOpsGitopsNamespaceLabel in
  if negb ok then ret tt
  else
    let* (v, _) := map_index (Labels hc) hyperOpsGitopsNamespaceLabel in
    modify (set_gitOpsNamespace v).

Definition registerLocal (r : Client) : M (option error) :=
  let* localCluster :=
    setupClusterConfig r "https://kubernetes.default.svc" "in-cluster-local" None in
  match localCluster with
  | Err e => ret (Some e)
  | Ok localCluster =>
      let* localClusterLabels :=
        map_literal {[ "hyper-ops.cloudmonkey.org/type" := "local" ]} in
      createArgoCDClusterSecret r localClusterLabels localCluster
  end.

Definition disabled (hc : Object) : M bool :=
  let* (enabled, ok) := map_index (Labels hc) hyperOpsEnabledLabel in
  ret (ok && bool_decide (enabled = "false")).

Definition fetchKubeconfig (r : Client) (req : Request) : M (Object * option error) :=
  client_Get r (req_Namespace req) (req_Name req +:+ "-admin-kubeconfig")
             (newObject Secret "" "").

Definition bootstrapHosted (hc kubeConfigSecret : Object) : M (result Cluster) :=
  match GetClientForCluster (data_get (Data kubeConfigSecret) "kubeconfig") with
  | Err e => ret (Err e)
  | Ok hostedClusterClient =>
      let* (server, err) := getServerFromKubeConfig kubeConfigSecret in
      match err with
      | Some e => ret (Err e)
      | None => setupClusterConfig hostedClusterClient server (Name hc) (Some hc)
      end
  end.

Definition mirrorLabels (hc : Object) : M unit :=
  let hostedClusterLabels := Labels hc in
  let* keys := map_range hostedClusterLabels in
  for_each keys (fun k =>
    if negb (String.prefix hyperOpsLabel k) then map_delete hostedClusterLabels k
    else ret tt) ;;
  map_assign hostedClusterLabels "hyper-ops.cloudmonkey.org/type" "hosted".

(* from the kubeconfig fetch to the end *)
Definition reconcileHosted (r : Client) (req : Request) (hc : Object)
  : M (Result * option error) :=
  let* (kubeConfigSecret, err) := fetchKubeconfig r req in
  match err with
  | Some e => ret (Result_zero, IgnoreNotFound (Some e))
  | None =>
  let* hostedClusterConfig := bootstrapHosted hc kubeConfigSecret in
  match hostedClusterConfig with
  | Err e => ret (Result_zero, Some e)
  | Ok hostedClusterConfig =>
  mirrorLabels hc ;;
  let* err := createArgoCDClusterSecret r (Labels hc) hostedClusterConfig in
  match err with
  | Some e => ret (Result_zero, Some e)
  | None => ret (Result_zero, None)
  end end end.

Definition Reconcile_steps (r : Client) (req : Request) : M (Result * option error) :=
  let* (hc, err) := fetchHostedCluster r req in
  match err with
  | Some e => ret (Result_zero, IgnoreNotFound (Some e))
  | None =>
  if decide (DeletionTimestamp hc <> None) then cleanupSecret r req
  else
  selectNamespace hc ;;
  let* err := registerLocal r in
  match err with
  | Some e => ret (Result_zero, Some e)
  | None =>
  let* skip := disabled hc in
  if skip then ret (Result_zero, None)
  else reconcileHosted r req hc
  end end.

(* the data fields createArgoCDClusterSecret writes *)
Definition argoSecretData (cluster : Cluster) : gmap string string :=
  {[ "name" := Cluster_Name cluster;
     "server" := Cluster_Server cluster;
     "config" := json_encode lib (ClusterConfig_json (Cluster_Config cluster)) ]}.

End Controller.

(** ** The earlier revision of controllers/hyperops_controller.go

    The revision before the local cluster was registered: one function
    bootstraps the hosted cluster, and [Reconcile] builds the secret
    itself and upserts it with an empty mutation. *)

Module Rev1.
Section Controller.
Variable lib : Lib.

Definition createHostedClusterConfig (clnt : Client) : M (result ClusterConfig) :=
  let sa := serviceAccount in
  let* (sa, op, err) := CreateOrUpdateWithRetries clnt sa no_mutation in
  match err with
  | Some e => ret (Err e)
  | None =>
  (* create a cluster role binding *)
  let crb := clusterRoleBinding in
  let* (crb, op, err) := CreateOrUpdateWithRetries clnt crb no_mutation in
  match err with
  | Some e => ret (Err e)
  | None =>
  (* Create an sa token secret *)
  let saTokenSecret := tokenSecret sa in
  let* (saTokenSecret, op, err) := CreateOrUpdateWithRetries clnt saTokenSecret no_mutation in
  match err with
  | Some e => ret (Err e)
  | None =>
  (* Get the token secret *)
  let* (saTokenSecret, err) :=
    client_Get clnt "kube-system" "hyper-ops-admin-token" saTokenSecret in
  match err with
  | Some e => ret (Err e)
  | None =>
  if decide (String.length (data_get (Data saTokenSecret) "token") = 0) then
    ret (Err (Errorf "token not found"))
  else if decide (String.length (data_get (Data saTokenSecret) "ca.crt") = 0) then
    ret (Err (Errorf "ca.crt not found"))
  else
    (* create the cluster config *)
    ret (Ok (mkClusterConfig (data_get (Data saTokenSecret) "token")
               (mkTLSClientConfig
                  (base64_URLEncoding_EncodeToString
                     (data_get (Data saTokenSecret) "ca.crt")))))
  end end end end.

Definition Reconcile (r : Client) (req : Request) : M (Result * option error) :=
  let hc := newObject HostedCluster "" "" in
  let* (hc, err) := client_Get r (req_Namespace req) (req_Name req) hc in
  match err with
  | Some e => ret (Result_zero, IgnoreNotFound (Some e))
  | None =>
  if decide (DeletionTimestamp hc <> None) then
    (* cleanup secret *)
    let* ns := gets gitOpsNamespace in
    let* err := client_Delete r (newObject Secret ns (req_Name req)) in
    match err with
    | Some e => ret (Result_zero, IgnoreNotFound (Some e))
    | None => ret (Result_zero, None)
    end
  else
  (* skip if the hosted cluster sets the label to false *)
  let* (enabled, ok) := map_index (Labels hc) hyperOpsEnabledLabel in
  if ok && bool_decide (enabled = "false") then ret (Result_zero, None)
  else
  (* check if the hostedcluster has defined the gitops namespace *)
  let* (_, ok) := map_index (Labels hc) hyperOpsGitopsNamespaceLabel in
  (if negb ok then ret tt
   else
     let* (v, _) := map_index (Labels hc) hyperOpsGitopsNamespaceLabel in
     modify (set_gitOpsNamespace v)) ;;
  (* get the kubeconfig for the hosted cluster *)
  let kubeConfigSecret := newObject Secret "" "" in
  let* (kubeConfigSecret, err) :=
    client_Get r (req_Namespace req) (req_Name req +:+ "-admin-kubeconfig")
               kubeConfigSecret in
  match err with
  | Some e => ret (Result_zero, IgnoreNotFound (Some e))
  | None =>
  match GetClientForCluster lib (data_get (Data kubeConfigSecret) "kubeconfig") with
  | Err e => ret (Result_zero, Some e)
  | Ok hostedClusterClient =>
  let* hostedClusterConfig := createHostedClusterConfig hostedClusterClient in
  match hostedClusterConfig with
  | Err e => ret (Result_zero, Some e)
  | Ok hostedClusterConfig =>
  let '(jsonConfig, err) := json_Marshal lib hostedClusterConfig in
  match err with
  | Some e => ret (Result_zero, Some e)
  | None =>
  match yaml_Unmarshal lib (data_get (Data kubeConfigSecret) "kubeconfig") with
  | Err e => ret (Result_zero, Some e)
  | Ok kubeconfig =>
  let argocdClusterLabels := Labels hc in
  map_assign argocdClusterLabels argoCDSecretTypeLabel argoCDSecretTypeCluster ;;
  (* create the cluster secret for argocd *)
  let* ns := gets gitOpsNamespace in
  match api.Clusters kubeconfig with
  | [] => panic "runtime error: index out of range [0] with length 0"
  | c0 :: _ =>
  let argocdCluster :=
    mkObject Secret ns (req_Name req) argocdClusterLabels ∅ None
      {[ "name" := Name hc;
         "server" := api.Server (api.Cluster_ c0);
         "config" := jsonConfig ]}
      SecretTypeOpaque [] noRoleRef in
  let* (argocdCluster, op, err) :=
    CreateOrUpdateWithRetries r argocdCluster no_mutation in
  match err with
  | Some e => ret (Result_zero, Some e)
  | None => ret (Result_zero, None)
  end end end end end end end end.

(* the same statements, cut where [Reconcile] may return *)

(* from the kubeconfig fetch to the end *)
Definition reconcileHosted (r : Client) (req : Request) (hc : Object)
  : M (Result * option error) :=
  let* (kubeConfigSecret, err) := fetchKubeconfig r req in
  match err with
  | Some e => ret (Result_zero, IgnoreNotFound (Some e))
  | None =>
  match GetClientForCluster lib (data_get (Data kubeConfigSecret) "kubeconfig") with
  | Err e => ret (Result_zero, Some e)
  | Ok hostedClusterClient =>
  let* hostedClusterConfig := createHostedClusterConfig hostedClusterClient in
  match hostedClusterConfig with
  | Err e => ret (Result_zero, Some e)
  | Ok hostedClusterConfig =>
  match yaml_Unmarshal lib (data_get (Data kubeConfigSecret) "kubeconfig") with
  | Err e => ret (Result_zero, Some e)
  | Ok kubeconfig =>
  map_assign (Labels hc) argoCDSecretTypeLabel argoCDSecretTypeCluster ;;
  let* ns := gets gitOpsNamespace in
  match api.Clusters kubeconfig with
  | [] => panic "runtime error: index out of range [0] with length 0"
  | c0 :: _ =>
  let* (argocdCluster, op, err) :=
    CreateOrUpdateWithRetries r
      (mkObject Secret ns (req_Name req) (Labels hc) ∅ None
         {[ "name" := Name hc;
            "server" := api.Server (api.Cluster_ c0);
            "config" := json_encode lib (ClusterConfig_json hostedClusterConfig) ]}
         SecretTypeOpaque [] noRoleRef)
      no_mutation in
  match err with
  | Some e => ret (Result_zero, Some e)
  | None => ret (Result_zero, None)
  end end end end end end.

Definition Reconcile_steps (r : Client) (req : Request) : M (Result * option error) :=
  let* (hc, err) := fetchHostedCluster r req in
  match err with
  | Some e => ret (Result_zero, IgnoreNotFound (Some e))
  | None =>
  if decide (DeletionTimestamp hc <> None) then cleanupSecret r req
  else
  let* skip := disabled hc in
  if skip then ret (Result_zero, None)
  else
  selectNamespace hc ;;
  reconcileHosted r req hc
  end.

End Controller.
End Rev1.

(** ** Notions used in the statements *)

Local Open Scope list_scope.
Local Open Scope stdpp_scope.

Definition call_key (c : Call) : ApiKey :=
  match c with
  | CallGet c k ns name | CallCreate c k ns name _
  | CallUpdate c k ns name _ | CallDelete c k ns name => (c, (k, (ns, name)))
  end.

Definition obj_key (c : Client) (o : Object) : ApiKey :=
  (c, (kind o, (Namespace o, Name o))).

(* [m] run from [s] returns normally, with a result and a final state
   that satisfy [Q] *)
Definition returns {A} (m : M A) (s : State) (Q : A -> State -> Prop) : Prop :=
  exists a s', m s = (Normal a, s') /\ Q a s'.

(* What a run from [s] to [s'] may have touched: stored objects with an
   identity in [K] and Go maps at a location in [L]; every client call
   targets [K]; maps are only added; [gitOpsNamespace] is kept. *)
Record effect (K : ApiKey -> Prop) (L : loc -> Prop) (s s' : State) : Prop := mkEffect {
  eff_ns : gitOpsNamespace s' = gitOpsNamespace s;
  eff_len : length (heap s) <= length (heap s');
  eff_heap : forall l, ~ L l -> l < length (heap s) -> heap s' !! l = heap s !! l;
  eff_api : forall key, ~ K key -> api s' !! key = api s !! key;
  eff_calls : exists t, calls s' = t ++ calls s /\ Forall (fun c => K (call_key c)) t }.

Definition no_loc : loc -> Prop := fun _ => False.

Definition preserves_identity (f : MutateFn) : Prop :=
  forall o, kind (f o).1 = kind o /\ Namespace (f o).1 = Namespace o /\ Name (f o).1 = Name o.

(* what [decode] yields for the manifest [m] *)
Definition decoded (k : ObjKind) (ns name : string) (m : Manifest) (s s' : State) (o : Object)
  : Prop :=
  kind o = k /\ Namespace o = ns /\ Name o = name /\
  freeze (heap s') o = m /\
  match Labels o with
  | Some l => l = length (heap s) /\ heap s' = heap s ++ [mLabels m]
  | None => s' = s
  end.

(* the captured object and the state after [i] attempts of the retry loop *)
Fixpoint after_attempts (c : Client) (f : MutateFn) (i : nat) (obj : Object) (s : State)
  : Object * State :=
  match i with
  | O => (obj, s)
  | S i' =>
      match CreateOrUpdate c obj f s with
      | (Normal (obj', _, _), s') => after_attempts c f i' obj' s'
      | (Panic _, s') => (obj, s')
      end
  end.

(* what the caller of the retry loop sees of the last attempt's error *)
Definition surfaced (err : option error) : option error :=
  match err with
  | Some e => if IsConflict e then Some ErrWaitTimeout else Some e
  | None => None
  end.

Definition tokenSecretKey (c : Client) : ApiKey :=
  (c, (Secret, ("kube-system", "hyper-ops-admin-token"))).

Definition identity_keys (c : Client) (key : ApiKey) : Prop :=
  key = (c, (ServiceAccount, ("kube-system", "hyper-ops-admin"))) \/
  key = (c, (ClusterRoleBinding, ("", "hyper-ops-admin"))) \/
  key = tokenSecretKey c.

Definition local_keys (r : Client) (ns : string) (key : ApiKey) : Prop :=
  identity_keys r key \/ key = (r, (Secret, (ns, "in-cluster-local"))).

Definition localLabels : gmap string string :=
  <[argoCDSecretTypeLabel := argoCDSecretTypeCluster]>
    {[ "hyper-ops.cloudmonkey.org/type" := "local" ]}.

(* the source labels whose key carries the prefix *)
Definition keepPrefixed (L : gmap string string) : gmap string string :=
  filter (fun kv => String.prefix hyperOpsLabel kv.1 = true) L.

Definition hostedLabels (L : gmap string string) : gmap string string :=
  <[argoCDSecretTypeLabel := argoCDSecretTypeCluster]>
    (<["hyper-ops.cloudmonkey.org/type" := "hosted"]> (keepPrefixed L)).

(** ** Decidable equality, to settle closed goals by evaluation *)

#[global] Instance Object_eq_dec : EqDecision Object.
Proof. solve_decision. Defined.
#[global] Instance Call_eq_dec : EqDecision Call.
Proof. solve_decision. Defined.
#[global] Instance State_eq_dec : EqDecision State.
Proof. solve_decision. Defined.
#[global] Instance Exec_eq_dec {A} `{EqDecision A} : EqDecision (Exec A).
Proof. solve_decision. Defined.
#[global] Instance result_eq_dec {T} `{EqDecision T} : EqDecision (result T).
Proof. solve_decision. Defined.
#[global] Instance TLSClientConfig_eq_dec : EqDecision TLSClientConfig.
Proof. solve_decision. Defined.
#[global] Instance ClusterConfig_eq_dec : EqDecision ClusterConfig.
Proof. solve_decision. Defined.
#[global] Instance Cluster_eq_dec : EqDecision Cluster.
Proof. solve_decision. Defined.
#[global] Instance Result_eq_dec : EqDecision Result.
Proof. solve_decision. Defined.

(* every stored HostedCluster is the same in [s'] as in [s] *)
Definition HostedClusters_kept (s s' : State) : Prop :=
  forall c ns name,
    api s' !! (c, (HostedCluster, (ns, name))) = api s !! (c, (HostedCluster, (ns, name))).

(* one step of the label loop of [Reconcile] on the content of the map *)
Definition drop_unprefixed (acc : gmap string string) (k : string) : gmap string string :=
  if String.prefix hyperOpsLabel k then acc else delete k acc.

(* the environment makes no client call fail from [s] on *)
Definition fault_free (s : State) : Prop :=
  forall i, mjoin (faults s !! i) = None.

(* how many of the coming client calls the environment answers with a
   conflict, when it makes calls fail in no other way *)
Fixpoint conflicts (fs : list (option StatusReason)) : option nat :=
  match fs with
  | [] => Some 0
  | None :: fs' => conflicts fs'
  | Some Conflict :: fs' => S <$> conflicts fs'
  | Some _ :: _ => None
  end.

(* a call that reads, or creates what is not there *)
Definition reads_or_creates (c : Call) : bool :=
  match c with
  | CallGet _ _ _ _ | CallCreate _ _ _ _ _ => true
  | CallUpdate _ _ _ _ _ | CallDelete _ _ _ _ => false
  end.

(* what a run of the retry loop with the empty mutation does to the store
   and to the call log *)
Definition additive (key : ApiKey) (m : Manifest) (s s' : State) : Prop :=
  (api s' = api s \/ (api s !! key = None /\ api s' = <[key := m]> (api s))) /\
  (exists t, calls s' = t ++ calls s /\ Forall (fun x => reads_or_creates x = true) t).

(* the three objects [setupClusterConfig] asks for, as it creates them *)
Definition identity_manifests (c : Client) : gmap ApiKey Manifest :=
  {[ obj_key c serviceAccount := freeze [] serviceAccount;
     obj_key c clusterRoleBinding := freeze [] clusterRoleBinding;
     obj_key c (tokenSecret serviceAccount) := freeze [] (tokenSecret serviceAccount) ]}.

(* from [s] to [s'] stored objects were only added, taken from [ids], by
   calls that read or create *)
Definition only_adds (ids : gmap ApiKey Manifest) (s s' : State) : Prop :=
  api s ⊆ api s' /\ api s' ⊆ api s ∪ ids /\
  exists t, calls s' = t ++ calls s /\ Forall (fun x => reads_or_creates x = true) t.

(* what [setupClusterConfig] answers when the token secret it reads back
   holds [m] *)
Definition readiness (name server : string) (hc : option Object) (m : Manifest)
  : result Cluster :=
  if decide (data_get (mData m) "token" = "") then Err (Errorf "token not found")
  else if decide (data_get (mData m) "ca.crt" = "") then Err (Errorf "ca.crt not found")
  else Ok (mkCluster name server
             (mkClusterConfig (data_get (mData m) "token")
                (mkTLSClientConfig
                   (base64_URLEncoding_EncodeToString (data_get (mData m) "ca.crt"))))
             hc).

(* the calls of an upsert of [obj] with the empty mutation that succeeds
   at once on the store [a], newest first *)
Definition ensure_calls (c : Client) (obj : Object) (a : gmap ApiKey Manifest) : list Call :=
  match a !! obj_key c obj with
  | Some _ => []
  | None => [CallCreate c (kind obj) (Namespace obj) (Name obj) (freeze [] obj)]
  end ++ [CallGet c (kind obj) (Namespace obj) (Name obj)].

(* from [s] to [s'] the stored objects outside [K] are kept, and every
   client call made targets [K] *)
Definition touches (K : ApiKey -> Prop) (s s' : State) : Prop :=
  (forall key, ~ K key -> api s' !! key = api s !! key) /\
  exists t, calls s' = t ++ calls s /\ Forall (fun c => K (call_key c)) t.

(* the objects a reconcile of [req] may read or write: on any cluster the
   three identity objects; on the reconciler's own cluster the requested
   resource, its kubeconfig secret, and the secrets named in-cluster-local
   or like the resource *)
Definition Reconcile_keys (r : Client) (req : Request) (key : ApiKey) : Prop :=
  identity_keys key.1 key \/
  key.1 = r /\
  (key.2 = (HostedCluster, (req_Namespace req, req_Name req)) \/
   key.2 = (Secret, (req_Namespace req, req_Name req +:+ "-admin-kubeconfig")) \/
   key.2.1 = Secret /\ (key.2.2.2 = "in-cluster-local" \/ key.2.2.2 = req_Name req)).

Definition is_delete (c : Call) : bool :=
  match c with
  | CallDelete _ _ _ _ => true
  | _ => false
  end.

(* from [s] to [s'] no stored object disappeared and no Delete was issued *)
Definition no_delete (s s' : State) : Prop :=
  dom (api s) ⊆ dom (api s') /\
  exists t, calls s' = t ++ calls s /\ Forall (fun c => is_delete c = false) t.

Definition is_get (c : Call) : bool :=
  match c with
  | CallGet _ _ _ _ => true
  | _ => false
  end.

(* from [s] to [s'] the stores are the same and only Get calls were made *)
Definition read_only (s s' : State) : Prop :=
  api s' = api s /\
  exists t, calls s' = t ++ calls s /\ Forall (fun c => is_get c = true) t.

(* from [s] to [s'] stored objects were only added, by calls that read or
   create *)
Definition creates_only (s s' : State) : Prop :=
  api s ⊆ api s' /\
  exists t, calls s' = t ++ calls s /\ Forall (fun x => reads_or_creates x = true) t.

(* [m] run from [s] ends, normally or by a panic, in a state that
   satisfies [P]; when it ends normally its result satisfies [Q] too *)
Definition ends {A} (m : M A) (s : State) (Q : A -> State -> Prop) (P : State -> Prop)
  : Prop :=
  forall out s', m s = (out, s') ->
    P s' /\ match out with Normal a => Q a s' | Panic _ => True end.

(** ** A concrete world, for the examples

    Client 0 is the local cluster, client 1 the hosted cluster that every
    kubeconfig of [ex_lib] points to. *)

Definition dquote : string := String (ascii_of_nat 34) EmptyString.

Fixpoint ex_render (j : JSON) : string :=
  match j with
  | JString s => dquote +:+ s +:+ dquote
  | JObject fields =>
      "{" +:+
      (fix members (l : list (string * JSON)) : string :=
         match l with
         | [] => ""
         | [(k, v)] => dquote +:+ k +:+ dquote +:+ ":" +:+ ex_render v
         | (k, v) :: l' =>
             dquote +:+ k +:+ dquote +:+ ":" +:+ ex_render v +:+ "," +:+ members l'
         end) fields
      +:+ "}"
  end.

Definition ex_lib : Lib :=
  mkLib string
    (fun b => if decide (b = "") then Err (Errorf "invalid configuration") else Ok b)
    None
    (fun _ => Ok 1)
    (fun b => Ok (api.mkConfig
                    (if decide (b = "clusters: []") then []
                     else [api.mkNamedCluster "hosted" (api.mkCluster b)])))
    ex_render.

Definition ex_req : Request := mkRequest "clusters" "r1".

Definition ex_token : Manifest :=
  mkManifest ∅ {[ ServiceAccountNameKey := "hyper-ops-admin" ]} None
    {[ "token" := "tok"; "ca.crt" := "CA" ]} SecretTypeServiceAccountToken [] noRoleRef.

Definition ex_hc (labels : gmap string string) (deletion : option Z) : Manifest :=
  mkManifest labels ∅ deletion ∅ "" [] noRoleRef.

Definition ex_kubeconfig : Manifest :=
  mkManifest ∅ ∅ None {[ "kubeconfig" := "https://r1.example:6443" ]} "Opaque" [] noRoleRef.

Definition ex_world (hc : Manifest) (kubeconfig : bool) (fl : list (option StatusReason))
  : State :=
  mkState gitOpsNamespace_init []
    (<[(0, (HostedCluster, ("clusters", "r1"))) := hc]>
       ((if kubeconfig
         then <[(0, (Secret, ("clusters", "r1-admin-kubeconfig"))) := ex_kubeconfig]>
         else id)
          (<[tokenSecretKey 0 := ex_token]> {[ tokenSecretKey 1 := ex_token ]})))
    fl [].

Definition ex_labels : gmap string string :=
  {[ hyperOpsEnabledLabel := "true";
     hyperOpsGitopsNamespaceLabel := "ns-a";
     "team" := "blue" ]}.

(* an enabled resource with a namespace label and a foreign label *)
Definition ex_full : State := ex_world (ex_hc ex_labels None) true [].
(* the same without its kubeconfig secret *)
Definition ex_nokube : State := ex_world (ex_hc ex_labels None) false [].
(* a resource with the enablement label set to false *)
Definition ex_disabled : State :=
  ex_world (ex_hc {[ hyperOpsEnabledLabel := "false" ]} None) true [].
(* a resource marked for deletion *)
Definition ex_deleting : State :=
  ex_world (ex_hc {[ hyperOpsEnabledLabel := "true" ]} (Some 1%Z)) true [].
(* a resource that carries the GitOps secret-type key itself *)
Definition ex_typed : State :=
  ex_world (ex_hc {[ hyperOpsEnabledLabel := "true";
                     argoCDSecretTypeLabel := "repo-creds" ]} None) true [].
(* a cluster on which nothing exists yet *)
Definition ex_blank : State := mkState gitOpsNamespace_init [] ∅ [] [].

(* the fetched resource, and the stages of its reconcile from [s] *)
Definition ex_hcobj : Object :=
  mkObject HostedCluster "clusters" "r1" (Some 0) ∅ None ∅ "" [] noRoleRef.
Definition ex_s1 (s : State) : State := snd (fetchHostedCluster 0 ex_req s).
Definition ex_s2 (s : State) : State := snd (selectNamespace ex_hcobj (ex_s1 s)).
Definition ex_s3 (s : State) : State := snd (registerLocal ex_lib 0 (ex_s2 s)).
Definition ex_s4 (s : State) : State := snd (fetchKubeconfig 0 ex_req (ex_s3 s)).
Definition ex_kcobj : Object :=
  mkObject Secret "clusters" "r1-admin-kubeconfig" None ∅ None
    {[ "kubeconfig" := "https://r1.example:6443" ]} "Opaque" [] noRoleRef.
Definition ex_s5 (s : State) : State := snd (bootstrapHosted ex_lib ex_hcobj ex_kcobj (ex_s4 s)).
Definition ex_cluster : Cluster :=
  mkCluster "r1" "https://r1.example:6443"
    (mkClusterConfig "tok" (mkTLSClientConfig "Q0E=")) (Some ex_hcobj).

(* the platform removes the namespace label between two reconciles *)
Definition ex_unlabel (s : State) : State :=
  set_api (<[(0, (HostedCluster, ("clusters", "r1")))
             := ex_hc {[ hyperOpsEnabledLabel := "true"; "team" := "blue" ]} None]> (api s)) s.

(* the kubeconfig fetch, the tenth client call of this reconcile, is refused *)
Definition ex_forbidden : State :=
  ex_world (ex_hc ex_labels None) true (replicate 9 None ++ [Some Forbidden]).

(* the local cluster as bootstrapped in [ex_full], and a label map for it *)
Definition ex_local : Cluster :=
  mkCluster "in-cluster-local" "https://kubernetes.default.svc"
    (mkClusterConfig "tok" (mkTLSClientConfig "Q0E=")) None.
Definition ex_bootstrapped : State :=
  snd (setupClusterConfig 0 "https://kubernetes.default.svc" "in-cluster-local" None ex_full).
Definition ex_labelled : State :=
  set_heap [ {[ "hyper-ops.cloudmonkey.org/type" := "local" ]} ] ex_bootstrapped.

(* the token secret as first created: no token, no CA certificate *)
Definition ex_unpopulated : Object :=
  mkObject Secret "kube-system" "hyper-ops-admin-token" None
    {[ ServiceAccountNameKey := "hyper-ops-admin" ]} None ∅ SecretTypeServiceAccountToken
    [] noRoleRef.
Definition ex_b1 : State := snd (CreateOrUpdateWithRetries 0 serviceAccount no_mutation ex_blank).
Definition ex_b2 : State := snd (CreateOrUpdateWithRetries 0 clusterRoleBinding no_mutation ex_b1).
Definition ex_b3 : State :=
  snd (CreateOrUpdateWithRetries 0 (tokenSecret serviceAccount) no_mutation ex_b2).
Definition ex_b4 : State :=
  snd (client_Get 0 "kube-system" "hyper-ops-admin-token" (tokenSecret serviceAccount) ex_b3).

(* the kubeconfig secret holds no bytes *)
Definition ex_badkube : State :=
  set_api (<[(0, (Secret, ("clusters", "r1-admin-kubeconfig")))
             := mkManifest ∅ ∅ None {[ "kubeconfig" := "" ]} "Opaque" [] noRoleRef]>
             (api ex_full)) ex_full.
(* the world after a first reconcile of r1 *)
Definition ex_reconciled : State := snd (Reconcile ex_lib 0 ex_req ex_full).
(* the same with a label map of the caller's at location 0 *)
Definition ex_relabel : State := set_heap [ {[ "a" := "b" ]} ] ex_reconciled.
Definition ex_config : api.Config :=
  api.mkConfig [api.mkNamedCluster "hosted" (api.mkCluster "https://r1.example:6443")].
Definition ex_local_secret : Manifest :=
  mkManifest localLabels ∅ None (argoSecretData ex_lib ex_local) SecretTypeOpaque [] noRoleRef.
Definition ex_hosted_secret : Manifest :=
  mkManifest (hostedLabels ex_labels) ∅ None (argoSecretData ex_lib ex_cluster)
    SecretTypeOpaque [] noRoleRef.
(* three conflicts among the coming calls *)
Definition ex_conflicts : State :=
  mkState gitOpsNamespace_init [] ∅ [Some Conflict; None; Some Conflict; Some Conflict] [].
(* the resource switched off, on a local cluster whose token secret does
   not exist yet *)
Definition ex_cold : State := set_api (delete (tokenSecretKey 0) (api ex_disabled)) ex_disabled.

(** * Properties *)

Lemma returns_ret {A} (a : A) s (Q : A -> State -> Prop) : Q a s -> returns (ret a) s Q.
Proof. intros H. exists a, s. split; [reflexivity | exact H]. Qed.

Lemma returns_bind {A B} (m : M A) (k : A -> M B) s Q1 (Q2 : B -> State -> Prop) :
  returns m s Q1 ->
  (forall a s1, Q1 a s1 -> returns (k a) s1 Q2) ->
  returns (bind m k) s Q2.
Proof.
  intros (a & s1 & Hm & HQ) Hk.
  destruct (Hk a s1 HQ) as (b & s2 & Hb & HQ2).
  exists b, s2. split; [|exact HQ2].
  unfold bind. rewrite Hm. exact Hb.
Qed.

Lemma returns_mono {A} (m : M A) s (Q Q' : A -> State -> Prop) :
  returns m s Q -> (forall a s', Q a s' -> Q' a s') -> returns m s Q'.
Proof. intros (a & s' & Hm & HQ) H. exists a, s'. auto. Qed.

Lemma returns_run {A} (m : M A) s Q r s' :
  returns m s Q -> m s = (r, s') -> exists a, r = Normal a /\ Q a s'.
Proof. intros (a & s1 & Hm & HQ) H. rewrite Hm in H. injection H as <- <-. eauto. Qed.

Lemma effect_refl K L s : effect K L s s.
Proof.
  split; auto. exists []. split; [reflexivity | constructor].
Qed.

Lemma effect_trans K L s1 s2 s3 : effect K L s1 s2 -> effect K L s2 s3 -> effect K L s1 s3.
Proof.
  intros [n1 l1 h1 a1 (t1 & c1 & F1)] [n2 l2 h2 a2 (t2 & c2 & F2)]. split.
  - congruence.
  - lia.
  - intros l Hl Hlt. rewrite h2 by (auto; lia). auto.
  - intros key Hk. rewrite a2 by auto. auto.
  - exists (t2 ++ t1). split.
    + rewrite c2, c1. apply app_assoc.
    + apply Forall_app. auto.
Qed.

Lemma effect_mono (K K' : ApiKey -> Prop) (L L' : loc -> Prop) s s' :
  (forall k, K k -> K' k) -> (forall l, L l -> L' l) -> effect K L s s' -> effect K' L' s s'.
Proof.
  intros HK HL [n l h a (t & c & F)]. split.
  - exact n.
  - exact l.
  - intros l0 Hl Hlt. apply h; auto.
  - intros key Hk. apply a. auto.
  - exists t. split; [exact c|]. eapply Forall_impl; [exact F|]. simpl. auto.
Qed.


Lemma effect_call K c s :
  K (call_key c) -> effect K no_loc s (snd (begin_call c s)).
Proof.
  intros HK. split; simpl; auto.
  exists [c]. split; [reflexivity|]. constructor; [exact HK | constructor].
Qed.

Lemma effect_set_api K L a s :
  (forall key, ~ K key -> a !! key = api s !! key) -> effect K L s (set_api a s).
Proof.
  intros H. split; simpl; auto. exists []. split; [reflexivity | constructor].
Qed.

Lemma effect_alloc K L x s : effect K L s (set_heap (heap s ++ [x]) s).
Proof.
  split; simpl; auto.
  - rewrite length_app. lia.
  - intros l _ Hl. apply lookup_app_l. exact Hl.
  - exists []. split; [reflexivity | constructor].
Qed.

Lemma decode_returns k ns name m s :
  returns (decode k ns name m) s (fun o s' =>
    decoded k ns name m s s' o /\ effect (fun _ => False) no_loc s s' /\
    api s' = api s /\ faults s' = faults s /\ calls s' = calls s).
Proof.
  unfold decode. destruct (decide (mLabels m = ∅)) as [He|Hne].
  - eexists _, s. split; [reflexivity|]. split; [|split; [apply effect_refl | auto]].
    unfold decoded; simpl. repeat split; auto.
    unfold freeze; simpl. destruct m; simpl in *. subst. reflexivity.
  - eexists _, _. split; [reflexivity|]. split; [|split; [apply effect_alloc | auto]].
    unfold decoded; simpl. repeat split; auto.
    unfold freeze; simpl. rewrite lookup_app_r by lia. rewrite Nat.sub_diag. simpl.
    destruct m; reflexivity.
Qed.

Lemma client_Get_returns c ns name obj s :
  returns (client_Get c ns name obj) s (fun '(o, err) s' =>
    effect (eq (c, (kind obj, (ns, name)))) no_loc s s' /\
    api s' = api s /\ faults s' = tail (faults s) /\
    calls s' = CallGet c (kind obj) ns name :: calls s /\
    match mjoin (head (faults s)) with
    | Some r => err = Some (StatusError r) /\ o = obj /\ heap s' = heap s
    | None =>
        match api s !! (c, (kind obj, (ns, name))) with
        | None => err = Some (StatusError NotFound) /\ o = obj /\ heap s' = heap s
        | Some m =>
            err = None /\
            decoded (kind obj) ns name m (snd (begin_call (CallGet c (kind obj) ns name) s)) s' o
        end
    end).
Proof.
  unfold client_Get, begin_call_M.
  pose proof (effect_call (eq (c, (kind obj, (ns, name)))) (CallGet c (kind obj) ns name) s eq_refl) as Hc.
  unfold returns, bind, gets, ret, begin_call in *.
  destruct (mjoin (head (faults s))) as [r|].
  { eexists _, _. split; [reflexivity|]. split; [exact Hc|]. simpl. repeat split; auto. }
  cbn [api].
  destruct (api s !! (c, (kind obj, (ns, name)))) as [m|] eqn:Hm.
  2:{ eexists _, _. split; [reflexivity|]. split; [exact Hc|]. simpl. repeat split; auto. }
  match goal with |- context [decode _ _ _ _ ?s1] =>
    destruct (decode_returns (kind obj) ns name m s1)
      as (o & s' & Hd & Hdec & Heff & Ha & Hf & Hcl) end.
  rewrite Hd. eexists _, _. split; [reflexivity|].
  split.
  { eapply effect_trans; [exact Hc|].
    eapply effect_mono; [| |exact Heff]; simpl; tauto. }
  simpl in *. rewrite Ha, Hf, Hcl. do 3 (split; [reflexivity|]). split; [reflexivity | exact Hdec].
Qed.

Lemma effect_insert K L k m s :
  K k -> effect K L s (set_api (<[k := m]> (api s)) s).
Proof.
  intros Hk. apply effect_set_api. intros key Hn.
  apply lookup_insert_ne. intros ->. auto.
Qed.

Lemma effect_delete K L k s :
  K k -> effect K L s (set_api (delete k (api s)) s).
Proof.
  intros Hk. apply effect_set_api. intros key Hn.
  apply lookup_delete_ne. intros ->. auto.
Qed.

Lemma client_Create_returns c obj s :
  returns (client_Create c obj) s (fun err s' =>
    effect (eq (obj_key c obj)) no_loc s s' /\
    heap s' = heap s /\ faults s' = tail (faults s) /\
    calls s' = CallCreate c (kind obj) (Namespace obj) (Name obj) (freeze (heap s) obj) :: calls s /\
    match mjoin (head (faults s)) with
    | Some r => err = Some (StatusError r) /\ api s' = api s
    | None =>
        match api s !! obj_key c obj with
        | Some _ => err = Some (StatusError AlreadyExists) /\ api s' = api s
        | None => err = None /\ api s' = <[obj_key c obj := freeze (heap s) obj]> (api s)
        end
    end).
Proof.
  unfold client_Create, begin_call_M, obj_key.
  pose proof (effect_call (eq (obj_key c obj))
    (CallCreate c (kind obj) (Namespace obj) (Name obj) (freeze (heap s) obj)) s eq_refl) as Hc.
  unfold returns, bind, gets, ret, modify, begin_call, obj_key in *. simpl in Hc.
  destruct (mjoin (head (faults s))) as [r|].
  { eexists _, _. split; [reflexivity|]. split; [exact Hc|]. simpl. rewrite ?Hm. repeat split; auto. }
  simpl.
  destruct (api s !! (c, (kind obj, (Namespace obj, Name obj)))) as [m|] eqn:Hm.
  { eexists _, _. split; [reflexivity|]. split; [exact Hc|]. simpl. rewrite ?Hm. repeat split; auto. }
  eexists _, _. split; [reflexivity|]. split.
  { eapply effect_trans; [exact Hc|]. apply (effect_insert _ _ _ _ (mkState _ _ _ _ _)). reflexivity. }
  simpl. rewrite ?Hm. repeat split; auto.
Qed.

Lemma client_Update_returns c obj s :
  returns (client_Update c obj) s (fun err s' =>
    effect (eq (obj_key c obj)) no_loc s s' /\
    heap s' = heap s /\ faults s' = tail (faults s) /\
    calls s' = CallUpdate c (kind obj) (Namespace obj) (Name obj) (freeze (heap s) obj) :: calls s /\
    match mjoin (head (faults s)) with
    | Some r => err = Some (StatusError r) /\ api s' = api s
    | None =>
        match api s !! obj_key c obj with
        | None => err = Some (StatusError NotFound) /\ api s' = api s
        | Some _ => err = None /\ api s' = <[obj_key c obj := freeze (heap s) obj]> (api s)
        end
    end).
Proof.
  unfold client_Update, begin_call_M, obj_key.
  pose proof (effect_call (eq (obj_key c obj))
    (CallUpdate c (kind obj) (Namespace obj) (Name obj) (freeze (heap s) obj)) s eq_refl) as Hc.
  unfold returns, bind, gets, ret, modify, begin_call, obj_key in *. simpl in Hc.
  destruct (mjoin (head (faults s))) as [r|].
  { eexists _, _. split; [reflexivity|]. split; [exact Hc|]. simpl. rewrite ?Hm. repeat split; auto. }
  simpl.
  destruct (api s !! (c, (kind obj, (Namespace obj, Name obj)))) as [m|] eqn:Hm.
  2:{ eexists _, _. split; [reflexivity|]. split; [exact Hc|]. simpl. rewrite ?Hm. repeat split; auto. }
  eexists _, _. split; [reflexivity|]. split.
  { eapply effect_trans; [exact Hc|]. apply (effect_insert _ _ _ _ (mkState _ _ _ _ _)). reflexivity. }
  simpl. rewrite ?Hm. repeat split; auto.
Qed.

Lemma client_Delete_returns c obj s :
  returns (client_Delete c obj) s (fun err s' =>
    effect (eq (obj_key c obj)) no_loc s s' /\
    heap s' = heap s /\ faults s' = tail (faults s) /\
    calls s' = CallDelete c (kind obj) (Namespace obj) (Name obj) :: calls s /\
    match mjoin (head (faults s)) with
    | Some r => err = Some (StatusError r) /\ api s' = api s
    | None =>
        match api s !! obj_key c obj with
        | None => err = Some (StatusError NotFound) /\ api s' = api s
        | Some _ => err = None /\ api s' = delete (obj_key c obj) (api s)
        end
    end).
Proof.
  unfold client_Delete, begin_call_M, obj_key.
  pose proof (effect_call (eq (obj_key c obj))
    (CallDelete c (kind obj) (Namespace obj) (Name obj)) s eq_refl) as Hc.
  unfold returns, bind, gets, ret, modify, begin_call, obj_key in *. simpl in Hc.
  destruct (mjoin (head (faults s))) as [r|].
  { eexists _, _. split; [reflexivity|]. split; [exact Hc|]. simpl. rewrite ?Hm. repeat split; auto. }
  simpl.
  destruct (api s !! (c, (kind obj, (Namespace obj, Name obj)))) as [m|] eqn:Hm.
  2:{ eexists _, _. split; [reflexivity|]. split; [exact Hc|]. simpl. rewrite ?Hm. repeat split; auto. }
  eexists _, _. split; [reflexivity|]. split.
  { eapply effect_trans; [exact Hc|]. apply (effect_delete _ _ _ (mkState _ _ _ _ _)). reflexivity. }
  simpl. rewrite ?Hm. repeat split; auto.
Qed.

Lemma returns_gets {A B} (g : State -> A) (k : A -> M B) s (Q : B -> State -> Prop) :
  returns (k (g s)) s Q -> returns (bind (gets g) k) s Q.
Proof. intros (b & s' & H & HQ). exists b, s'. split; [exact H | exact HQ]. Qed.

Lemma returns_modify {B} (g : State -> State) (k : unit -> M B) s (Q : B -> State -> Prop) :
  returns (k tt) (g s) Q -> returns (bind (modify g) k) s Q.
Proof. intros (b & s' & H & HQ). exists b, s'. split; [exact H | exact HQ]. Qed.

Lemma mutate_fst f key obj : (mutate f key obj).1 = (f obj).1.
Proof.
  unfold mutate. destruct (f obj) as [o [e|]]; simpl; [reflexivity|].
  destruct (decide _); reflexivity.
Qed.

Lemma CreateOrUpdate_returns c obj f s :
  preserves_identity f ->
  returns (CreateOrUpdate c obj f) s (fun '(obj', op, err) s' =>
    effect (eq (obj_key c obj)) no_loc s s' /\
    obj_key c obj' = obj_key c obj /\
    (err = None ->
       (exists o, obj' = (f o).1) /\
       api s' !! obj_key c obj = Some (freeze (heap s') obj'))).
Proof.
  intros Hf. unfold CreateOrUpdate. cbn zeta. simpl fst. simpl snd.
  eapply returns_bind; [apply client_Get_returns|].
  intros [o e] s1 (Heff & Hapi & _ & _ & Hcase).
  assert (Hko : obj_key c o = obj_key c obj /\
                (e = None -> api s1 !! obj_key c obj = Some (freeze (heap s1) o))).
  { destruct (mjoin (head (faults s)));
      [destruct Hcase as (-> & -> & _); split; [reflexivity|discriminate]|].
    unfold obj_key. rewrite Hapi.
    destruct (api s !! _) as [m|];
      [|destruct Hcase as (-> & -> & _); split; [reflexivity|discriminate]].
    destruct Hcase as (_ & Hk & Hn & Hna & Hfr & _). split; [congruence|].
    intros _. rewrite Hfr. reflexivity. }
  destruct Hko as (Hk & Hko).
  pose proof (mutate_fst f (Namespace obj, Name obj) o) as Hmu.
  assert (Hkeq : obj_key c (f o).1 = obj_key c obj).
  { rewrite <- Hk. unfold obj_key. destruct (Hf o) as (-> & -> & ->). reflexivity. }
  destruct e as [e|].
  - destruct (negb (IsNotFound e)).
    { apply returns_ret. split; [exact Heff|]. split; [exact Hk | discriminate]. }
    destruct (mutate f (Namespace obj, Name obj) o) as [o' [e'|]]; simpl in Hmu; subst o'.
    { apply returns_ret. split; [exact Heff|]. split; [exact Hkeq | discriminate]. }
    eapply returns_bind; [apply client_Create_returns|].
    intros e2 s2 (Heff2 & Hh & _ & _ & Hcase2).
    rewrite Hkeq in *.
    assert (He2 : e2 = None -> api s2 !! obj_key c obj = Some (freeze (heap s2) (f o).1)).
    { intros ->. destruct (mjoin (head (faults s1))); [destruct Hcase2; discriminate|].
      destruct (api s1 !! _); [destruct Hcase2; discriminate|].
      destruct Hcase2 as (_ & ->). rewrite Hh. apply lookup_insert_eq. }
    destruct e2 as [e2|]; apply returns_ret.
    + split; [eapply effect_trans; eassumption|]. split; [exact Hkeq | discriminate].
    + split; [eapply effect_trans; eassumption|]. split; [exact Hkeq|]. intros _.
      split; eauto.
  - specialize (Hko eq_refl).
    apply returns_gets.
    destruct (mutate f (Namespace obj, Name obj) o) as [o' [e'|]]; simpl in Hmu; subst o'.
    { apply returns_ret. split; [exact Heff|]. split; [exact Hkeq | discriminate]. }
    apply returns_gets.
    destruct (decide _) as [Heq|Hne].
    { apply returns_ret. split; [exact Heff|]. split; [exact Hkeq|]. intros _.
      split; eauto. rewrite Hko. f_equal. exact Heq. }
    eapply returns_bind; [apply client_Update_returns|].
    intros e2 s2 (Heff2 & Hh & _ & _ & Hcase2).
    rewrite Hkeq in *.
    assert (He2 : e2 = None -> api s2 !! obj_key c obj = Some (freeze (heap s2) (f o).1)).
    { intros ->. destruct (mjoin (head (faults s1))); [destruct Hcase2; discriminate|].
      destruct (api s1 !! _); [|destruct Hcase2; discriminate].
      destruct Hcase2 as (_ & ->). rewrite Hh. apply lookup_insert_eq. }
    destruct e2 as [e2|]; apply returns_ret.
    + split; [eapply effect_trans; eassumption|]. split; [exact Hkeq | discriminate].
    + split; [eapply effect_trans; eassumption|]. split; [exact Hkeq|]. intros _.
      split; eauto.
Qed.

Lemma backoff_loop_returns {St} (condition : St -> M (St * bool * option error))
    (I Q : St -> State -> Prop) n st s :
  (forall st s, I st s ->
     returns (condition st) s (fun '(st', ok, err) s' =>
       I st' s' /\ (err = None -> ok = true -> Q st' s'))) ->
  I st s ->
  returns (backoff_loop n condition st) s (fun '(st', err) s' =>
    I st' s' /\ (err = None -> Q st' s')).
Proof.
  intros Hc. revert st s. induction n as [|n IH]; intros st s HI; simpl.
  - apply returns_ret. split; [exact HI | discriminate].
  - eapply returns_bind; [apply Hc; exact HI|].
    intros [[st' ok] [e|]] s' (HI' & HQ).
    + apply returns_ret. split; [exact HI' | discriminate].
    + destruct ok.
      * apply returns_ret. split; [exact HI' | auto].
      * apply IH. exact HI'.
Qed.

Lemma CreateOrUpdateWithRetries_returns c obj f s :
  preserves_identity f ->
  returns (CreateOrUpdateWithRetries c obj f) s (fun '(obj', op, err) s' =>
    effect (eq (obj_key c obj)) no_loc s s' /\
    obj_key c obj' = obj_key c obj /\
    (err = None ->
       (exists o, obj' = (f o).1) /\
       api s' !! obj_key c obj = Some (freeze (heap s') obj'))).
Proof.
  intros Hf. unfold CreateOrUpdateWithRetries, ExponentialBackoff.
  eapply returns_bind.
  - apply (backoff_loop_returns (retry_condition c f)
      (fun st s' => effect (eq (obj_key c obj)) no_loc s s' /\ obj_key c st.1 = obj_key c obj)
      (fun st s' => (exists o, st.1 = (f o).1) /\
                    api s' !! obj_key c obj = Some (freeze (heap s') st.1))).
    + intros [o op] s1 (Heff & Hk). unfold retry_condition. simpl fst.
      eapply returns_bind; [apply CreateOrUpdate_returns; exact Hf|].
      intros [[o' op'] e] s2 (Heff2 & Hk2 & Hok). simpl in Hk. rewrite Hk in *.
      assert (effect (eq (obj_key c obj)) no_loc s s2) by (eapply effect_trans; eassumption).
      destruct e as [e|].
      * destruct (negb (IsConflict e)); apply returns_ret; simpl;
          (split; [split; [assumption | congruence] | discriminate]).
      * apply returns_ret; simpl. split; [split; [assumption | congruence]|]. auto.
    + split; [apply effect_refl | reflexivity].
  - intros [[o op] e] s' ((Heff & Hk) & HQ). apply returns_ret. simpl in *. auto.
Qed.

Lemma client_Get_total c ns name obj s : returns (client_Get c ns name obj) s (fun _ _ => True).
Proof. eapply returns_mono; [apply client_Get_returns|]. auto. Qed.

Lemma CreateOrUpdate_total c obj f s :
  exists r s', CreateOrUpdate c obj f s = (Normal r, s').
Proof.
  assert (H : returns (CreateOrUpdate c obj f) s (fun _ _ => True)).
  { unfold CreateOrUpdate. cbn zeta.
    eapply returns_bind; [apply client_Get_total|].
    intros [o [e|]] s1 _.
    - destruct (negb (IsNotFound e)); [apply returns_ret; exact I|].
      destruct (mutate f _ o) as [o' [e'|]]; [apply returns_ret; exact I|].
      eapply returns_bind; [apply client_Create_returns|].
      intros [e2|] s2 _; apply returns_ret; exact I.
    - apply returns_gets.
      destruct (mutate f _ o) as [o' [e'|]]; [apply returns_ret; exact I|].
      apply returns_gets. destruct (decide _); [apply returns_ret; exact I|].
      eapply returns_bind; [apply client_Update_returns|].
      intros [e2|] s2 _; apply returns_ret; exact I. }
  destruct H as (r & s' & H & _). eauto.
Qed.

Lemma backoff_loop_attempts c f n obj op0 s :
  exists i obj' op err s',
    i <= n /\
    (forall j, j < i ->
       exists o op1 e s1,
         CreateOrUpdate c (after_attempts c f j obj s).1 f (after_attempts c f j obj s).2
           = (Normal (o, op1, Some e), s1) /\ IsConflict e = true) /\
    CreateOrUpdate c (after_attempts c f i obj s).1 f (after_attempts c f i obj s).2
      = (Normal (obj', op, err), s') /\
    backoff_loop (S n) (retry_condition c f) (obj, op0) s
      = (Normal (obj', op, surfaced err), s') /\
    (forall e, err = Some e -> IsConflict e = true -> i = n).
Proof.
  revert obj op0 s. induction n as [|n IH]; intros obj op0 s.
  - destruct (CreateOrUpdate_total c obj f s) as ([[o op] err] & s1 & H).
    exists 0, o, op, err, s1. split; [lia|]. split; [intros j Hj; lia|].
    split; [exact H|]. split; [|reflexivity].
    simpl. unfold bind, retry_condition, bind. simpl fst. rewrite H.
    destruct err as [e|]; simpl; [|reflexivity].
    destruct (IsConflict e); reflexivity.
  - destruct (CreateOrUpdate_total c obj f s) as ([[o op] err] & s1 & H).
    assert (Hstop : (forall e, err = Some e -> IsConflict e = false) ->
      backoff_loop (S (S n)) (retry_condition c f) (obj, op0) s
        = (Normal (o, op, surfaced err), s1)).
    { intros Hnc. cbn [backoff_loop]. unfold bind at 1. unfold retry_condition at 1.
      unfold bind at 1. simpl fst. rewrite H.
      destruct err as [e|]; simpl; [|reflexivity].
      rewrite (Hnc e eq_refl). reflexivity. }
    destruct err as [e|].
    2:{ exists 0, o, op, None, s1. split; [lia|]. split; [intros j Hj; lia|].
        split; [exact H|]. split; [apply Hstop; discriminate | discriminate]. }
    destruct (IsConflict e) eqn:Hce.
    2:{ exists 0, o, op, (Some e), s1. split; [lia|]. split; [intros j Hj; lia|].
        split; [exact H|]. split; [apply Hstop; congruence | congruence]. }
    destruct (IH o op s1) as (i & obj' & op' & err' & s' & Hi & Hprev & Hlast & Hrun & Hex).
    exists (S i), obj', op', err', s'. split; [lia|].
    assert (Hshift : forall j, after_attempts c f (S j) obj s = after_attempts c f j o s1).
    { intros j. simpl. rewrite H. reflexivity. }
    split; [|split; [|split]].
    + intros [|j] Hj.
      * simpl. exists o, op, e, s1. split; [exact H | exact Hce].
      * rewrite Hshift. apply Hprev. lia.
    + rewrite Hshift. exact Hlast.
    + rewrite <- Hrun. cbn [backoff_loop]. unfold bind at 1. unfold retry_condition at 1.
      unfold bind at 1. simpl fst. rewrite H. simpl. rewrite Hce. reflexivity.
    + intros e' He' Hc'. f_equal. eauto.
Qed.

(** C2.  Upsert with retry.  For every client, object and mutation
    function, [CreateOrUpdateWithRetries] makes at most four attempts, each
    one a whole fetch-mutate-write cycle ([CreateOrUpdate]).  Every attempt
    before the last failed with a conflict.  The call ends in the state the
    last attempt left, so nothing is attempted after it.  If the last
    attempt succeeded no error is returned; if it failed with an error that
    is not a conflict, that error is returned as it is; it failed with a
    conflict only if it was the fourth attempt, and the caller then gets
    the timeout error of the exhausted backoff. *)
Theorem CreateOrUpdateWithRetries_retry_policy c obj f s :
  exists i obj' op err s',
    i < 4 /\
    (forall j, j < i ->
       exists o op1 e s1,
         CreateOrUpdate c (after_attempts c f j obj s).1 f (after_attempts c f j obj s).2
           = (Normal (o, op1, Some e), s1) /\ IsConflict e = true) /\
    CreateOrUpdate c (after_attempts c f i obj s).1 f (after_attempts c f i obj s).2
      = (Normal (obj', op, err), s') /\
    CreateOrUpdateWithRetries c obj f s = (Normal (obj', op, surfaced err), s') /\
    (forall e, err = Some e -> IsConflict e = true -> i = 3).
Proof.
  destruct (backoff_loop_attempts c f 3 obj "" s)
    as (i & obj' & op & err & s' & Hi & Hprev & Hlast & Hrun & Hex).
  exists i, obj', op, err, s'. split; [lia|]. split; [exact Hprev|]. split; [exact Hlast|].
  split; [|exact Hex].
  unfold CreateOrUpdateWithRetries, ExponentialBackoff.
  change (Z.to_nat (Steps DefaultBackoff)) with 4.
  unfold bind. rewrite Hrun. reflexivity.
Qed.

Lemma effect_seq K (L L' : loc -> Prop) s1 s2 s3 :
  effect K L s1 s2 -> effect K L' s2 s3 ->
  (forall l, L' l -> l < length (heap s1) -> L l) ->
  effect K L s1 s3.
Proof.
  intros [n1 l1 h1 a1 (t1 & c1 & F1)] [n2 l2 h2 a2 (t2 & c2 & F2)] HL. split.
  - congruence.
  - lia.
  - intros l Hl Hlt. rewrite h2; [auto | | lia]. intros Hl'. apply Hl. auto.
  - intros key Hk. rewrite a2 by auto. auto.
  - exists (t2 ++ t1). split.
    + rewrite c2, c1. apply app_assoc.
    + apply Forall_app. auto.
Qed.

Lemma no_mutation_identity : preserves_identity no_mutation.
Proof. intros o. simpl. auto. Qed.

Lemma argocd_mutation_identity labels cluster jsonConfig :
  preserves_identity (argocd_mutation labels cluster jsonConfig).
Proof. intros o. simpl. auto. Qed.

Section Specs.
Variable lib : Lib.

Lemma Reconcile_eq_steps r req s :
  Reconcile lib r req s = Reconcile_steps lib r req s.
Proof.
  unfold Reconcile, Reconcile_steps, reconcileHosted, fetchHostedCluster, cleanupSecret,
    selectNamespace, registerLocal, disabled, fetchKubeconfig, bootstrapHosted, mirrorLabels.
  unfold bind, ret.
  repeat (case_match; simplify_eq; try reflexivity).
Qed.

Lemma setupClusterConfig_returns clnt server name hc s :
  returns (setupClusterConfig clnt server name hc) s (fun r s' =>
    effect (identity_keys clnt) no_loc s s' /\
    match r with
    | Ok cl =>
        exists m,
          api s' !! tokenSecretKey clnt = Some m /\
          data_get (mData m) "token" <> "" /\
          data_get (mData m) "ca.crt" <> "" /\
          cl = mkCluster name server
                 (mkClusterConfig (data_get (mData m) "token")
                    (mkTLSClientConfig
                       (base64_URLEncoding_EncodeToString (data_get (mData m) "ca.crt"))))
                 hc
    | Err _ => True
    end).
Proof.
  unfold setupClusterConfig.
  eapply returns_bind; [apply CreateOrUpdateWithRetries_returns, no_mutation_identity|].
  intros [[sa op1] e1] s1 (Heff1 & Hk1 & _).
  assert (E1 : effect (identity_keys clnt) no_loc s s1).
  { eapply effect_mono; [| |exact Heff1]; [|tauto]. intros k <-. left. reflexivity. }
  destruct e1 as [e1|]; [apply returns_ret; split; [exact E1 | exact I]|].
  eapply returns_bind; [apply CreateOrUpdateWithRetries_returns, no_mutation_identity|].
  intros [[crb op2] e2] s2 (Heff2 & Hk2 & _).
  assert (E2 : effect (identity_keys clnt) no_loc s s2).
  { eapply effect_trans; [exact E1|].
    eapply effect_mono; [| |exact Heff2]; [|tauto]. intros k <-. right. left. reflexivity. }
  destruct e2 as [e2|]; [apply returns_ret; split; [exact E2 | exact I]|].
  eapply returns_bind; [apply CreateOrUpdateWithRetries_returns, no_mutation_identity|].
  intros [[tok op3] e3] s3 (Heff3 & Hk3 & _).
  assert (E3 : effect (identity_keys clnt) no_loc s s3).
  { eapply effect_trans; [exact E2|].
    eapply effect_mono; [| |exact Heff3]; [|tauto]. intros k <-. right. right. reflexivity. }
  destruct e3 as [e3|]; [apply returns_ret; split; [exact E3 | exact I]|].
  assert (Hkind : kind tok = Secret) by (injection Hk3 as -> _ _; reflexivity).
  eapply returns_bind; [apply client_Get_returns|].
  intros [fetched e4] s4 (Heff4 & Hapi & _ & _ & Hcase). rewrite Hkind in *.
  assert (E4 : effect (identity_keys clnt) no_loc s s4).
  { eapply effect_trans; [exact E3|].
    eapply effect_mono; [| |exact Heff4]; [|tauto]. intros k <-. right. right. reflexivity. }
  destruct e4 as [e4|]; [apply returns_ret; split; [exact E4 | exact I]|].
  assert (Hm : exists m, api s4 !! tokenSecretKey clnt = Some m /\ Data fetched = mData m).
  { destruct (mjoin (head (faults s3))); [destruct Hcase; discriminate|].
    unfold tokenSecretKey. rewrite Hapi.
    destruct (api s3 !! _) as [m|]; [|destruct Hcase; discriminate].
    exists m. split; [reflexivity|].
    destruct Hcase as (_ & _ & _ & _ & Hfr & _). rewrite <- Hfr. reflexivity. }
  destruct Hm as (m & Hm & HD). rewrite HD.
  destruct (decide (String.length (data_get (mData m) "token") = 0)) as [Ht|Ht];
    [apply returns_ret; split; [exact E4 | exact I]|].
  destruct (decide (String.length (data_get (mData m) "ca.crt") = 0)) as [Hc|Hc];
    [apply returns_ret; split; [exact E4 | exact I]|].
  apply returns_ret. split; [exact E4|]. exists m. split; [exact Hm|].
  split; [intros E; apply Ht; rewrite E; reflexivity|].
  split; [intros E; apply Hc; rewrite E; reflexivity|]. reflexivity.
Qed.

Lemma effect_alter K (L : loc -> Prop) g l s :
  L l -> effect K L s (set_heap (alter g l (heap s)) s).
Proof.
  intros Hl. split; simpl; auto.
  - rewrite length_alter. lia.
  - intros l' Hl' _. apply list_lookup_alter_ne. intros ->. auto.
  - exists []. split; [reflexivity | constructor].
Qed.

Lemma returns_map_literal {B} content (k : option loc -> M B) s (Q : B -> State -> Prop) :
  returns (k (Some (length (heap s)))) (set_heap (heap s ++ [content]) s) Q ->
  returns (bind (map_literal content) k) s Q.
Proof. intros (b & s' & H & HQ). exists b, s'. split; [exact H | exact HQ]. Qed.

Lemma createArgoCDClusterSecret_returns r l cluster s :
  l < length (heap s) ->
  returns (createArgoCDClusterSecret lib r (Some l) cluster) s (fun err s' =>
    effect (eq (r, (Secret, (gitOpsNamespace s, Cluster_Name cluster)))) (eq l) s s' /\
    heap s' !! l = <[argoCDSecretTypeLabel := argoCDSecretTypeCluster]> <$> heap s !! l /\
    (err = None ->
       exists m,
         api s' !! (r, (Secret, (gitOpsNamespace s, Cluster_Name cluster))) = Some m /\
         mLabels m = heap_read (heap s') (Some l) /\
         mData m = argoSecretData lib cluster /\
         mType m = SecretTypeOpaque)).
Proof.
  intros HL. unfold createArgoCDClusterSecret. cbn zeta.
  unfold map_assign. apply returns_modify.
  set (s0 := set_heap _ s).
  assert (E0 : effect (eq (r, (Secret, (gitOpsNamespace s, Cluster_Name cluster)))) (eq l) s s0)
    by (apply effect_alter; reflexivity).
  assert (H0 : heap s0 !! l = <[argoCDSecretTypeLabel := argoCDSecretTypeCluster]> <$> heap s !! l).
  { unfold s0. simpl. apply list_lookup_alter_eq. }
  unfold json_Marshal. apply returns_gets.
  eapply returns_bind;
    [apply CreateOrUpdateWithRetries_returns, argocd_mutation_identity|].
  intros [[o op] e] s' (Heff & _ & Hok). unfold obj_key in *. simpl in Heff, Hok.
  change (gitOpsNamespace s0) with (gitOpsNamespace s) in *.
  assert (H1 : heap s' !! l = <[argoCDSecretTypeLabel := argoCDSecretTypeCluster]> <$> heap s !! l).
  { rewrite <- H0. apply (eff_heap _ _ _ _ Heff); [tauto|].
    unfold s0; simpl. rewrite length_alter. exact HL. }
  assert (E1 : effect (eq (r, (Secret, (gitOpsNamespace s, Cluster_Name cluster)))) (eq l) s s').
  { eapply effect_trans; [exact E0|]. eapply effect_mono; [| |exact Heff]; [auto | intros ? []]. }
  assert (Hfin : e = None -> exists m,
         api s' !! (r, (Secret, (gitOpsNamespace s, Cluster_Name cluster))) = Some m /\
         mLabels m = heap_read (heap s') (Some l) /\
         mData m = argoSecretData lib cluster /\
         mType m = SecretTypeOpaque).
  { intros He. destruct (Hok He) as ((o0 & ->) & Hst).
    eexists. split; [exact Hst|]. unfold freeze; simpl. auto. }
  destruct e as [e|]; apply returns_ret; auto.
Qed.

Lemma registerLocal_returns r s :
  returns (registerLocal lib r) s (fun err s' =>
    effect (local_keys r (gitOpsNamespace s)) no_loc s s' /\
    (err = None ->
       exists m,
         api s' !! (r, (Secret, (gitOpsNamespace s, "in-cluster-local"))) = Some m /\
         mLabels m = localLabels /\ mType m = SecretTypeOpaque /\
         data_get (mData m) "name" = "in-cluster-local" /\
         data_get (mData m) "server" = "https://kubernetes.default.svc")).
Proof.
  unfold registerLocal.
  eapply returns_bind; [apply setupClusterConfig_returns|].
  intros [cl|e] s1 (Heff & Hcl).
  2:{ apply returns_ret. split; [|discriminate].
      eapply effect_mono; [| |exact Heff]; [|tauto]. intros k Hk. left. exact Hk. }
  destruct Hcl as (m & _ & _ & _ & ->).
  assert (E1 : effect (local_keys r (gitOpsNamespace s)) no_loc s s1).
  { eapply effect_mono; [| |exact Heff]; [|tauto]. intros k Hk. left. exact Hk. }
  apply returns_map_literal.
  set (s2 := set_heap _ s1).
  pose proof (effect_alloc (local_keys r (gitOpsNamespace s)) no_loc
                {[ "hyper-ops.cloudmonkey.org/type" := "local" ]} s1) as E2. fold s2 in E2.
  assert (H2 : heap s2 !! length (heap s1) = Some {[ "hyper-ops.cloudmonkey.org/type" := "local" ]}).
  { unfold s2. simpl. rewrite lookup_app_r by lia. rewrite Nat.sub_diag. reflexivity. }
  assert (Hfresh : length (heap s1) < length (heap s2)) by (eapply lookup_lt_Some, H2).
  eapply returns_mono; [apply (createArgoCDClusterSecret_returns _ _ _ _ Hfresh)|].
  intros err s' (Heff3 & Hh3 & Hok). rewrite H2 in Hh3.
  change (gitOpsNamespace s2) with (gitOpsNamespace s1) in Heff3, Hok.
  rewrite (eff_ns _ _ _ _ E1) in Heff3, Hok. simpl in Heff3, Hok. split.
  - eapply effect_trans; [exact E1|]. eapply effect_seq; [exact E2| |].
    + eapply effect_mono; [| |exact Heff3]; [|intros l Hl; exact Hl].
      intros k <-. right. reflexivity.
    + intros l <- Hlt. simpl in Hlt. lia.
  - intros He. destruct (Hok He) as (m' & Hst & Hlb & Hd & Ht).
    exists m'. rewrite Hd, Hlb. simpl. rewrite Hh3. auto.
Qed.

(** *** The label loop *)

Lemma set_heap_id s : set_heap (heap s) s = s.
Proof. destruct s; reflexivity. Qed.

Lemma for_each_delete_run l keys s :
  for_each keys (fun k =>
      if negb (String.prefix hyperOpsLabel k) then map_delete (Some l) k else ret tt) s
  = (Normal tt,
     set_heap (alter (fun m => foldl drop_unprefixed m keys) l (heap s)) s).
Proof.
  revert s. induction keys as [|k keys IH]; intros s; simpl.
  - unfold ret. rewrite list_alter_id by reflexivity. rewrite set_heap_id. reflexivity.
  - unfold bind. unfold drop_unprefixed at 2.
    destruct (String.prefix hyperOpsLabel k); simpl.
    + apply IH.
    + unfold modify. rewrite IH. simpl. unfold set_heap; simpl.
      rewrite list_alter_alter_eq. reflexivity.
Qed.

Lemma foldl_drop_lookup keys (m : gmap string string) k :
  foldl drop_unprefixed m keys !! k =
    if decide (k ∈ keys /\ String.prefix hyperOpsLabel k = false) then None else m !! k.
Proof.
  revert m. induction keys as [|k0 keys IH]; intros m; cbn [foldl].
  - case_decide as H; [|reflexivity]. destruct H as [H _]. inversion H.
  - rewrite IH. unfold drop_unprefixed.
    destruct (decide (k ∈ keys /\ _)) as [[Hin Hp]|Hn].
    + rewrite decide_True; [reflexivity|]. split; [right; exact Hin | exact Hp].
    + destruct (decide (k ∈ k0 :: keys /\ _)) as [[Hin Hp]|Hn'].
      * apply elem_of_cons in Hin as [->|Hin]; [|exfalso; apply Hn; auto].
        rewrite Hp. apply lookup_delete_eq.
      * destruct (String.prefix hyperOpsLabel k0) eqn:Hp0; [reflexivity|].
        apply lookup_delete_ne. intros ->. apply Hn'. split; [left | exact Hp0].
Qed.

Lemma foldl_drop_range (L : gmap string string) :
  foldl drop_unprefixed L (map_to_list L).*1 = keepPrefixed L.
Proof.
  apply map_eq. intros k. rewrite foldl_drop_lookup. unfold keepPrefixed.
  rewrite map_lookup_filter.
  destruct (L !! k) as [v|] eqn:Hk; simpl.
  - destruct (String.prefix hyperOpsLabel k) eqn:Hp.
    + rewrite decide_False by (intros [_ ?]; discriminate).
      rewrite option_guard_True by done. reflexivity.
    + rewrite decide_True.
      * rewrite option_guard_False by done. reflexivity.
      * split; [|reflexivity]. apply list_elem_of_fmap. exists (k, v).
        split; [reflexivity|]. apply elem_of_map_to_list. exact Hk.
  - destruct (decide _); reflexivity.
Qed.

Lemma mirrorLabels_returns hc l L0 s :
  Labels hc = Some l -> heap s !! l = Some L0 ->
  returns (mirrorLabels hc) s (fun _ s' =>
    effect (fun _ => False) (eq l) s s' /\
    api s' = api s /\ calls s' = calls s /\ faults s' = faults s /\
    heap s' !! l = Some (<["hyper-ops.cloudmonkey.org/type" := "hosted"]> (keepPrefixed L0))).
Proof.
  intros Hl HL. unfold mirrorLabels. cbn zeta. rewrite Hl.
  unfold returns, map_range, bind, gets, ret, map_assign, modify. cbv beta.
  rewrite for_each_delete_run.
  eexists tt, _. split; [reflexivity|]. simpl.
  rewrite HL. simpl. split; [|split; [reflexivity|split; [reflexivity|split; [reflexivity|]]]].
  - split; simpl; auto.
    + rewrite !length_alter. lia.
    + intros l' Hl' _. rewrite !list_lookup_alter_ne by congruence. reflexivity.
    + exists []. split; [reflexivity | constructor].
  - rewrite !list_lookup_alter_eq, HL. simpl. rewrite foldl_drop_range. reflexivity.
Qed.

Lemma mirrorLabels_nil hc s :
  Labels hc = None ->
  mirrorLabels hc s = (Panic "assignment to entry in nil map", s).
Proof.
  intros Hl. unfold mirrorLabels. cbn zeta. rewrite Hl. reflexivity.
Qed.

Lemma selectNamespace_run hc s :
  selectNamespace hc s =
    (Normal tt,
     set_gitOpsNamespace
       (default (gitOpsNamespace s)
          (heap_read (heap s) (Labels hc) !! hyperOpsGitopsNamespaceLabel)) s).
Proof.
  unfold selectNamespace, map_index, bind, gets, ret, modify.
  destruct (heap_read (heap s) (Labels hc) !! hyperOpsGitopsNamespaceLabel) eqn:E; simpl.
  - rewrite E. reflexivity.
  - destruct s; reflexivity.
Qed.

Lemma disabled_run hc s :
  disabled hc s =
    (Normal (bool_decide (heap_read (heap s) (Labels hc) !! hyperOpsEnabledLabel = Some "false")), s).
Proof.
  unfold disabled, map_index, bind, gets, ret.
  destruct (heap_read (heap s) (Labels hc) !! hyperOpsEnabledLabel) as [v|]; simpl.
  - f_equal. f_equal. apply bool_decide_ext. split; congruence.
  - reflexivity.
Qed.

(** *** Fetching *)

Lemma decoded_facts k ns name m s s' o :
  decoded k ns name m s s' o ->
  kind o = k /\ Namespace o = ns /\ Name o = name /\
  DeletionTimestamp o = mDeletionTimestamp m /\ Data o = mData m /\
  heap_read (heap s') (Labels o) = mLabels m /\
  length (heap s) <= length (heap s') /\
  (forall l, Labels o = Some l ->
     length (heap s) <= l /\ l < length (heap s') /\ heap s' !! l = Some (mLabels m)).
Proof.
  intros (Hk & Hns & Hn & Hfr & Hl). subst m. unfold freeze; simpl.
  repeat (split; [auto; fail|]).
  destruct (Labels o) as [l|].
  - destruct Hl as (-> & Hh). simpl in Hh.
    assert (Hlen : length (heap s') = S (length (heap s))).
    { rewrite Hh at 1. rewrite length_app. simpl. lia. }
    split; [lia|]. intros l [= <-]. split; [lia|]. split; [lia|].
    unfold heap_read.
    destruct (heap s' !! length (heap s)) as [X|] eqn:HX; [reflexivity|].
    apply lookup_ge_None in HX. lia.
  - subst s'. split; [lia | discriminate].
Qed.

Lemma client_Get_ok c ns name obj s m :
  mjoin (head (faults s)) = None ->
  api s !! (c, (kind obj, (ns, name))) = Some m ->
  exists o s',
    client_Get c ns name obj s = (Normal (o, None), s') /\
    decoded (kind obj) ns name m (begin_call (CallGet c (kind obj) ns name) s).2 s' o /\
    api s' = api s /\ faults s' = tail (faults s) /\
    calls s' = CallGet c (kind obj) ns name :: calls s /\
    gitOpsNamespace s' = gitOpsNamespace s.
Proof.
  intros Hf Hm.
  destruct (client_Get_returns c ns name obj s) as ([o e] & s' & Hrun & Heff & Ha & Hfl & Hc & Hcase).
  rewrite Hf, Hm in Hcase. destruct Hcase as (-> & Hdec).
  exists o, s'. repeat (split; [assumption|]). apply (eff_ns _ _ _ _ Heff).
Qed.

Lemma client_Get_inv c ns name obj s o s' :
  client_Get c ns name obj s = (Normal (o, None), s') ->
  exists m,
    mjoin (head (faults s)) = None /\
    api s !! (c, (kind obj, (ns, name))) = Some m /\
    decoded (kind obj) ns name m (begin_call (CallGet c (kind obj) ns name) s).2 s' o /\
    api s' = api s /\ faults s' = tail (faults s) /\
    calls s' = CallGet c (kind obj) ns name :: calls s /\
    gitOpsNamespace s' = gitOpsNamespace s.
Proof.
  intros Hrun.
  destruct (returns_run _ _ _ _ _ (client_Get_returns c ns name obj s) Hrun)
    as ([o' e] & [= <- <-] & Heff & Ha & Hfl & Hc & Hcase).
  destruct (mjoin (head (faults s))); [destruct Hcase; discriminate|].
  destruct (api s !! _) as [m|]; [|destruct Hcase; discriminate].
  destruct Hcase as (_ & Hdec). exists m.
  repeat (split; [auto; fail|]). apply (eff_ns _ _ _ _ Heff).
Qed.

Lemma client_Get_failed c ns name obj s o e s' :
  client_Get c ns name obj s = (Normal (o, Some e), s') ->
  o = obj /\ api s' = api s /\ heap s' = heap s /\
  calls s' = CallGet c (kind obj) ns name :: calls s /\
  gitOpsNamespace s' = gitOpsNamespace s.
Proof.
  intros Hrun.
  destruct (returns_run _ _ _ _ _ (client_Get_returns c ns name obj s) Hrun)
    as ([o' e'] & [= <- <-] & Heff & Ha & Hfl & Hc & Hcase).
  assert (o = obj /\ heap s' = heap s) as [-> Hh].
  { destruct (mjoin (head (faults s))); [destruct Hcase as (_ & ? & ?); auto|].
    destruct (api s !! _); [destruct Hcase; discriminate | destruct Hcase as (_ & ? & ?); auto]. }
  repeat (split; [auto; fail|]). apply (eff_ns _ _ _ _ Heff).
Qed.

(** *** Deletion *)

(** C7.  Deletion.  When the fetch of the resource succeeds and the
    resource carries a deletion marker, [Reconcile] makes exactly one more
    client call: the delete of the secret named after the resource in the
    current value of [gitOpsNamespace].  Its result is that of the delete
    with not-found ignored: success when the delete succeeds or reports
    not-found.  Unless the environment fails the delete, the store ends as
    the store before without that one secret.  Nothing else happens: no
    bootstrap, no upsert, and [gitOpsNamespace] is unchanged. *)
Theorem Reconcile_deleting r req s m :
  mjoin (head (faults s)) = None ->
  api s !! (r, (HostedCluster, (req_Namespace req, req_Name req))) = Some m ->
  mDeletionTimestamp m <> None ->
  exists s',
    Reconcile lib r req s
      = (Normal (Result_zero, IgnoreNotFound (StatusError <$> mjoin (faults s !! 1))), s') /\
    (mjoin (faults s !! 1) = None \/ mjoin (faults s !! 1) = Some NotFound ->
       Reconcile lib r req s = (Normal (Result_zero, None), s')) /\
    calls s' = CallDelete r Secret (gitOpsNamespace s) (req_Name req)
               :: CallGet r HostedCluster (req_Namespace req) (req_Name req)
               :: calls s /\
    api s' = match mjoin (faults s !! 1) with
             | None => delete (r, (Secret, (gitOpsNamespace s, req_Name req))) (api s)
             | Some _ => api s
             end /\
    gitOpsNamespace s' = gitOpsNamespace s.
Proof.
  intros Hf Hm Hdel.
  destruct (client_Get_ok r (req_Namespace req) (req_Name req) (newObject HostedCluster "" "")
              s m Hf Hm) as (hc & s1 & Hrun & Hdec & Ha & Hfl & Hc & Hns).
  destruct (decoded_facts _ _ _ _ _ _ _ Hdec) as (_ & _ & _ & Hd & _).
  assert (Hfate : mjoin (head (faults s1)) = mjoin (faults s !! 1)).
  { rewrite Hfl. destruct (faults s) as [|a [|b t]]; reflexivity. }
  destruct (client_Delete_returns r (newObject Secret (gitOpsNamespace s1) (req_Name req)) s1)
    as (e & s' & Hrun2 & Heff & _ & _ & Hc2 & Hcase).
  unfold obj_key in Hcase. simpl in Hcase, Hc2. rewrite Hfate, Ha, Hns in Hcase.
  rewrite Hns, Hc in Hc2.
  assert (Hres : Reconcile lib r req s = (Normal (Result_zero, IgnoreNotFound e), s')).
  { rewrite Reconcile_eq_steps. unfold Reconcile_steps, fetchHostedCluster.
    unfold bind at 1. rewrite Hrun.
    rewrite decide_True by (rewrite Hd; exact Hdel).
    unfold cleanupSecret, bind, gets. rewrite Hrun2. destruct e; reflexivity. }
  exists s'.
  assert (He : IgnoreNotFound e = IgnoreNotFound (StatusError <$> mjoin (faults s !! 1)) /\
               api s' = match mjoin (faults s !! 1) with
                        | None => delete (r, (Secret, (gitOpsNamespace s, req_Name req))) (api s)
                        | Some _ => api s
                        end).
  { revert Hcase. destruct (mjoin (faults s !! 1)) as [rs|]; cbn beta iota;
      [intros [-> ->]; auto|].
    destruct (api s !! (r, (Secret, (gitOpsNamespace s, req_Name req)))) eqn:Hsec;
      cbn beta iota; intros [-> ->]; simpl; [auto|].
    split; [reflexivity|]. symmetry. apply delete_id. exact Hsec. }
  destruct He as (He & Hapi). rewrite He in Hres.
  split; [exact Hres|]. split.
  { intros [Hn|Hn]; rewrite Hn in Hres; exact Hres. }
  split; [exact Hc2|]. split; [exact Hapi|].
  rewrite (eff_ns _ _ _ _ Heff). exact Hns.
Qed.

(** *** Server address *)

(** C10.  [getServerFromKubeConfig] reads the first cluster entry without
    a bounds check: when the kubeconfig parses to a non-empty cluster list
    it returns the server of the first entry and no error; when it parses
    to an empty cluster list the index access panics. *)
Theorem getServerFromKubeConfig_first_cluster kubeConfigSecret kubeconfig s :
  yaml_Unmarshal lib (data_get (Data kubeConfigSecret) "kubeconfig") = Ok kubeconfig ->
  (forall c0 rest, api.Clusters kubeconfig = c0 :: rest ->
     getServerFromKubeConfig lib kubeConfigSecret s
       = (Normal (api.Server (api.Cluster_ c0), None), s)) /\
  (api.Clusters kubeconfig = [] ->
     exists msg, getServerFromKubeConfig lib kubeConfigSecret s = (Panic msg, s)).
Proof.
  intros Hy. unfold getServerFromKubeConfig. rewrite Hy. split.
  - intros c0 rest ->. reflexivity.
  - intros ->. eexists. reflexivity.
Qed.

(** *** Bootstrap readiness *)

Lemma bind_run {A B} (m : M A) (k : A -> M B) s a s1 :
  m s = (Normal a, s1) -> bind m k s = k a s1.
Proof. intros H. unfold bind. rewrite H. reflexivity. Qed.

Lemma length_zero_empty (x : string) : String.length x = 0 <-> x = "".
Proof. destruct x; simpl; split; intros H; try reflexivity; discriminate. Qed.

(** C6.  Bootstrap readiness.  When the service account, the role binding
    and the token secret have been ensured and the token secret has been
    fetched again under its derived name, [setupClusterConfig] returns an
    error if and only if the token field or the CA certificate field of
    the fetched secret is empty; the error is one of the two not-ready
    errors.  It returns in the state the fetch left, after that single
    get: no wait, no poll. *)
Theorem setupClusterConfig_readiness clnt server name hc
    s sa op1 s1 crb op2 s2 tok op3 s3 fetched s4 :
  CreateOrUpdateWithRetries clnt serviceAccount no_mutation s
    = (Normal (sa, op1, None), s1) ->
  CreateOrUpdateWithRetries clnt clusterRoleBinding no_mutation s1
    = (Normal (crb, op2, None), s2) ->
  CreateOrUpdateWithRetries clnt (tokenSecret sa) no_mutation s2
    = (Normal (tok, op3, None), s3) ->
  client_Get clnt "kube-system" "hyper-ops-admin-token" tok s3
    = (Normal (fetched, None), s4) ->
  exists r m,
    setupClusterConfig clnt server name hc s = (Normal r, s4) /\
    api s3 !! tokenSecretKey clnt = Some m /\ Data fetched = mData m /\
    calls s4 = CallGet clnt Secret "kube-system" "hyper-ops-admin-token" :: calls s3 /\
    ((exists e, r = Err e) <->
       data_get (mData m) "token" = "" \/ data_get (mData m) "ca.crt" = "") /\
    (forall e, r = Err e -> e = Errorf "token not found" \/ e = Errorf "ca.crt not found").
Proof.
  intros H1 H2 H3 H4.
  destruct (returns_run _ _ _ _ _
              (CreateOrUpdateWithRetries_returns clnt (tokenSecret sa) no_mutation s2
                 no_mutation_identity) H3) as ([[tok' op'] e'] & [= <- <- <-] & _ & Hk & _).
  assert (Hkind : kind tok = Secret) by (injection Hk as -> _ _; reflexivity).
  destruct (client_Get_inv _ _ _ _ _ _ _ H4) as (m & _ & Hm & Hdec & _ & _ & Hc & _).
  rewrite Hkind in *.
  destruct (decoded_facts _ _ _ _ _ _ _ Hdec) as (_ & _ & _ & _ & HD & _).
  set (r := if decide (String.length (data_get (mData m) "token") = 0)
            then Err (Errorf "token not found")
            else if decide (String.length (data_get (mData m) "ca.crt") = 0)
            then Err (Errorf "ca.crt not found")
            else Ok (mkCluster name server
                       (mkClusterConfig (data_get (mData m) "token")
                          (mkTLSClientConfig
                             (base64_URLEncoding_EncodeToString (data_get (mData m) "ca.crt"))))
                       hc)).
  exists r, m. split; [|split; [exact Hm|split; [exact HD|split; [exact Hc|]]]].
  - unfold setupClusterConfig. cbn zeta.
    rewrite (bind_run _ _ _ _ _ H1). cbn beta iota.
    rewrite (bind_run _ _ _ _ _ H2). cbn beta iota.
    rewrite (bind_run _ _ _ _ _ H3). cbn beta iota.
    rewrite (bind_run _ _ _ _ _ H4). cbn beta iota.
    rewrite HD. unfold r. repeat case_decide; reflexivity.
  - unfold r. rewrite <- !length_zero_empty. split.
    + split.
      * intros (e & He). repeat case_decide; auto. discriminate He.
      * intros Hor. repeat case_decide; eauto. destruct Hor; contradiction.
    + intros e. repeat case_decide; intros [= <-]; auto.
Qed.

(** *** Local registration and the enablement gate *)

Lemma heap_read_kept K s s' (o : option loc) :
  effect K no_loc s s' ->
  (forall l, o = Some l -> l < length (heap s)) ->
  heap_read (heap s') o = heap_read (heap s) o.
Proof.
  intros Heff Hl. destruct o as [l|]; [|reflexivity]. simpl.
  rewrite (eff_heap _ _ _ _ Heff); [reflexivity | intros [] | auto].
Qed.

(* the state in which [Reconcile] checks the enablement label *)
Lemma Reconcile_gate r req s hc s1 s2 s3 :
  fetchHostedCluster r req s = (Normal (hc, None), s1) ->
  DeletionTimestamp hc = None ->
  selectNamespace hc s1 = (Normal tt, s2) ->
  registerLocal lib r s2 = (Normal None, s3) ->
  Reconcile lib r req s =
    (if bool_decide (heap_read (heap s3) (Labels hc) !! hyperOpsEnabledLabel = Some "false")
     then (Normal (Result_zero, None), s3)
     else reconcileHosted lib r req hc s3).
Proof.
  intros Hfetch Hlive Hsel Hloc.
  rewrite Reconcile_eq_steps. unfold Reconcile_steps.
  rewrite (bind_run _ _ _ _ _ Hfetch). cbn beta iota.
  rewrite decide_False by (rewrite Hlive; auto).
  rewrite (bind_run _ _ _ _ _ Hsel).
  rewrite (bind_run _ _ _ _ _ Hloc). cbn beta iota.
  rewrite (bind_run _ _ _ _ _ (disabled_run hc s3)).
  destruct (bool_decide _); reflexivity.
Qed.

(** *** The kubeconfig secret *)

(** C5, as amended.  When the reconcile of an enabled resource reaches the
    fetch of the secret <name>-admin-kubeconfig and that fetch fails,
    [Reconcile] returns at once, in the state the fetch left: nothing is
    stored after the local registration, so no hosted secret is produced.
    A failure other than not-found is returned to the caller; a not-found
    failure (the secret is absent) is ignored and [Reconcile] returns
    success. *)
Theorem Reconcile_kubeconfig_fetch_failure r req s hc s1 s2 s3 kubeConfigSecret e s4 :
  fetchHostedCluster r req s = (Normal (hc, None), s1) ->
  DeletionTimestamp hc = None ->
  selectNamespace hc s1 = (Normal tt, s2) ->
  registerLocal lib r s2 = (Normal None, s3) ->
  disabled hc s3 = (Normal false, s3) ->
  fetchKubeconfig r req s3 = (Normal (kubeConfigSecret, Some e), s4) ->
  Reconcile lib r req s
    = (Normal (Result_zero, if IsNotFound e then None else Some e), s4) /\
  api s4 = api s3 /\
  calls s4 = CallGet r Secret (req_Namespace req) (req_Name req +:+ "-admin-kubeconfig")
             :: calls s3.
Proof.
  intros Hfetch Hlive Hsel Hloc Hen Hkube.
  destruct (client_Get_failed _ _ _ _ _ _ _ _ Hkube) as (_ & Ha & _ & Hc & _).
  split; [|split; [exact Ha | exact Hc]].
  rewrite (Reconcile_gate r req s hc s1 s2 s3) by assumption.
  rewrite disabled_run in Hen. injection Hen as ->.
  unfold reconcileHosted. rewrite (bind_run _ _ _ _ _ Hkube). reflexivity.
Qed.

(** *** The hosted cluster *)

Lemma bootstrapHosted_frame hc kubeConfigSecret s out s' :
  bootstrapHosted lib hc kubeConfigSecret s = (out, s') ->
  exists clnt,
    effect (identity_keys clnt) no_loc s s' /\
    forall cluster, out = Normal (Ok cluster) ->
      exists server m,
        api s' !! tokenSecretKey clnt = Some m /\
        data_get (mData m) "token" <> "" /\
        data_get (mData m) "ca.crt" <> "" /\
        cluster = mkCluster (Name hc) server
                    (mkClusterConfig (data_get (mData m) "token")
                       (mkTLSClientConfig
                          (base64_URLEncoding_EncodeToString (data_get (mData m) "ca.crt"))))
                    (Some hc).
Proof.
  unfold bootstrapHosted. intros Hrun.
  destruct (GetClientForCluster lib _) as [clnt|e].
  2:{ injection Hrun as <- <-. exists 0. split; [apply effect_refl | discriminate]. }
  unfold getServerFromKubeConfig in Hrun.
  destruct (yaml_Unmarshal lib _) as [cfg|e].
  2:{ injection Hrun as <- <-. exists 0. split; [apply effect_refl | discriminate]. }
  destruct (api.Clusters cfg) as [|c0 rest].
  { injection Hrun as <- <-. exists 0. split; [apply effect_refl | discriminate]. }
  change (setupClusterConfig clnt (api.Server (api.Cluster_ c0)) (Name hc) (Some hc) s
            = (out, s')) in Hrun.
  destruct (returns_run _ _ _ _ _ (setupClusterConfig_returns clnt _ (Name hc) (Some hc) s) Hrun)
    as (res & -> & Heff & Hres).
  exists clnt. split; [exact Heff|].
  intros cluster [= ->]. destruct Hres as (m & Hm & Ht & Hc & ->). eauto 10.
Qed.

Lemma mirrorLabels_run hc l s :
  Labels hc = Some l ->
  exists h, mirrorLabels hc s = (Normal tt, set_heap h s) /\ length h = length (heap s).
Proof.
  intros Hl. unfold mirrorLabels. cbn zeta. rewrite Hl.
  unfold map_range, bind, gets, ret, map_assign, modify. cbv beta.
  rewrite for_each_delete_run. eexists. split; [reflexivity|].
  simpl. rewrite !length_alter. reflexivity.
Qed.

(* the outcome of a reconcile that reaches the label loop *)
Lemma Reconcile_hosted_outcome r req s hc s1 s2 s3 kubeConfigSecret s4 cluster s5 :
  fetchHostedCluster r req s = (Normal (hc, None), s1) ->
  DeletionTimestamp hc = None ->
  selectNamespace hc s1 = (Normal tt, s2) ->
  registerLocal lib r s2 = (Normal None, s3) ->
  disabled hc s3 = (Normal false, s3) ->
  fetchKubeconfig r req s3 = (Normal (kubeConfigSecret, None), s4) ->
  bootstrapHosted lib hc kubeConfigSecret s4 = (Normal (Ok cluster), s5) ->
  exists m,
    api s !! (r, (HostedCluster, (req_Namespace req, req_Name req))) = Some m /\
    Cluster_Name cluster = req_Name req /\
    match Labels hc with
    | None =>
        mLabels m = ∅ /\
        exists msg, Reconcile lib r req s = (Panic msg, s5)
    | Some l =>
        heap s1 !! l = Some (mLabels m) /\
        exists err s',
          Reconcile lib r req s = (Normal (Result_zero, err), s') /\
          heap s' !! l = Some (hostedLabels (mLabels m)) /\
          gitOpsNamespace s' = gitOpsNamespace s2 /\
          (err = None ->
             exists ms,
               api s' !! (r, (Secret, (gitOpsNamespace s', req_Name req))) = Some ms /\
               mLabels ms = hostedLabels (mLabels m) /\
               mData ms = argoSecretData lib cluster /\
               mType ms = SecretTypeOpaque)
    end.
Proof.
  intros Hfetch Hlive Hsel Hloc Hen Hkube Hboot.
  destruct (client_Get_inv _ _ _ _ _ _ _ Hfetch) as (m & _ & Hm & Hdec & _).
  destruct (decoded_facts _ _ _ _ _ _ _ Hdec) as (_ & _ & Hname & _ & _ & Hlab & _ & Hl).
  simpl in Hm. exists m. split; [exact Hm|].
  destruct (bootstrapHosted_frame _ _ _ _ _ Hboot) as (clnt & Eboot & Hcl).
  destruct (Hcl cluster eq_refl) as (server & mt & _ & _ & _ & Hcluster).
  assert (Hcn : Cluster_Name cluster = req_Name req) by (rewrite Hcluster; exact Hname).
  split; [exact Hcn|].
  assert (Hrec : Reconcile lib r req s =
    (let* _ := mirrorLabels hc in
     let* err := createArgoCDClusterSecret lib r (Labels hc) cluster in
     match err with
     | Some e => ret (Result_zero, Some e)
     | None => ret (Result_zero, None)
     end) s5).
  { rewrite (Reconcile_gate r req s hc s1 s2 s3) by assumption.
    rewrite disabled_run in Hen. injection Hen as ->.
    unfold reconcileHosted. rewrite (bind_run _ _ _ _ _ Hkube). cbn beta iota.
    rewrite (bind_run _ _ _ _ _ Hboot). reflexivity. }
  destruct (Labels hc) as [l|] eqn:HL.
  2:{ split.
      - rewrite <- Hlab. reflexivity.
      - eexists. rewrite Hrec. unfold bind. rewrite mirrorLabels_nil by exact HL. reflexivity. }
  destruct (Hl l eq_refl) as (_ & Hlt & Hcell). split; [exact Hcell|].
  (* the label map of the fetched object is left alone up to the label loop *)
  rewrite selectNamespace_run in Hsel. injection Hsel as Hs2.
  destruct (returns_run _ _ _ _ _ (registerLocal_returns r s2) Hloc) as (? & [= <-] & Eloc & _).
  destruct (client_Get_inv _ _ _ _ _ _ _ Hkube) as (mk & _ & _ & Hdk & _ & _ & _ & Hnsk).
  destruct (decoded_facts _ _ _ _ _ _ _ Hdk) as (_ & _ & _ & _ & _ & _ & Hlenk & _).
  destruct (returns_run _ _ _ _ _
              (client_Get_returns r (req_Namespace req) (req_Name req +:+ "-admin-kubeconfig")
                 (newObject Secret "" "") s3) Hkube) as (? & [= <-] & Ekube & _).
  assert (H2 : heap s2 = heap s1) by (rewrite <- Hs2; reflexivity).
  assert (Hcell5 : heap s5 !! l = Some (mLabels m) /\ l < length (heap s5)).
  { assert (l < length (heap s2)) by (rewrite H2; exact Hlt).
    pose proof (eff_len _ _ _ _ Eloc). pose proof (eff_len _ _ _ _ Ekube).
    pose proof (eff_len _ _ _ _ Eboot). split; [|lia].
    rewrite (eff_heap _ _ _ _ Eboot) by (auto; lia).
    rewrite (eff_heap _ _ _ _ Ekube) by (auto; lia).
    rewrite (eff_heap _ _ _ _ Eloc) by (auto; lia).
    rewrite H2. exact Hcell. }
  destruct Hcell5 as (Hcell5 & Hlt5).
  assert (Hns5 : gitOpsNamespace s5 = gitOpsNamespace s2).
  { rewrite (eff_ns _ _ _ _ Eboot), (eff_ns _ _ _ _ Ekube), (eff_ns _ _ _ _ Eloc). reflexivity. }
  destruct (mirrorLabels_returns hc l (mLabels m) s5 HL Hcell5)
    as ([] & s6 & Hmir & Emir & Ha6 & _ & _ & Hcell6).
  assert (Hlt6 : l < length (heap s6)) by (eapply lookup_lt_Some, Hcell6).
  destruct (createArgoCDClusterSecret_returns r l cluster s6 Hlt6)
    as (err & s' & Hsec & Esec & Hcell' & Hok).
  rewrite Hcell6 in Hcell'. simpl in Hcell'. fold (hostedLabels (mLabels m)) in Hcell'.
  assert (Hns' : gitOpsNamespace s' = gitOpsNamespace s2).
  { rewrite (eff_ns _ _ _ _ Esec), (eff_ns _ _ _ _ Emir). exact Hns5. }
  exists err, s'. split; [|split; [exact Hcell'|split; [exact Hns'|]]].
  - rewrite Hrec. rewrite (bind_run _ _ _ _ _ Hmir).
    rewrite (bind_run _ _ _ _ _ Hsec). destruct err; reflexivity.
  - intros He. destruct (Hok He) as (ms & Hms & Hlb & Hd & Ht).
    exists ms. rewrite Hns', <- Hns5, <- (eff_ns _ _ _ _ Emir), <- Hcn.
    split; [exact Hms|]. split; [|auto].
    rewrite Hlb. simpl. rewrite Hcell'. reflexivity.
Qed.

(** *** Label propagation *)

Lemma hostedLabels_lookup (L : gmap string string) k :
  hostedLabels L !! k =
    if decide (k = argoCDSecretTypeLabel) then Some argoCDSecretTypeCluster
    else if decide (k = "hyper-ops.cloudmonkey.org/type") then Some "hosted"
    else if String.prefix hyperOpsLabel k then L !! k else None.
Proof.
  unfold hostedLabels, keepPrefixed.
  destruct (decide (k = argoCDSecretTypeLabel)) as [->|H1]; [apply lookup_insert_eq|].
  rewrite lookup_insert_ne by congruence.
  destruct (decide (k = "hyper-ops.cloudmonkey.org/type")) as [->|H2]; [apply lookup_insert_eq|].
  rewrite lookup_insert_ne by congruence.
  rewrite map_lookup_filter. destruct (L !! k) as [v|]; simpl.
  - destruct (String.prefix hyperOpsLabel k) eqn:Hp.
    + rewrite option_guard_True by done. reflexivity.
    + rewrite option_guard_False by (simpl; congruence). reflexivity.
  - destruct (String.prefix hyperOpsLabel k); reflexivity.
Qed.

(** C3, as amended.  Label propagation.  When the reconcile of an enabled
    resource runs to its end and succeeds, the secret named after the
    resource holds as labels exactly the source labels whose key has the
    prefix hyper-ops.cloudmonkey.org, with the type label set to "hosted"
    and the GitOps secret-type label set to "cluster".  Every other key
    without the prefix is absent from the output; the secret-type key,
    which has no prefix, is always present with the value "cluster". *)
Theorem Reconcile_label_propagation r req s hc s1 s2 s3 kubeConfigSecret s4 cluster s5 res s' :
  fetchHostedCluster r req s = (Normal (hc, None), s1) ->
  DeletionTimestamp hc = None ->
  selectNamespace hc s1 = (Normal tt, s2) ->
  registerLocal lib r s2 = (Normal None, s3) ->
  disabled hc s3 = (Normal false, s3) ->
  fetchKubeconfig r req s3 = (Normal (kubeConfigSecret, None), s4) ->
  bootstrapHosted lib hc kubeConfigSecret s4 = (Normal (Ok cluster), s5) ->
  Reconcile lib r req s = (Normal (res, None), s') ->
  exists m ms,
    api s !! (r, (HostedCluster, (req_Namespace req, req_Name req))) = Some m /\
    api s' !! (r, (Secret, (gitOpsNamespace s', req_Name req))) = Some ms /\
    mLabels ms = hostedLabels (mLabels m) /\
    mLabels ms !! "hyper-ops.cloudmonkey.org/type" = Some "hosted" /\
    mLabels ms !! argoCDSecretTypeLabel = Some "cluster" /\
    (forall k, k <> "hyper-ops.cloudmonkey.org/type" -> k <> argoCDSecretTypeLabel ->
       mLabels ms !! k = if String.prefix hyperOpsLabel k then mLabels m !! k else None).
Proof.
  intros Hfetch Hlive Hsel Hloc Hen Hkube Hboot Hrun.
  destruct (Reconcile_hosted_outcome r req s hc s1 s2 s3 kubeConfigSecret s4 cluster s5)
    as (m & Hm & _ & Hout); try assumption.
  destruct (Labels hc) as [l|].
  2:{ destruct Hout as (_ & msg & Hp). rewrite Hp in Hrun. discriminate. }
  destruct Hout as (_ & err & s'' & Hrun' & _ & _ & Hok).
  rewrite Hrun' in Hrun. injection Hrun as _ -> ->.
  destruct (Hok eq_refl) as (ms & Hms & Hlb & _).
  exists m, ms. split; [exact Hm|]. split; [exact Hms|]. split; [exact Hlb|].
  rewrite Hlb. split; [|split].
  - rewrite hostedLabels_lookup. reflexivity.
  - rewrite hostedLabels_lookup. reflexivity.
  - intros k H1 H2. rewrite hostedLabels_lookup.
    rewrite decide_False by exact H2. rewrite decide_False by exact H1. reflexivity.
Qed.

(** *** The synthesized secret *)

Lemma createArgoCDClusterSecret_frame r labels cluster s out s' :
  createArgoCDClusterSecret lib r labels cluster s = (out, s') ->
  (forall key, key <> (r, (Secret, (gitOpsNamespace s, Cluster_Name cluster))) ->
     api s' !! key = api s !! key) /\
  (out = Normal None ->
     exists m,
       api s' !! (r, (Secret, (gitOpsNamespace s, Cluster_Name cluster))) = Some m /\
       mData m = argoSecretData lib cluster /\ mType m = SecretTypeOpaque).
Proof.
  destruct labels as [l|].
  2:{ intros [= <- <-]. split; [reflexivity | discriminate]. }
  unfold createArgoCDClusterSecret, map_assign, json_Marshal. cbn zeta.
  set (s0 := set_heap (alter (insert argoCDSecretTypeLabel argoCDSecretTypeCluster) l (heap s)) s).
  change (bind (modify _) ?k s) with (k tt s0). cbn beta.
  change (bind (gets gitOpsNamespace) ?k s0) with (k (gitOpsNamespace s) s0). cbn beta.
  intros Hrun.
  destruct (CreateOrUpdateWithRetries_returns r
              (newObject Secret (gitOpsNamespace s) (Cluster_Name cluster))
              (argocd_mutation (Some l) cluster
                 (json_encode lib (ClusterConfig_json (Cluster_Config cluster)))) s0
              (argocd_mutation_identity _ _ _))
    as ([[o op] e] & s1 & Hup & Heff & _ & Hok).
  rewrite (bind_run _ _ _ _ _ Hup) in Hrun. unfold obj_key in *; simpl in Heff, Hok.
  assert (s' = s1 /\ out = Normal e) as [-> ->]
    by (destruct e; injection Hrun as <- <-; auto).
  split.
  - intros key Hk. rewrite (eff_api _ _ _ _ Heff) by congruence. reflexivity.
  - intros [= ->]. destruct (Hok eq_refl) as ((o0 & ->) & Hst).
    eexists. split; [exact Hst|]. unfold freeze; simpl. auto.
Qed.

(** C8.  Data shape.  A secret synthesized by [createArgoCDClusterSecret]
    for a cluster that [setupClusterConfig] produced has exactly three data
    fields: "name" with the cluster name, "server" with the server address
    and "config" with the encoding of the JSON object
    {bearerToken, tlsClientConfig: {caData}}, where bearerToken is the
    token of the token secret as it is and caData the base64 encoding (URL
    alphabet, padded) of its CA certificate; both are non-empty. *)
Theorem createArgoCDClusterSecret_data_shape clnt server name hc s cluster s1 r labels s2 s3 :
  setupClusterConfig clnt server name hc s = (Normal (Ok cluster), s1) ->
  createArgoCDClusterSecret lib r labels cluster s2 = (Normal None, s3) ->
  exists tok m,
    api s1 !! tokenSecretKey clnt = Some tok /\
    data_get (mData tok) "token" <> "" /\ data_get (mData tok) "ca.crt" <> "" /\
    api s3 !! (r, (Secret, (gitOpsNamespace s2, name))) = Some m /\
    mData m =
      {[ "name" := name;
         "server" := server;
         "config" :=
           json_encode lib
             (JObject
                [("bearerToken", JString (data_get (mData tok) "token"));
                 ("tlsClientConfig",
                  JObject
                    [("caData",
                      JString (base64_URLEncoding_EncodeToString
                                 (data_get (mData tok) "ca.crt")))])]) ]} /\
    dom (mData m) = {[ "name"; "server"; "config" ]}.
Proof.
  intros Hsetup Hsec.
  destruct (returns_run _ _ _ _ _ (setupClusterConfig_returns clnt server name hc s) Hsetup)
    as (? & [= <-] & _ & tok & Htok & Ht & Hc & ->).
  destruct (createArgoCDClusterSecret_frame _ _ _ _ _ _ Hsec) as (_ & Hok).
  destruct (Hok eq_refl) as (m & Hm & Hd & _). simpl in Hm.
  exists tok, m. repeat (split; [assumption|]).
  rewrite Hd. unfold argoSecretData.
  rewrite !dom_insert_L, dom_singleton_L. set_solver.
Qed.

(** *** The stored HostedCluster *)

Lemma kept_refl s : HostedClusters_kept s s.
Proof. intros c ns name. reflexivity. Qed.

Lemma kept_trans s1 s2 s3 :
  HostedClusters_kept s1 s2 -> HostedClusters_kept s2 s3 -> HostedClusters_kept s1 s3.
Proof. intros H1 H2 c ns name. rewrite H2. apply H1. Qed.

Lemma kept_api s s' : api s' = api s -> HostedClusters_kept s s'.
Proof. intros H c ns name. rewrite H. reflexivity. Qed.

Lemma effect_kept (K : ApiKey -> Prop) L s s' :
  effect K L s s' -> (forall key, K key -> key.2.1 <> HostedCluster) ->
  HostedClusters_kept s s'.
Proof.
  intros Heff HK c ns name. apply (eff_api _ _ _ _ Heff).
  intros Hk. apply (HK _ Hk). reflexivity.
Qed.

Lemma identity_keys_kind c key : identity_keys c key -> key.2.1 <> HostedCluster.
Proof. intros [H|[H|H]]; subst key; discriminate. Qed.

Lemma local_keys_kind r ns key : local_keys r ns key -> key.2.1 <> HostedCluster.
Proof. intros [H|H]; [eapply identity_keys_kind, H | subst key; discriminate]. Qed.

Lemma reconcileHosted_kept r req hc s out s' :
  reconcileHosted lib r req hc s = (out, s') -> HostedClusters_kept s s'.
Proof.
  unfold reconcileHosted. intros Hrun.
  destruct (client_Get_returns r (req_Namespace req) (req_Name req +:+ "-admin-kubeconfig")
              (newObject Secret "" "") s) as ([kcs e] & s4 & Hk & _ & Ha4 & _).
  unfold fetchKubeconfig in Hrun. rewrite (bind_run _ _ _ _ _ Hk) in Hrun.
  pose proof (kept_api _ _ Ha4) as K4.
  destruct e as [e|]; [injection Hrun as _ <-; exact K4|].
  destruct (bootstrapHosted lib hc kcs s4) as [out5 s5] eqn:Hboot.
  destruct (bootstrapHosted_frame _ _ _ _ _ Hboot) as (clnt & E5 & _).
  pose proof (kept_trans _ _ _ K4 (effect_kept _ _ _ _ E5 (identity_keys_kind clnt))) as K5.
  unfold bind at 1 in Hrun. rewrite Hboot in Hrun.
  destruct out5 as [[cluster|e]|msg]; try (injection Hrun as _ <-; exact K5).
  destruct (mirrorLabels hc s5) as [out6 s6] eqn:Hmir.
  assert (K6 : HostedClusters_kept s s6).
  { apply (kept_trans _ _ _ K5). apply kept_api.
    destruct (Labels hc) as [l|] eqn:HL.
    - destruct (mirrorLabels_run hc l s5 HL) as (h & Hm & _).
      rewrite Hm in Hmir. injection Hmir as _ <-. reflexivity.
    - rewrite mirrorLabels_nil in Hmir by exact HL. injection Hmir as _ <-. reflexivity. }
  unfold bind at 1 in Hrun. rewrite Hmir in Hrun.
  destruct out6 as [[]|msg]; [|injection Hrun as _ <-; exact K6].
  destruct (createArgoCDClusterSecret lib r (Labels hc) cluster s6) as [out7 s7] eqn:Hsec.
  destruct (createArgoCDClusterSecret_frame _ _ _ _ _ _ Hsec) as (Hfr & _).
  assert (K7 : HostedClusters_kept s s7).
  { apply (kept_trans _ _ _ K6). intros c ns name. apply Hfr. discriminate. }
  unfold bind in Hrun. rewrite Hsec in Hrun.
  destruct out7 as [[e|]|msg]; injection Hrun as _ <-; exact K7.
Qed.

Lemma Reconcile_kept r req s out s' :
  Reconcile lib r req s = (out, s') -> HostedClusters_kept s s'.
Proof.
  rewrite Reconcile_eq_steps. unfold Reconcile_steps. intros Hrun.
  destruct (client_Get_returns r (req_Namespace req) (req_Name req)
              (newObject HostedCluster "" "") s) as ([hc e] & s1 & Hf & _ & Ha1 & _).
  unfold fetchHostedCluster in Hrun. rewrite (bind_run _ _ _ _ _ Hf) in Hrun.
  pose proof (kept_api _ _ Ha1) as K1.
  destruct e as [e|]; [injection Hrun as _ <-; exact K1|].
  destruct (decide (DeletionTimestamp hc <> None)).
  { unfold cleanupSecret in Hrun.
    change (bind (gets gitOpsNamespace) ?k s1) with (k (gitOpsNamespace s1) s1) in Hrun.
    cbn beta in Hrun.
    destruct (client_Delete_returns r (newObject Secret (gitOpsNamespace s1) (req_Name req)) s1)
      as (e & s2 & Hd & E2 & _).
    rewrite (bind_run _ _ _ _ _ Hd) in Hrun.
    assert (K2 : HostedClusters_kept s s2).
    { apply (kept_trans _ _ _ K1). apply (effect_kept _ _ _ _ E2). intros key <-. discriminate. }
    destruct e; injection Hrun as _ <-; exact K2. }
  rewrite (bind_run _ _ _ _ _ (selectNamespace_run hc s1)) in Hrun.
  set (s2 := set_gitOpsNamespace _ s1) in Hrun.
  destruct (registerLocal_returns r s2) as (err & s3 & Hreg & E3 & _).
  rewrite (bind_run _ _ _ _ _ Hreg) in Hrun.
  assert (K3 : HostedClusters_kept s s3).
  { apply (kept_trans _ _ _ K1). apply (kept_trans _ s2); [apply kept_api; reflexivity|].
    apply (effect_kept _ _ _ _ E3 (local_keys_kind _ _)). }
  destruct err as [e|]; [injection Hrun as _ <-; exact K3|].
  rewrite (bind_run _ _ _ _ _ (disabled_run hc s3)) in Hrun.
  destruct (bool_decide _); [injection Hrun as _ <-; exact K3|].
  apply (kept_trans _ _ _ K3). eapply reconcileHosted_kept, Hrun.
Qed.

(** C9, as amended.  [Reconcile] never writes a HostedCluster: whatever
    the outcome, every stored HostedCluster, labels included, is the same
    after as before.  The copy in memory is not kept: when the reconcile
    reaches the label loop, the label map decoded by the fetch ends as the
    prefixed labels plus the type and secret-type labels. *)
Theorem Reconcile_reads_HostedCluster r req s out s' :
  Reconcile lib r req s = (out, s') ->
  HostedClusters_kept s s' /\
  forall hc s1 s2 s3 kubeConfigSecret s4 cluster s5,
    fetchHostedCluster r req s = (Normal (hc, None), s1) ->
    DeletionTimestamp hc = None ->
    selectNamespace hc s1 = (Normal tt, s2) ->
    registerLocal lib r s2 = (Normal None, s3) ->
    disabled hc s3 = (Normal false, s3) ->
    fetchKubeconfig r req s3 = (Normal (kubeConfigSecret, None), s4) ->
    bootstrapHosted lib hc kubeConfigSecret s4 = (Normal (Ok cluster), s5) ->
    forall l, Labels hc = Some l ->
      exists m,
        api s' !! (r, (HostedCluster, (req_Namespace req, req_Name req))) = Some m /\
        heap s1 !! l = Some (mLabels m) /\
        heap s' !! l = Some (hostedLabels (mLabels m)).
Proof.
  intros Hrun. pose proof (Reconcile_kept _ _ _ _ _ Hrun) as Hkept.
  split; [exact Hkept|].
  intros hc s1 s2 s3 kcs s4 cluster s5 Hfetch Hlive Hsel Hloc Hen Hkube Hboot l HL.
  destruct (Reconcile_hosted_outcome r req s hc s1 s2 s3 kcs s4 cluster s5)
    as (m & Hm & _ & Hout); try assumption.
  rewrite HL in Hout. destruct Hout as (Hcell & err & s'' & Hrun' & Hcell' & _).
  rewrite Hrun' in Hrun. injection Hrun as _ ->.
  exists m. rewrite Hkept. auto.
Qed.

End Specs.

Section More.
Variable lib : Lib.

(** ** Upserts in a quiet environment *)

Lemma returns_conj {A} (m : M A) s (Q1 Q2 : A -> State -> Prop) :
  returns m s Q1 -> returns m s Q2 -> returns m s (fun a s' => Q1 a s' /\ Q2 a s').
Proof.
  intros (a & s' & H & H1) (a2 & s2 & H' & H2). rewrite H in H'.
  injection H' as <- <-. exists a, s'. auto.
Qed.

Lemma fault_free_head s : fault_free s -> mjoin (head (faults s)) = None.
Proof. intros H. specialize (H 0). rewrite <- head_lookup in H. exact H. Qed.

Lemma fault_free_tail s s' : fault_free s -> faults s' = tail (faults s) -> fault_free s'.
Proof. intros H Ht i. rewrite Ht, lookup_tail. apply H. Qed.

Lemma fault_free_same s s' : fault_free s -> faults s' = faults s -> fault_free s'.
Proof. intros H Ht i. rewrite Ht. apply H. Qed.

Lemma mutate_ok f key o :
  (f o).2 = None -> key = (Namespace (f o).1, Name (f o).1) ->
  mutate f key o = ((f o).1, None).
Proof.
  intros He Hk. unfold mutate. destruct (f o) as [o' e']. simpl in *. subst e'.
  rewrite decide_True by exact Hk. reflexivity.
Qed.

Lemma CreateOrUpdate_fault_free c obj f s :
  preserves_identity f -> (forall o, (f o).2 = None) -> fault_free s ->
  returns (CreateOrUpdate c obj f) s (fun '(obj', op, err) s' =>
    err = None /\ fault_free s' /\
    match api s !! obj_key c obj with
    | None =>
        op = OperationResultCreated /\ obj' = (f obj).1 /\ heap s' = heap s /\
        api s' = <[obj_key c obj := freeze (heap s) obj']> (api s) /\
        calls s' = CallCreate c (kind obj) (Namespace obj) (Name obj) (freeze (heap s) obj')
                   :: CallGet c (kind obj) (Namespace obj) (Name obj) :: calls s
    | Some m =>
        exists o, obj' = (f o).1 /\ freeze (heap s') o = m /\
          if decide (m = freeze (heap s') obj')
          then op = OperationResultNone /\ api s' = api s /\
               calls s' = CallGet c (kind obj) (Namespace obj) (Name obj) :: calls s
          else op = OperationResultUpdated /\
               api s' = <[obj_key c obj := freeze (heap s') obj']> (api s) /\
               calls s' = CallUpdate c (kind obj) (Namespace obj) (Name obj)
                            (freeze (heap s') obj')
                          :: CallGet c (kind obj) (Namespace obj) (Name obj) :: calls s
    end).
Proof.
  intros Hf Hne Hq. unfold CreateOrUpdate. cbn zeta. simpl fst. simpl snd.
  eapply returns_bind; [apply client_Get_returns|].
  intros [o e] s1 (Heff & Hapi & Hfl & Hcalls & Hcase).
  rewrite (fault_free_head s Hq) in Hcase.
  assert (Hq1 : fault_free s1) by (eapply fault_free_tail; eassumption).
  unfold obj_key.
  destruct (api s !! (c, (kind obj, (Namespace obj, Name obj)))) as [m|] eqn:Hlk.
  - destruct Hcase as (-> & Hdk & Hdn & Hdna & Hfr & Hlab).
    destruct (Hf o) as (Hk1 & Hk2 & Hk3).
    apply returns_gets.
    rewrite (mutate_ok f _ o) by (rewrite ?Hk2, ?Hk3; auto; congruence).
    apply returns_gets.
    destruct (decide (freeze (heap s1) o = freeze (heap s1) (f o).1)) as [Heq|Hneq].
    + apply returns_ret. split; [reflexivity|]. split; [exact Hq1|].
      exists o. split; [reflexivity|]. split; [exact Hfr|].
      rewrite decide_True by congruence. auto.
    + eapply returns_bind; [apply client_Update_returns|].
      intros e2 s2 (Heff2 & Hh & Hfl2 & Hcalls2 & Hcase2).
      rewrite (fault_free_head s1 Hq1) in Hcase2.
      unfold obj_key in Hcase2. rewrite Hk1, Hk2, Hk3, Hdk, Hdn, Hdna, Hapi, Hlk in Hcase2.
      destruct Hcase2 as (-> & Hapi2).
      apply returns_ret. split; [reflexivity|].
      split; [eapply fault_free_tail; eassumption|].
      exists o. rewrite Hh. split; [reflexivity|]. split; [exact Hfr|].
      rewrite decide_False by congruence.
      split; [reflexivity|]. split; [rewrite Hapi2, ?Hapi; reflexivity|].
      rewrite Hcalls2, Hcalls, Hk1, Hk2, Hk3, Hdk, Hdn, Hdna. reflexivity.
  - destruct Hcase as (-> & -> & Hh1). simpl.
    destruct (Hf obj) as (Hk1 & Hk2 & Hk3).
    rewrite (mutate_ok f _ obj) by (rewrite ?Hk2, ?Hk3; auto).
    eapply returns_bind; [apply client_Create_returns|].
    intros e2 s2 (Heff2 & Hh & Hfl2 & Hcalls2 & Hcase2).
    rewrite (fault_free_head s1 Hq1) in Hcase2.
    unfold obj_key in Hcase2. rewrite Hk1, Hk2, Hk3, Hapi, Hlk in Hcase2.
    destruct Hcase2 as (-> & Hapi2).
    apply returns_ret. split; [reflexivity|].
    split; [eapply fault_free_tail; eassumption|].
    split; [reflexivity|]. split; [reflexivity|]. split; [congruence|].
    split; [rewrite Hapi2, ?Hapi, ?Hh1; reflexivity|].
    rewrite Hcalls2, Hcalls, Hk1, Hk2, Hk3, Hh1. reflexivity.
Qed.

Lemma CreateOrUpdateWithRetries_first c obj f s o op s' :
  CreateOrUpdate c obj f s = (Normal (o, op, None), s') ->
  CreateOrUpdateWithRetries c obj f s = (Normal (o, op, None), s').
Proof.
  intros H. unfold CreateOrUpdateWithRetries, ExponentialBackoff. simpl.
  unfold bind, retry_condition, bind. simpl. rewrite H. reflexivity.
Qed.

(** X1. In an environment that makes no client call fail, an upsert whose
    mutation keeps the object's identity and returns no error succeeds at
    its first attempt.  When the object is absent it is created from the
    mutated object given by the caller (a Get, then a Create).  When it is
    stored, the stored object is decoded and mutated: if the result equals
    what is stored, the operation is "unchanged" and only the Get is
    issued; otherwise the result is written by an Update after the Get. *)
Theorem CreateOrUpdateWithRetries_fault_free c obj f s :
  preserves_identity f -> (forall o, (f o).2 = None) -> fault_free s ->
  exists obj' op s',
    CreateOrUpdateWithRetries c obj f s = (Normal (obj', op, None), s') /\
    fault_free s' /\
    match api s !! obj_key c obj with
    | None =>
        op = OperationResultCreated /\ obj' = (f obj).1 /\ heap s' = heap s /\
        api s' = <[obj_key c obj := freeze (heap s) obj']> (api s) /\
        calls s' = CallCreate c (kind obj) (Namespace obj) (Name obj) (freeze (heap s) obj')
                   :: CallGet c (kind obj) (Namespace obj) (Name obj) :: calls s
    | Some m =>
        exists o, obj' = (f o).1 /\ freeze (heap s') o = m /\
          if decide (m = freeze (heap s') obj')
          then op = OperationResultNone /\ api s' = api s /\
               calls s' = CallGet c (kind obj) (Namespace obj) (Name obj) :: calls s
          else op = OperationResultUpdated /\
               api s' = <[obj_key c obj := freeze (heap s') obj']> (api s) /\
               calls s' = CallUpdate c (kind obj) (Namespace obj) (Name obj)
                            (freeze (heap s') obj')
                          :: CallGet c (kind obj) (Namespace obj) (Name obj) :: calls s
    end.
Proof.
  intros Hf Hne Hq.
  destruct (CreateOrUpdate_fault_free c obj f s Hf Hne Hq)
    as ([[obj' op] err] & s' & Hrun & -> & Hq' & Hrest).
  exists obj', op, s'. split; [apply CreateOrUpdateWithRetries_first; exact Hrun|].
  split; [exact Hq' | exact Hrest].
Qed.

(** ** Upserts that change nothing *)

Lemma CreateOrUpdate_no_mutation c obj s :
  returns (CreateOrUpdate c obj no_mutation) s (fun '(obj', op, err) s' =>
    (api s' = api s \/
     (api s !! obj_key c obj = None /\ err = None /\
      api s' = <[obj_key c obj := freeze (heap s) obj]> (api s))) /\
    (err <> None -> obj' = obj /\ heap s' = heap s) /\
    (exists t, calls s' = t ++ calls s /\ Forall (fun x => reads_or_creates x = true) t)).
Proof.
  unfold CreateOrUpdate. cbn zeta. simpl fst. simpl snd.
  eapply returns_bind; [apply client_Get_returns|].
  intros [o e] s1 (Heff & Hapi & Hfl & Hcalls & Hcase).
  assert (Hc1 : exists t, calls s1 = t ++ calls s /\ Forall (fun x => reads_or_creates x = true) t).
  { exists [CallGet c (kind obj) (Namespace obj) (Name obj)]. split; [exact Hcalls|].
    repeat constructor. }
  destruct e as [e|].
  - assert (Ho : o = obj /\ heap s1 = heap s).
    { destruct (mjoin (head (faults s))); [tauto|].
      destruct (api s !! _); [destruct Hcase; discriminate | tauto]. }
    destruct Ho as (-> & Hh1).
    destruct (negb (IsNotFound e)).
    { apply returns_ret. split; [left; exact Hapi|]. split; [auto | exact Hc1]. }
    unfold mutate, no_mutation. rewrite decide_True by reflexivity.
    eapply returns_bind; [apply client_Create_returns|].
    intros e2 s2 (Heff2 & Hh & Hfl2 & Hcalls2 & Hcase2).
    assert (Hc2 : exists t, calls s2 = t ++ calls s /\
                            Forall (fun x => reads_or_creates x = true) t).
    { eexists [_; _]. rewrite Hcalls2, Hcalls. split; [reflexivity|]. repeat constructor. }
    assert (Hstore : (e2 <> None /\ api s2 = api s) \/
                     (e2 = None /\ api s !! obj_key c obj = None /\
                      api s2 = <[obj_key c obj := freeze (heap s) obj]> (api s))).
    { rewrite Hapi, Hh1 in Hcase2.
      destruct (mjoin (head (faults s1)));
        [left; destruct Hcase2 as (-> & H); split; [discriminate | congruence]|].
      destruct (api s !! obj_key c obj) eqn:Hlk.
      - left. destruct Hcase2 as (-> & H). split; [discriminate | congruence].
      - right. destruct Hcase2 as (-> & H). auto. }
    destruct e2 as [e2|]; apply returns_ret.
    + split; [left; destruct Hstore as [[_ H]|[H _]]; [exact H | discriminate]|].
      split; [intros _; split; [reflexivity | congruence] | exact Hc2].
    + split; [destruct Hstore as [[H _]|(_ & H1 & H2)]; [congruence | right; auto]|].
      split; [congruence | exact Hc2].
  - assert (Hk : (Namespace obj, Name obj) = (Namespace o, Name o)).
    { destruct (mjoin (head (faults s))); [destruct Hcase; discriminate|].
      destruct (api s !! _); [|destruct Hcase; discriminate].
      destruct Hcase as (_ & _ & -> & -> & _). reflexivity. }
    apply returns_gets. unfold mutate, no_mutation. rewrite decide_True by exact Hk.
    apply returns_gets. rewrite decide_True by reflexivity.
    apply returns_ret. split; [left; exact Hapi|]. split; [congruence | exact Hc1].
Qed.


Lemma additive_refl key m s : additive key m s s.
Proof. split; [left; reflexivity|]. exists []. split; [reflexivity | constructor]. Qed.

Lemma backoff_loop_no_mutation n c obj op0 s :
  returns (backoff_loop n (retry_condition c no_mutation) (obj, op0)) s (fun _ s' =>
    additive (obj_key c obj) (freeze (heap s) obj) s s').
Proof.
  revert op0 s. induction n as [|n IH]; intros op0 s; simpl.
  { apply returns_ret. apply additive_refl. }
  unfold retry_condition at 1. simpl fst.
  eapply returns_bind.
  { eapply returns_bind; [apply CreateOrUpdate_no_mutation|].
    intros [[o op] e] s1 H.
    instantiate (1 := fun '(o, op, ok, err) s1 =>
      additive (obj_key c obj) (freeze (heap s) obj) s s1 /\
      (err = None -> ok = false -> o = obj /\ heap s1 = heap s /\ api s1 = api s)).
    destruct H as (Hst & Hobj & Hcalls).
    assert (Hadd : additive (obj_key c obj) (freeze (heap s) obj) s s1).
    { split; [|exact Hcalls]. destruct Hst as [H|(H1 & _ & H2)]; [left | right]; auto. }
    assert (Hfail : e <> None -> o = obj /\ heap s1 = heap s /\ api s1 = api s).
    { intros He. destruct (Hobj He) as (-> & ->). split; [reflexivity|]. split; [reflexivity|].
      destruct Hst as [H|(_ & H & _)]; [exact H | contradiction]. }
    destruct e as [e|].
    - destruct (negb (IsConflict e)); apply returns_ret; (split; [exact Hadd|]);
        [discriminate | intros _ _; apply Hfail; discriminate].
    - apply returns_ret. split; [exact Hadd | discriminate]. }
  intros [[[o op] ok] [e|]] s1 (Hadd & Hfail).
  { apply returns_ret. exact Hadd. }
  destruct ok; [apply returns_ret; exact Hadd|].
  destruct (Hfail eq_refl eq_refl) as (-> & Hh & Ha).
  eapply returns_mono; [apply IH|].
  intros _ s2 ([Hst|(Hnone & Hst)] & t2 & Hc2 & Ht2);
    destruct Hadd as (_ & t1 & Hc1 & Ht1).
  - split; [left; congruence|]. exists (t2 ++ t1). rewrite Hc2, Hc1.
    split; [apply app_assoc | apply Forall_app; auto].
  - split; [right; rewrite <- Ha, <- Hh; auto|]. exists (t2 ++ t1). rewrite Hc2, Hc1.
    split; [apply app_assoc | apply Forall_app; auto].
Qed.

Lemma CreateOrUpdateWithRetries_no_mutation c obj s :
  returns (CreateOrUpdateWithRetries c obj no_mutation) s (fun '(obj', op, err) s' =>
    additive (obj_key c obj) (freeze (heap s) obj) s s' /\
    obj_key c obj' = obj_key c obj).
Proof.
  assert (H1 : returns (CreateOrUpdateWithRetries c obj no_mutation) s (fun _ s' =>
                 additive (obj_key c obj) (freeze (heap s) obj) s s')).
  { unfold CreateOrUpdateWithRetries, ExponentialBackoff.
    eapply returns_bind; [apply backoff_loop_no_mutation|].
    intros [st e] s1 H. apply returns_ret. exact H. }
  eapply returns_mono.
  { exact (returns_conj _ _ _ _ H1
             (CreateOrUpdateWithRetries_returns c obj no_mutation s no_mutation_identity)). }
  intros [[o op] e] s' (Ha & _ & Hk & _). auto.
Qed.

Lemma only_adds_trans ids s1 s2 s3 :
  only_adds ids s1 s2 -> only_adds ids s2 s3 -> only_adds ids s1 s3.
Proof.
  intros (Ha1 & Hb1 & t1 & Hc1 & Ht1) (Ha2 & Hb2 & t2 & Hc2 & Ht2). split; [|split].
  - etrans; eassumption.
  - apply map_subseteq_spec. intros k v Hk.
    pose proof (proj1 (map_subseteq_spec _ _) Hb2 k v Hk) as H2.
    apply lookup_union_Some_raw in H2. destruct H2 as [H2|[Hn H2]].
    + exact (proj1 (map_subseteq_spec _ _) Hb1 k v H2).
    + apply lookup_union_Some_raw. right. split; [|exact H2].
      destruct (api s1 !! k) as [v'|] eqn:E; [|reflexivity].
      pose proof (proj1 (map_subseteq_spec _ _) Ha1 k v' E). congruence.
  - exists (t2 ++ t1). rewrite Hc2, Hc1. split; [apply app_assoc | apply Forall_app; auto].
Qed.

Lemma additive_only_adds (key : ApiKey) (m : Manifest) (ids : gmap ApiKey Manifest) s s' :
  additive key m s s' -> ids !! key = Some m -> only_adds ids s s'.
Proof.
  intros ([Ha|(Hn & Ha)] & Hc) Hid; (split; [|split; [|exact Hc]]); rewrite Ha.
  - reflexivity.
  - apply map_union_subseteq_l.
  - apply insert_subseteq. exact Hn.
  - apply map_subseteq_spec. intros k v Hk. apply lookup_union_Some_raw.
    destruct (decide (k = key)) as [->|Hne].
    + rewrite lookup_insert_eq in Hk. right. split; congruence.
    + rewrite lookup_insert_ne in Hk by congruence. left. exact Hk.
Qed.

Lemma identity_manifests_sa c h :
  identity_manifests c !! obj_key c serviceAccount = Some (freeze h serviceAccount).
Proof. unfold identity_manifests. apply lookup_insert_eq. Qed.

Lemma identity_manifests_crb c h :
  identity_manifests c !! obj_key c clusterRoleBinding = Some (freeze h clusterRoleBinding).
Proof.
  unfold identity_manifests. rewrite lookup_insert_ne by discriminate.
  apply lookup_insert_eq.
Qed.

Lemma identity_manifests_token c h :
  identity_manifests c !! obj_key c (tokenSecret serviceAccount)
    = Some (freeze h (tokenSecret serviceAccount)).
Proof.
  unfold identity_manifests. rewrite !lookup_insert_ne by discriminate.
  apply lookup_singleton_eq.
Qed.

Lemma setupClusterConfig_only_adds clnt server name hc s :
  returns (setupClusterConfig clnt server name hc) s (fun _ s' =>
    only_adds (identity_manifests clnt) s s').
Proof.
  unfold setupClusterConfig. cbn zeta.
  eapply returns_bind; [apply CreateOrUpdateWithRetries_no_mutation|].
  intros [[sa op1] e1] s1 (Hadd1 & Hk1).
  apply additive_only_adds with (ids := identity_manifests clnt) in Hadd1;
    [|apply identity_manifests_sa].
  destruct e1; [apply returns_ret; exact Hadd1|].
  eapply returns_bind; [apply CreateOrUpdateWithRetries_no_mutation|].
  intros [[crb op2] e2] s2 (Hadd2 & Hk2).
  apply additive_only_adds with (ids := identity_manifests clnt) in Hadd2;
    [|apply identity_manifests_crb].
  pose proof (only_adds_trans _ _ _ _ Hadd1 Hadd2) as H12.
  destruct e2; [apply returns_ret; exact H12|].
  assert (Hsa : tokenSecret sa = tokenSecret serviceAccount).
  { unfold tokenSecret. injection Hk1 as _ _ ->. reflexivity. }
  rewrite Hsa.
  eapply returns_bind; [apply CreateOrUpdateWithRetries_no_mutation|].
  intros [[tok op3] e3] s3 (Hadd3 & Hk3).
  apply additive_only_adds with (ids := identity_manifests clnt) in Hadd3;
    [|apply identity_manifests_token].
  pose proof (only_adds_trans _ _ _ _ H12 Hadd3) as H123.
  destruct e3; [apply returns_ret; exact H123|].
  eapply returns_bind; [apply client_Get_returns|].
  intros [fetched e4] s4 (_ & Hapi4 & _ & Hcalls4 & _).
  assert (H4 : only_adds (identity_manifests clnt) s s4).
  { apply (only_adds_trans _ _ s3); [exact H123|]. split; [rewrite Hapi4; reflexivity|].
    split; [rewrite Hapi4; apply map_union_subseteq_l|].
    eexists [_]. split; [exact Hcalls4|]. repeat constructor. }
  destruct e4; [apply returns_ret; exact H4|].
  destruct (decide _); [apply returns_ret; exact H4|].
  destruct (decide _); apply returns_ret; exact H4.
Qed.

(** X2. Whatever the environment does, [setupClusterConfig] only adds to
    the store: every object stored before is stored unchanged afterwards,
    and an object stored afterwards that was not there before is the
    service account, the cluster role binding or the token secret
    [hyper-ops-admin] exactly as written in the function.  It issues no
    Update and no Delete call: an identity object that exists with other
    content is left as it is. *)
Theorem setupClusterConfig_never_overwrites clnt server name hc s out s' :
  setupClusterConfig clnt server name hc s = (out, s') ->
  api s ⊆ api s' /\
  api s' ⊆ api s ∪ identity_manifests clnt /\
  exists t, calls s' = t ++ calls s /\ Forall (fun x => reads_or_creates x = true) t.
Proof.
  intros Hrun.
  destruct (returns_run _ _ _ _ _ (setupClusterConfig_only_adds clnt server name hc s) Hrun)
    as (_ & _ & H).
  exact H.
Qed.

(** ** Conflicts are absorbed *)

Lemma conflicts_tail fs n :
  conflicts fs = Some n ->
  match mjoin (head fs) with
  | None => conflicts (tail fs) = Some n
  | Some r => r = Conflict /\ exists n', n = S n' /\ conflicts (tail fs) = Some n'
  end.
Proof.
  destruct fs as [|[r|] fs']; simpl; auto.
  destruct r; try discriminate.
  destruct (conflicts fs') as [n'|]; simpl; [|discriminate].
  intros [= <-]. eauto.
Qed.

Lemma CreateOrUpdate_conflicts c obj f s n :
  preserves_identity f -> (forall o, (f o).2 = None) ->
  conflicts (faults s) = Some n ->
  returns (CreateOrUpdate c obj f) s (fun '(obj', op, err) s' =>
    exists n', conflicts (faults s') = Some n' /\
      match err with
      | None => n' <= n
      | Some e => e = StatusError Conflict /\ n' < n
      end).
Proof.
  intros Hf Hne Hn. unfold CreateOrUpdate. cbn zeta. simpl fst. simpl snd.
  eapply returns_bind; [apply client_Get_returns|].
  intros [o e] s1 (Heff & Hapi & Hfl & Hcalls & Hcase).
  pose proof (conflicts_tail _ _ Hn) as Ht. rewrite <- Hfl in Ht.
  destruct (mjoin (head (faults s))) as [r|].
  { destruct Ht as (-> & n' & -> & Ht). destruct Hcase as (-> & _). simpl.
    apply returns_ret. exists n'. split; [exact Ht|]. split; [reflexivity | lia]. }
  destruct (api s !! (c, (kind obj, (Namespace obj, Name obj)))) as [m|] eqn:Hlk.
  - destruct Hcase as (-> & Hdk & Hdn & Hdna & Hfr & Hlab).
    destruct (Hf o) as (Hk1 & Hk2 & Hk3).
    apply returns_gets.
    rewrite (mutate_ok f _ o) by (rewrite ?Hk2, ?Hk3; auto; congruence).
    apply returns_gets.
    destruct (decide _) as [Heq|Hneq].
    { apply returns_ret. exists n. split; [exact Ht | lia]. }
    eapply returns_bind; [apply client_Update_returns|].
    intros e2 s2 (Heff2 & Hh & Hfl2 & Hcalls2 & Hcase2).
    pose proof (conflicts_tail _ _ Ht) as Ht2. rewrite <- Hfl2 in Ht2.
    destruct (mjoin (head (faults s1))) as [r|].
    { destruct Ht2 as (-> & n' & -> & Ht2). destruct Hcase2 as (-> & _).
      apply returns_ret. exists n'. split; [exact Ht2|]. split; [reflexivity | lia]. }
    unfold obj_key in Hcase2. rewrite Hk1, Hk2, Hk3, Hdk, Hdn, Hdna, Hapi, Hlk in Hcase2.
    destruct Hcase2 as (-> & _).
    apply returns_ret. exists n. split; [exact Ht2 | lia].
  - destruct Hcase as (-> & -> & Hh1). simpl.
    destruct (Hf obj) as (Hk1 & Hk2 & Hk3).
    rewrite (mutate_ok f _ obj) by (rewrite ?Hk2, ?Hk3; auto).
    eapply returns_bind; [apply client_Create_returns|].
    intros e2 s2 (Heff2 & Hh & Hfl2 & Hcalls2 & Hcase2).
    pose proof (conflicts_tail _ _ Ht) as Ht2. rewrite <- Hfl2 in Ht2.
    destruct (mjoin (head (faults s1))) as [r|].
    { destruct Ht2 as (-> & n' & -> & Ht2). destruct Hcase2 as (-> & _).
      apply returns_ret. exists n'. split; [exact Ht2|]. split; [reflexivity | lia]. }
    unfold obj_key in Hcase2. rewrite Hk1, Hk2, Hk3, Hapi, Hlk in Hcase2.
    destruct Hcase2 as (-> & _).
    apply returns_ret. exists n. split; [exact Ht2 | lia].
Qed.

Lemma backoff_loop_conflicts k c f st s n :
  preserves_identity f -> (forall o, (f o).2 = None) ->
  conflicts (faults s) = Some n -> n < k ->
  returns (backoff_loop k (retry_condition c f) st) s (fun '(_, err) _ => err = None).
Proof.
  intros Hf Hne. revert st s n. induction k as [|k IH]; intros st s n Hn Hlt; [lia|].
  simpl. unfold retry_condition at 1.
  eapply returns_bind.
  { eapply returns_bind; [apply (CreateOrUpdate_conflicts c st.1 f s n Hf Hne Hn)|].
    intros [[o op] e] s1 (n' & Hn' & He).
    instantiate (1 := fun '(_, ok, err) s1 =>
      err = None /\ (ok = true \/ exists n', conflicts (faults s1) = Some n' /\ n' < n)).
    destruct e as [e|].
    - destruct He as (-> & Hlt'). simpl. apply returns_ret. split; [reflexivity|]. eauto.
    - apply returns_ret. auto. }
  intros [[st' ok] e] s1 (-> & Hok).
  destruct ok; [apply returns_ret; reflexivity|].
  destruct Hok as [?|(n' & Hn' & Hlt')]; [discriminate|].
  apply (IH st' s1 n' Hn'). lia.
Qed.

(** X3. When the environment answers some of the coming client calls with
    a conflict, does nothing else to them, and the conflicts number at most
    three, an upsert whose mutation keeps the object's identity and returns
    no error ends without error, and the store then holds the object it
    returns.  Every attempt that fails consumes a conflict, and the loop
    has four attempts. *)
Theorem CreateOrUpdateWithRetries_absorbs_conflicts c obj f s n :
  preserves_identity f -> (forall o, (f o).2 = None) ->
  conflicts (faults s) = Some n -> n <= 3 ->
  exists obj' op s',
    CreateOrUpdateWithRetries c obj f s = (Normal (obj', op, None), s') /\
    api s' !! obj_key c obj = Some (freeze (heap s') obj').
Proof.
  intros Hf Hne Hn Hle.
  assert (H1 : returns (CreateOrUpdateWithRetries c obj f) s (fun '(_, _, err) _ => err = None)).
  { unfold CreateOrUpdateWithRetries, ExponentialBackoff.
    eapply returns_bind.
    - apply (backoff_loop_conflicts _ c f _ s n Hf Hne Hn). simpl. lia.
    - intros [st e] s1 ->. apply returns_ret. reflexivity. }
  destruct (returns_conj _ _ _ _ H1 (CreateOrUpdateWithRetries_returns c obj f s Hf))
    as ([[obj' op] e] & s' & Hrun & -> & _ & _ & Hok).
  exists obj', op, s'. split; [exact Hrun|]. apply Hok. reflexivity.
Qed.

(** ** Bootstrap in a quiet environment *)

Lemma upsert_unchanged_fault_free c obj s :
  fault_free s ->
  exists obj' op s',
    CreateOrUpdateWithRetries c obj no_mutation s = (Normal (obj', op, None), s') /\
    fault_free s' /\
    api s' = api s ∪ {[ obj_key c obj := freeze (heap s) obj ]} /\
    obj_key c obj' = obj_key c obj /\
    calls s' =
      match api s !! obj_key c obj with
      | Some _ => []
      | None => [CallCreate c (kind obj) (Namespace obj) (Name obj) (freeze (heap s) obj)]
      end ++ CallGet c (kind obj) (Namespace obj) (Name obj) :: calls s.
Proof.
  intros Hq.
  destruct (CreateOrUpdate_fault_free c obj no_mutation s no_mutation_identity
              (fun _ => eq_refl) Hq)
    as ([[obj' op] err] & s' & Hrun & -> & Hq' & Hrest).
  exists obj', op, s'. split; [apply CreateOrUpdateWithRetries_first; exact Hrun|].
  split; [exact Hq'|].
  destruct (api s !! obj_key c obj) as [m|] eqn:Hlk.
  - destruct Hrest as (o & -> & Hfr & Hdec). simpl in Hdec.
    rewrite decide_True in Hdec by congruence. destruct Hdec as (_ & Ha & Hc).
    split; [|split; [|exact Hc]].
    + rewrite Ha. apply map_eq. intros k. rewrite lookup_union.
      destruct (decide (k = obj_key c obj)) as [->|Hne].
      * rewrite Hlk, lookup_singleton_eq. reflexivity.
      * rewrite lookup_singleton_ne by congruence. destruct (api s !! k); reflexivity.
    + simpl. pose proof Hfr as Hfr'.
      destruct (CreateOrUpdate_returns c obj no_mutation s no_mutation_identity)
        as (r2 & s2 & Hrun2 & H2).
      rewrite Hrun in Hrun2. injection Hrun2 as <- <-. tauto.
  - destruct Hrest as (_ & -> & _ & Ha & Hc). simpl.
    split; [|split; [reflexivity | exact Hc]].
    rewrite Ha. simpl. apply map_eq. intros k. rewrite lookup_union.
    destruct (decide (k = obj_key c obj)) as [->|Hne].
    + rewrite lookup_insert_eq, Hlk, lookup_singleton_eq. reflexivity.
    + rewrite lookup_insert_ne, lookup_singleton_ne by congruence.
      destruct (api s !! k); reflexivity.
Qed.

Lemma identity_manifests_union c :
  identity_manifests c =
    {[ obj_key c serviceAccount := freeze [] serviceAccount ]} ∪
    ({[ obj_key c clusterRoleBinding := freeze [] clusterRoleBinding ]} ∪
     {[ obj_key c (tokenSecret serviceAccount) := freeze [] (tokenSecret serviceAccount) ]}).
Proof.
  unfold identity_manifests. rewrite !insert_union_singleton_l. reflexivity.
Qed.

Lemma setupClusterConfig_quiet clnt server name hc s :
  fault_free s ->
  exists s' m,
    setupClusterConfig clnt server name hc s = (Normal (readiness name server hc m), s') /\
    fault_free s' /\
    effect (identity_keys clnt) no_loc s s' /\
    api s' = api s ∪ identity_manifests clnt /\
    api s' !! tokenSecretKey clnt = Some m /\
    calls s' =
      CallGet clnt Secret "kube-system" "hyper-ops-admin-token"
      :: ensure_calls clnt (tokenSecret serviceAccount) (api s)
      ++ ensure_calls clnt clusterRoleBinding (api s)
      ++ ensure_calls clnt serviceAccount (api s)
      ++ calls s.
Proof.
  intros Hq.
  destruct (upsert_unchanged_fault_free clnt serviceAccount s Hq)
    as (sa & op1 & s1 & Hrun1 & Hq1 & Ha1 & Hk1 & Hc1).
  destruct (upsert_unchanged_fault_free clnt clusterRoleBinding s1 Hq1)
    as (crb & op2 & s2 & Hrun2 & Hq2 & Ha2 & Hk2 & Hc2).
  assert (Hsa : tokenSecret sa = tokenSecret serviceAccount).
  { unfold tokenSecret. injection Hk1 as _ _ ->. reflexivity. }
  destruct (upsert_unchanged_fault_free clnt (tokenSecret serviceAccount) s2 Hq2)
    as (tok & op3 & s3 & Hrun3 & Hq3 & Ha3 & Hk3 & Hc3).
  assert (Ha : api s3 = api s ∪ identity_manifests clnt).
  { rewrite Ha3, Ha2, Ha1, identity_manifests_union.
    rewrite <- !(assoc_L (∪)). reflexivity. }
  assert (Hkt : kind tok = Secret) by (injection Hk3 as ? _ _; assumption).
  assert (Htok : is_Some (api s3 !! tokenSecretKey clnt)).
  { rewrite Ha. apply lookup_union_is_Some. right.
    exists (freeze [] (tokenSecret serviceAccount)).
    apply (identity_manifests_token clnt []). }
  destruct Htok as (m & Hm).
  destruct (client_Get_ok clnt "kube-system" "hyper-ops-admin-token" tok s3 m
              (fault_free_head _ Hq3))
    as (fetched & s4 & Hrun4 & Hdec & Ha4 & Hf4 & Hc4 & _).
  { rewrite Hkt. exact Hm. }
  destruct (decoded_facts _ _ _ _ _ _ _ Hdec) as (_ & _ & _ & _ & HD & _).
  assert (Hrun : setupClusterConfig clnt server name hc s
                 = (Normal (readiness name server hc m), s4)).
  { unfold setupClusterConfig. cbn zeta.
    rewrite (bind_run _ _ _ _ _ Hrun1). cbn beta iota.
    rewrite (bind_run _ _ _ _ _ Hrun2). cbn beta iota. rewrite Hsa.
    rewrite (bind_run _ _ _ _ _ Hrun3). cbn beta iota.
    rewrite (bind_run _ _ _ _ _ Hrun4). cbn beta iota.
    unfold readiness. rewrite HD.
    destruct (decide (String.length (data_get (mData m) "token") = 0)) as [H0|H0].
    { rewrite (decide_True (P := data_get (mData m) "token" = ""))
        by (apply length_zero_empty; exact H0).
      reflexivity. }
    rewrite (decide_False (P := data_get (mData m) "token" = ""))
      by (intros E; apply H0, length_zero_empty; exact E).
    destruct (decide (String.length (data_get (mData m) "ca.crt") = 0)) as [H1|H1].
    { rewrite (decide_True (P := data_get (mData m) "ca.crt" = ""))
        by (apply length_zero_empty; exact H1).
      reflexivity. }
    rewrite (decide_False (P := data_get (mData m) "ca.crt" = ""))
      by (intros E; apply H1, length_zero_empty; exact E).
    reflexivity. }
  exists s4, m. split; [exact Hrun|].
  split; [eapply fault_free_tail; eassumption|].
  split.
  { destruct (returns_run _ _ _ _ _ (setupClusterConfig_returns clnt server name hc s) Hrun)
      as (r' & _ & Heff & _). exact Heff. }
  split; [congruence|]. split; [rewrite Ha4; exact Hm|].
  rewrite Hc4, Hkt, Hc3, Hc2, Hc1. unfold ensure_calls.
  assert (E2 : api s1 !! obj_key clnt clusterRoleBinding
               = api s !! obj_key clnt clusterRoleBinding).
  { rewrite Ha1, lookup_union, lookup_singleton_ne by discriminate.
    destruct (api s !! obj_key clnt clusterRoleBinding); reflexivity. }
  assert (E3 : api s2 !! obj_key clnt (tokenSecret serviceAccount)
               = api s !! obj_key clnt (tokenSecret serviceAccount)).
  { rewrite Ha2, Ha1, !lookup_union, !lookup_singleton_ne by discriminate.
    destruct (api s !! obj_key clnt (tokenSecret serviceAccount)); reflexivity. }
  rewrite E2, E3.
  destruct (api s !! obj_key clnt serviceAccount),
           (api s !! obj_key clnt clusterRoleBinding),
           (api s !! obj_key clnt (tokenSecret serviceAccount)); reflexivity.
Qed.

(** X4. In an environment that makes no client call fail,
    [setupClusterConfig] returns normally.  The store afterwards is the
    store before with those of the three identity objects added that were
    missing.  The answer is read off the token secret then stored: the
    error "token not found" when its token is empty, else the error
    "ca.crt not found" when its CA certificate is empty, else the cluster
    description; no other error occurs.  On a cluster where the token
    secret did not exist the answer is "token not found", with the three
    objects left in place. *)
Theorem setupClusterConfig_fault_free clnt server name hc s :
  fault_free s ->
  exists s' m,
    setupClusterConfig clnt server name hc s = (Normal (readiness name server hc m), s') /\
    fault_free s' /\
    api s' = api s ∪ identity_manifests clnt /\
    api s' !! tokenSecretKey clnt = Some m /\
    (api s !! tokenSecretKey clnt = None ->
       readiness name server hc m = Err (Errorf "token not found")).
Proof.
  intros Hq.
  destruct (setupClusterConfig_quiet clnt server name hc s Hq)
    as (s' & m & Hrun & Hq' & _ & Ha & Hm & _).
  exists s', m. split; [exact Hrun|]. split; [exact Hq'|]. split; [exact Ha|].
  split; [exact Hm|]. intros Hnone.
  rewrite Ha, lookup_union, Hnone in Hm.
  change (tokenSecretKey clnt) with (obj_key clnt (tokenSecret serviceAccount)) in Hm.
  rewrite (identity_manifests_token clnt []) in Hm. injection Hm as <-. reflexivity.
Qed.

Lemma setupClusterConfig_steady clnt server name hc s :
  fault_free s ->
  dom (identity_manifests clnt) ⊆ dom (api s) ->
  exists s' m,
    setupClusterConfig clnt server name hc s = (Normal (readiness name server hc m), s') /\
    api s !! tokenSecretKey clnt = Some m /\
    api s' = api s /\
    fault_free s' /\
    effect (identity_keys clnt) no_loc s s' /\
    calls s' = [CallGet clnt Secret "kube-system" "hyper-ops-admin-token";
                CallGet clnt Secret "kube-system" "hyper-ops-admin-token";
                CallGet clnt ClusterRoleBinding "" "hyper-ops-admin";
                CallGet clnt ServiceAccount "kube-system" "hyper-ops-admin"] ++ calls s.
Proof.
  intros Hq Hdom.
  destruct (setupClusterConfig_quiet clnt server name hc s Hq)
    as (s' & m & Hrun & Hq' & Heff & Ha & Hm & Hc).
  assert (Hin : forall obj, is_Some (identity_manifests clnt !! obj_key clnt obj) ->
                is_Some (api s !! obj_key clnt obj)).
  { intros obj H. apply elem_of_dom, Hdom, elem_of_dom, H. }
  assert (Hsame : api s ∪ identity_manifests clnt = api s).
  { apply map_eq. intros k. rewrite lookup_union.
    destruct (api s !! k) eqn:E; [destruct (identity_manifests clnt !! k); reflexivity|].
    destruct (identity_manifests clnt !! k) eqn:E'; [|reflexivity].
    assert (Hd : k ∈ dom (api s)) by (apply Hdom, elem_of_dom; eauto).
    apply elem_of_dom in Hd. rewrite E in Hd. destruct Hd; discriminate. }
  exists s', m. split; [exact Hrun|]. rewrite Ha, Hsame in *.
  split; [exact Hm|]. split; [reflexivity|]. split; [exact Hq'|]. split; [exact Heff|].
  rewrite Hc. unfold ensure_calls.
  destruct (Hin serviceAccount) as (? & ->);
    [rewrite (identity_manifests_sa clnt []); eauto|].
  destruct (Hin clusterRoleBinding) as (? & ->);
    [rewrite (identity_manifests_crb clnt []); eauto|].
  destruct (Hin (tokenSecret serviceAccount)) as (? & ->);
    [rewrite (identity_manifests_token clnt []); eauto|].
  reflexivity.
Qed.

(** X5. Once the three identity objects exist, [setupClusterConfig] in an
    environment that makes no call fail is read-only: it issues four Get
    calls (service account, cluster role binding, token secret, and the
    token secret again), writes nothing, and leaves the store as it was. *)
Theorem setupClusterConfig_steady_state clnt server name hc s :
  fault_free s ->
  dom (identity_manifests clnt) ⊆ dom (api s) ->
  exists s' m,
    setupClusterConfig clnt server name hc s = (Normal (readiness name server hc m), s') /\
    api s !! tokenSecretKey clnt = Some m /\
    api s' = api s /\
    calls s' = [CallGet clnt Secret "kube-system" "hyper-ops-admin-token";
                CallGet clnt Secret "kube-system" "hyper-ops-admin-token";
                CallGet clnt ClusterRoleBinding "" "hyper-ops-admin";
                CallGet clnt ServiceAccount "kube-system" "hyper-ops-admin"] ++ calls s.
Proof.
  intros Hq Hdom.
  destruct (setupClusterConfig_steady clnt server name hc s Hq Hdom)
    as (s' & m & Hrun & Hm & Ha & _ & _ & Hc).
  exists s', m. auto.
Qed.

(** ** A whole reconcile in a quiet environment *)

Lemma CreateOrUpdateWithRetries_quiet c obj f s :
  preserves_identity f -> (forall o, (f o).2 = None) -> fault_free s ->
  returns (CreateOrUpdateWithRetries c obj f) s (fun '(_, _, err) s' =>
    err = None /\ fault_free s').
Proof.
  intros Hf Hne Hq.
  destruct (CreateOrUpdate_fault_free c obj f s Hf Hne Hq)
    as ([[obj' op] err] & s' & Hrun & -> & Hq' & _).
  exists (obj', op, None), s'. split; [apply CreateOrUpdateWithRetries_first; exact Hrun|].
  auto.
Qed.

Lemma createArgoCDClusterSecret_quiet r l cluster s :
  fault_free s ->
  exists s', createArgoCDClusterSecret lib r (Some l) cluster s = (Normal None, s') /\
             fault_free s'.
Proof.
  intros Hq.
  assert (H : returns (createArgoCDClusterSecret lib r (Some l) cluster) s (fun err s' =>
                err = None /\ fault_free s')).
  { unfold createArgoCDClusterSecret. cbn zeta.
    unfold map_assign. apply returns_modify.
    unfold json_Marshal. apply returns_gets.
    eapply returns_bind.
    - apply CreateOrUpdateWithRetries_quiet;
        [apply argocd_mutation_identity | reflexivity | exact Hq].
    - intros [[o op] e] s' (-> & Hq'). apply returns_ret. auto. }
  destruct H as (err & s' & Hrun & -> & Hq'). eauto.
Qed.

Lemma readiness_ok name server hc m :
  data_get (mData m) "token" <> "" -> data_get (mData m) "ca.crt" <> "" ->
  readiness name server hc m =
    Ok (mkCluster name server
          (mkClusterConfig (data_get (mData m) "token")
             (mkTLSClientConfig
                (base64_URLEncoding_EncodeToString (data_get (mData m) "ca.crt"))))
          hc).
Proof.
  intros Ht Hc. unfold readiness. rewrite !decide_False by assumption. reflexivity.
Qed.

Lemma setupClusterConfig_ready clnt server name hc s m :
  fault_free s ->
  api s !! tokenSecretKey clnt = Some m ->
  data_get (mData m) "token" <> "" -> data_get (mData m) "ca.crt" <> "" ->
  exists s',
    setupClusterConfig clnt server name hc s
      = (Normal (Ok (mkCluster name server
                       (mkClusterConfig (data_get (mData m) "token")
                          (mkTLSClientConfig
                             (base64_URLEncoding_EncodeToString
                                (data_get (mData m) "ca.crt"))))
                       hc)), s') /\
    fault_free s' /\
    effect (identity_keys clnt) no_loc s s' /\
    api s' = api s ∪ identity_manifests clnt.
Proof.
  intros Hq Hm Ht Hc.
  destruct (setupClusterConfig_quiet clnt server name hc s Hq)
    as (s' & m' & Hrun & Hq' & Heff & Ha & Hm' & _).
  rewrite Ha in Hm'. rewrite (lookup_union_Some_l _ _ _ _ Hm) in Hm'. injection Hm' as <-.
  rewrite (readiness_ok _ _ _ _ Ht Hc) in Hrun. eauto.
Qed.

Lemma registerLocal_quiet r s m :
  fault_free s ->
  api s !! tokenSecretKey r = Some m ->
  data_get (mData m) "token" <> "" -> data_get (mData m) "ca.crt" <> "" ->
  exists s',
    registerLocal lib r s = (Normal None, s') /\
    fault_free s' /\
    forall key, key <> (r, (Secret, (gitOpsNamespace s, "in-cluster-local"))) ->
      api s' !! key = (api s ∪ identity_manifests r) !! key.
Proof.
  intros Hq Hm Ht Hc.
  destruct (setupClusterConfig_ready r "https://kubernetes.default.svc" "in-cluster-local"
              None s m Hq Hm Ht Hc) as (s1 & Hrun1 & Hq1 & Heff1 & Ha1).
  set (s2 := set_heap (heap s1 ++ [ {[ "hyper-ops.cloudmonkey.org/type" := "local" ]} ]) s1).
  assert (Hq2 : fault_free s2) by exact Hq1.
  match type of Hrun1 with _ = (Normal (Ok ?c), _) => set (cl := c) in * end.
  destruct (createArgoCDClusterSecret_quiet r (length (heap s1)) cl s2 Hq2)
    as (s3 & Hrun3 & Hq3).
  assert (Hrun : registerLocal lib r s = (Normal None, s3)).
  { unfold registerLocal. rewrite (bind_run _ _ _ _ _ Hrun1). exact Hrun3. }
  exists s3. split; [exact Hrun|]. split; [exact Hq3|].
  intros key Hkey.
  destruct (createArgoCDClusterSecret_frame lib _ _ _ _ _ _ Hrun3) as (Hfr & _).
  rewrite Hfr.
  - change (api s2) with (api s1). rewrite Ha1. reflexivity.
  - change (gitOpsNamespace s2) with (gitOpsNamespace s1).
    rewrite (eff_ns _ _ _ _ Heff1). exact Hkey.
Qed.

Lemma length_append (x y : string) :
  String.length (x +:+ y) = String.length x + String.length y.
Proof. induction x as [|a x IH]; simpl; [reflexivity | rewrite IH; reflexivity]. Qed.

Lemma kubeconfig_name_not_local (name ns ns' : string) (r : Client) :
  (r, (Secret, (ns, name +:+ "-admin-kubeconfig")))
    <> (r, (Secret, (ns', "in-cluster-local"))).
Proof.
  intros [= _ H]. apply (f_equal String.length) in H.
  rewrite length_append in H. simpl in H. lia.
Qed.

Lemma client_Get_nil_labels c ns name obj s o s' m :
  client_Get c ns name obj s = (Normal (o, None), s') ->
  api s !! (c, (kind obj, (ns, name))) = Some m ->
  mLabels m = ∅ -> Labels o = None.
Proof.
  unfold client_Get, begin_call_M, begin_call, bind, gets, ret, decode.
  intros Hrun Hm Hempty. destruct (mjoin (head (faults s))); [discriminate|].
  cbn in Hrun. rewrite Hm in Hrun. unfold bind, ret in Hrun.
  rewrite decide_True in Hrun by exact Hempty.
  injection Hrun as <- _. reflexivity.
Qed.

(* the steps of a reconcile of a resource that is not switched off, up to
   the fetch of its kubeconfig secret, when what they need is in place *)
Lemma Reconcile_quiet_prefix r req s m tl k :
  fault_free s ->
  api s !! (r, (HostedCluster, (req_Namespace req, req_Name req))) = Some m ->
  mDeletionTimestamp m = None ->
  mLabels m !! hyperOpsEnabledLabel <> Some "false" ->
  api s !! tokenSecretKey r = Some tl ->
  data_get (mData tl) "token" <> "" -> data_get (mData tl) "ca.crt" <> "" ->
  api s !! (r, (Secret, (req_Namespace req, req_Name req +:+ "-admin-kubeconfig"))) = Some k ->
  exists hc s1 s2 s3 kubeConfigSecret s4,
    fetchHostedCluster r req s = (Normal (hc, None), s1) /\
    DeletionTimestamp hc = None /\
    selectNamespace hc s1 = (Normal tt, s2) /\
    registerLocal lib r s2 = (Normal None, s3) /\
    disabled hc s3 = (Normal false, s3) /\
    fetchKubeconfig r req s3 = (Normal (kubeConfigSecret, None), s4) /\
    Data kubeConfigSecret = mData k /\
    Name hc = req_Name req /\
    fault_free s4 /\
    gitOpsNamespace s2
      = default (gitOpsNamespace s) (mLabels m !! hyperOpsGitopsNamespaceLabel) /\
    gitOpsNamespace s4 = gitOpsNamespace s2 /\
    (Labels hc = None <-> mLabels m = ∅) /\
    (forall key, key <> (r, (Secret, (gitOpsNamespace s2, "in-cluster-local"))) ->
       api s4 !! key = (api s ∪ identity_manifests r) !! key) /\
    is_Some (api s4 !! (r, (Secret, (gitOpsNamespace s2, "in-cluster-local")))).
Proof.
  intros Hq Hhc Hlive Hen Htl Htl1 Htl2 Hk.
  destruct (client_Get_ok r (req_Namespace req) (req_Name req)
              (newObject HostedCluster "" "") s m (fault_free_head _ Hq) Hhc)
    as (hc & s1 & Hfetch & Hdec & Ha1 & Hf1 & _ & Hns1).
  destruct (decoded_facts _ _ _ _ _ _ _ Hdec)
    as (_ & _ & Hname & Hdel & _ & Hlab & _ & Hl).
  assert (Hq1 : fault_free s1) by (eapply fault_free_tail; eassumption).
  pose proof (selectNamespace_run hc s1) as Hsel. rewrite Hlab in Hsel.
  set (s2 := set_gitOpsNamespace _ s1) in Hsel.
  assert (Hq2 : fault_free s2) by exact Hq1.
  assert (Ha2 : api s2 = api s) by exact Ha1.
  destruct (registerLocal_quiet r s2 tl Hq2) as (s3 & Hreg & Hq3 & Hfr3);
    [rewrite Ha2; exact Htl | exact Htl1 | exact Htl2 |].
  destruct (returns_run _ _ _ _ _ (registerLocal_returns lib r s2) Hreg)
    as (? & [= <-] & Eloc & Hlocal).
  destruct (Hlocal eq_refl) as (ml & Hml & _).
  assert (Hlab3 : heap_read (heap s3) (Labels hc) = mLabels m).
  { rewrite <- Hlab. apply (heap_read_kept _ s2 s3 _ Eloc).
    intros l HL. destruct (Hl l HL) as (_ & Hlt & _). exact Hlt. }
  assert (Hdis : disabled hc s3 = (Normal false, s3)).
  { rewrite disabled_run, Hlab3. rewrite bool_decide_eq_false_2 by exact Hen. reflexivity. }
  assert (Hk3 : api s3 !! (r, (Secret, (req_Namespace req, req_Name req +:+ "-admin-kubeconfig")))
                = Some k).
  { rewrite Hfr3 by apply kubeconfig_name_not_local.
    apply lookup_union_Some_l. rewrite Ha2. exact Hk. }
  destruct (client_Get_ok r (req_Namespace req) (req_Name req +:+ "-admin-kubeconfig")
              (newObject Secret "" "") s3 k (fault_free_head _ Hq3) Hk3)
    as (kcs & s4 & Hkube & Hdeck & Ha4 & Hf4 & _ & Hns4).
  destruct (decoded_facts _ _ _ _ _ _ _ Hdeck) as (_ & _ & _ & _ & HDk & _).
  assert (Hq4 : fault_free s4) by (eapply fault_free_tail; eassumption).
  exists hc, s1, s2, s3, kcs, s4.
  split; [exact Hfetch|]. split; [congruence|]. split; [exact Hsel|].
  split; [exact Hreg|]. split; [exact Hdis|]. split; [exact Hkube|].
  split; [exact HDk|]. split; [exact Hname|]. split; [exact Hq4|].
  split; [unfold s2; simpl; rewrite Hns1; reflexivity|].
  split; [rewrite Hns4; apply (eff_ns _ _ _ _ Eloc)|].
  split; [split|].
  - intros HL. rewrite <- Hlab, HL. reflexivity.
  - intros Hempty. exact (client_Get_nil_labels _ _ _ _ _ _ _ _ Hfetch Hhc Hempty).
  - split.
    + intros key Hkey. rewrite Ha4, Hfr3 by exact Hkey. rewrite Ha2. reflexivity.
    + exists ml. rewrite Ha4. exact Hml.
Qed.

(* the same up to the label loop, when the hosted cluster is ready *)
Lemma Reconcile_quiet_path r req s m tl k clnt cfg c0 rest th :
  fault_free s ->
  api s !! (r, (HostedCluster, (req_Namespace req, req_Name req))) = Some m ->
  mDeletionTimestamp m = None ->
  mLabels m !! hyperOpsEnabledLabel <> Some "false" ->
  api s !! tokenSecretKey r = Some tl ->
  data_get (mData tl) "token" <> "" -> data_get (mData tl) "ca.crt" <> "" ->
  api s !! (r, (Secret, (req_Namespace req, req_Name req +:+ "-admin-kubeconfig"))) = Some k ->
  GetClientForCluster lib (data_get (mData k) "kubeconfig") = Ok clnt ->
  yaml_Unmarshal lib (data_get (mData k) "kubeconfig") = Ok cfg ->
  api.Clusters cfg = c0 :: rest ->
  api s !! tokenSecretKey clnt = Some th ->
  data_get (mData th) "token" <> "" -> data_get (mData th) "ca.crt" <> "" ->
  exists hc s1 s2 s3 kubeConfigSecret s4 s5,
    fetchHostedCluster r req s = (Normal (hc, None), s1) /\
    DeletionTimestamp hc = None /\
    selectNamespace hc s1 = (Normal tt, s2) /\
    registerLocal lib r s2 = (Normal None, s3) /\
    disabled hc s3 = (Normal false, s3) /\
    fetchKubeconfig r req s3 = (Normal (kubeConfigSecret, None), s4) /\
    bootstrapHosted lib hc kubeConfigSecret s4
      = (Normal (Ok (mkCluster (req_Name req) (api.Server (api.Cluster_ c0))
                       (mkClusterConfig (data_get (mData th) "token")
                          (mkTLSClientConfig
                             (base64_URLEncoding_EncodeToString
                                (data_get (mData th) "ca.crt"))))
                       (Some hc))), s5) /\
    fault_free s5 /\
    gitOpsNamespace s2
      = default (gitOpsNamespace s) (mLabels m !! hyperOpsGitopsNamespaceLabel) /\
    (Labels hc = None <-> mLabels m = ∅) /\
    gitOpsNamespace s5 = gitOpsNamespace s2 /\
    is_Some (api s5 !! (r, (Secret, (gitOpsNamespace s2, "in-cluster-local")))).
Proof.
  intros Hq Hhc Hlive Hen Htl Htl1 Htl2 Hk Hclnt Hcfg Hc0 Hth Hth1 Hth2.
  destruct (Reconcile_quiet_prefix r req s m tl k Hq Hhc Hlive Hen Htl Htl1 Htl2 Hk)
    as (hc & s1 & s2 & s3 & kcs & s4 & Hfetch & Hdel & Hsel & Hreg & Hdis & Hkube &
        HDk & Hname & Hq4 & Hns2 & Hns4 & Hnil & Hfr4 & (ml & Hml)).
  assert (Hth4 : api s4 !! tokenSecretKey clnt = Some th).
  { rewrite Hfr4 by discriminate. apply lookup_union_Some_l. exact Hth. }
  destruct (setupClusterConfig_ready clnt (api.Server (api.Cluster_ c0)) (Name hc) (Some hc)
              s4 th Hq4 Hth4 Hth1 Hth2) as (s5 & Hboot & Hq5 & Eboot & Ha5).
  exists hc, s1, s2, s3, kcs, s4, s5.
  split; [exact Hfetch|]. split; [exact Hdel|]. split; [exact Hsel|].
  split; [exact Hreg|]. split; [exact Hdis|]. split; [exact Hkube|].
  split.
  { unfold bootstrapHosted, getServerFromKubeConfig. rewrite HDk, Hclnt, Hcfg, Hc0.
    rewrite <- Hname. exact Hboot. }
  split; [exact Hq5|]. split; [exact Hns2|]. split; [exact Hnil|].
  split; [rewrite (eff_ns _ _ _ _ Eboot); exact Hns4|].
  exists ml. rewrite Ha5. apply lookup_union_Some_l. exact Hml.
Qed.

Lemma Reconcile_after_bootstrap r req s hc s1 s2 s3 kubeConfigSecret s4 cluster s5 :
  fetchHostedCluster r req s = (Normal (hc, None), s1) ->
  DeletionTimestamp hc = None ->
  selectNamespace hc s1 = (Normal tt, s2) ->
  registerLocal lib r s2 = (Normal None, s3) ->
  disabled hc s3 = (Normal false, s3) ->
  fetchKubeconfig r req s3 = (Normal (kubeConfigSecret, None), s4) ->
  bootstrapHosted lib hc kubeConfigSecret s4 = (Normal (Ok cluster), s5) ->
  Reconcile lib r req s =
    (let* _ := mirrorLabels hc in
     let* err := createArgoCDClusterSecret lib r (Labels hc) cluster in
     match err with
     | Some e => ret (Result_zero, Some e)
     | None => ret (Result_zero, None)
     end) s5.
Proof.
  intros Hfetch Hlive Hsel Hloc Hen Hkube Hboot.
  rewrite (Reconcile_gate lib r req s hc s1 s2 s3) by assumption.
  rewrite disabled_run in Hen. injection Hen as ->.
  unfold reconcileHosted. rewrite (bind_run _ _ _ _ _ Hkube). cbn beta iota.
  rewrite (bind_run _ _ _ _ _ Hboot). reflexivity.
Qed.

(** X6. The happy path runs to its end.  Take an environment that makes
    no client call fail, and a store that holds: the requested resource,
    not being deleted, with at least one label and not switched off; the
    local cluster's token secret with a token and a CA certificate; the
    resource's kubeconfig secret, which the parsers accept and which names
    at least one cluster; and the token secret of the cluster the
    kubeconfig leads to, with a token and a CA certificate.  Then
    [Reconcile] returns without error.  The namespace variable holds the
    resource's namespace label if it has one, else its previous value.
    In that namespace the secret named like the resource is stored, of
    type Opaque, with the filtered labels of the resource and with the
    name, the first cluster's server and the serialised credentials as
    its data. *)
Theorem Reconcile_fault_free r req s m tl k clnt cfg c0 rest th :
  fault_free s ->
  api s !! (r, (HostedCluster, (req_Namespace req, req_Name req))) = Some m ->
  mDeletionTimestamp m = None ->
  mLabels m <> ∅ ->
  mLabels m !! hyperOpsEnabledLabel <> Some "false" ->
  api s !! tokenSecretKey r = Some tl ->
  data_get (mData tl) "token" <> "" -> data_get (mData tl) "ca.crt" <> "" ->
  api s !! (r, (Secret, (req_Namespace req, req_Name req +:+ "-admin-kubeconfig"))) = Some k ->
  GetClientForCluster lib (data_get (mData k) "kubeconfig") = Ok clnt ->
  yaml_Unmarshal lib (data_get (mData k) "kubeconfig") = Ok cfg ->
  api.Clusters cfg = c0 :: rest ->
  api s !! tokenSecretKey clnt = Some th ->
  data_get (mData th) "token" <> "" -> data_get (mData th) "ca.crt" <> "" ->
  exists s' ms,
    Reconcile lib r req s = (Normal (Result_zero, None), s') /\
    gitOpsNamespace s'
      = default (gitOpsNamespace s) (mLabels m !! hyperOpsGitopsNamespaceLabel) /\
    api s' !! (r, (Secret, (gitOpsNamespace s', req_Name req))) = Some ms /\
    mLabels ms = hostedLabels (mLabels m) /\
    mType ms = SecretTypeOpaque /\
    mData ms =
      {[ "name" := req_Name req;
         "server" := api.Server (api.Cluster_ c0);
         "config" :=
           json_encode lib
             (ClusterConfig_json
                (mkClusterConfig (data_get (mData th) "token")
                   (mkTLSClientConfig
                      (base64_URLEncoding_EncodeToString
                         (data_get (mData th) "ca.crt"))))) ]}.
Proof.
  intros Hq Hhc Hlive Hne Hen Htl Htl1 Htl2 Hk Hclnt Hcfg Hc0 Hth Hth1 Hth2.
  destruct (Reconcile_quiet_path r req s m tl k clnt cfg c0 rest th)
    as (hc & s1 & s2 & s3 & kcs & s4 & s5 &
        Hfetch & Hdel & Hsel & Hreg & Hdis & Hkube & Hboot & Hq5 & Hns2 & Hnil & Hns5 & Hloc);
    try assumption.
  match type of Hboot with _ = (Normal (Ok ?c), _) => set (cl := c) in * end.
  pose proof (Reconcile_after_bootstrap _ _ _ _ _ _ _ _ _ _ _
                Hfetch Hdel Hsel Hreg Hdis Hkube Hboot) as Hrec.
  destruct (Reconcile_hosted_outcome lib _ _ _ _ _ _ _ _ _ _ _
              Hfetch Hdel Hsel Hreg Hdis Hkube Hboot) as (m' & Hm' & _ & Hout).
  rewrite Hhc in Hm'. injection Hm' as <-.
  destruct (Labels hc) as [l|] eqn:HL; [|exfalso; apply Hne, Hnil; reflexivity].
  destruct Hout as (_ & err & s' & Hrun & _ & Hns' & Hok).
  destruct (mirrorLabels_run hc l s5 HL) as (h & Hmir & _).
  destruct (createArgoCDClusterSecret_quiet r l cl (set_heap h s5) Hq5) as (s'' & Hsec & _).
  rewrite (bind_run _ _ _ _ _ Hmir), (bind_run _ _ _ _ _ Hsec) in Hrec.
  rewrite Hrec in Hrun. injection Hrun as <- <-.
  destruct (Hok eq_refl) as (ms & Hms & Hlb & Hd & Ht).
  exists s'', ms. split; [exact Hrec|]. split; [congruence|].
  split; [exact Hms|]. split; [exact Hlb|]. split; [exact Ht | exact Hd].
Qed.


(** ** The footprint of a reconcile *)

Lemma touches_refl K s : touches K s s.
Proof. split; [reflexivity|]. exists []. split; [reflexivity | constructor]. Qed.

Lemma touches_trans K s1 s2 s3 : touches K s1 s2 -> touches K s2 s3 -> touches K s1 s3.
Proof.
  intros (Ha1 & t1 & Hc1 & Ht1) (Ha2 & t2 & Hc2 & Ht2). split.
  - intros key Hk. rewrite Ha2 by exact Hk. apply Ha1, Hk.
  - exists (t2 ++ t1). rewrite Hc2, Hc1. split; [apply app_assoc | apply Forall_app; auto].
Qed.

Lemma effect_touches (K K' : ApiKey -> Prop) L s s' :
  effect K L s s' -> (forall key, K key -> K' key) -> touches K' s s'.
Proof.
  intros Heff HK. split.
  - intros key Hk. apply (eff_api _ _ _ _ Heff). intros H. apply Hk, HK, H.
  - destruct (eff_calls _ _ _ _ Heff) as (t & Hc & Ht). exists t. split; [exact Hc|].
    eapply Forall_impl; [exact Ht|]. intros c Hc'. apply HK, Hc'.
Qed.

Lemma touches_same K s s' : api s' = api s -> calls s' = calls s -> touches K s s'.
Proof.
  intros Ha Hc. split; [intros key _; rewrite Ha; reflexivity|].
  exists []. split; [exact Hc | constructor].
Qed.

Lemma createArgoCDClusterSecret_touches r labels cluster s out s' :
  createArgoCDClusterSecret lib r labels cluster s = (out, s') ->
  touches (eq (r, (Secret, (gitOpsNamespace s, Cluster_Name cluster)))) s s'.
Proof.
  destruct labels as [l|]; [|intros [= _ <-]; apply touches_refl].
  intros Hrun.
  assert (H : returns (createArgoCDClusterSecret lib r (Some l) cluster) s (fun _ s' =>
            touches (eq (r, (Secret, (gitOpsNamespace s, Cluster_Name cluster)))) s s')).
  { unfold createArgoCDClusterSecret. cbn zeta.
    unfold map_assign. apply returns_modify.
    unfold json_Marshal. apply returns_gets.
    eapply returns_bind;
      [apply CreateOrUpdateWithRetries_returns, argocd_mutation_identity|].
    intros [[o op] e] s1 (Heff & _).
    assert (T : touches (eq (r, (Secret, (gitOpsNamespace s, Cluster_Name cluster)))) s s1).
    { eapply touches_trans; [|eapply effect_touches; [exact Heff | auto]].
      apply touches_same; reflexivity. }
    destruct e; apply returns_ret; exact T. }
  destruct (returns_run _ _ _ _ _ H Hrun) as (_ & _ & T). exact T.
Qed.

Lemma identity_keys_Reconcile_keys r req clnt key :
  identity_keys clnt key -> Reconcile_keys r req key.
Proof.
  intros H. left. destruct H as [H|[H|H]]; subst key; simpl; unfold identity_keys; auto.
Qed.

Lemma local_keys_Reconcile_keys r req ns key :
  local_keys r ns key -> Reconcile_keys r req key.
Proof.
  intros [H|H]; [eapply identity_keys_Reconcile_keys, H|].
  subst key. right. simpl. auto 6.
Qed.

Lemma reconcileHosted_touches r req hc s out s' :
  Name hc = req_Name req ->
  reconcileHosted lib r req hc s = (out, s') -> touches (Reconcile_keys r req) s s'.
Proof.
  unfold reconcileHosted. intros Hname Hrun.
  destruct (client_Get_returns r (req_Namespace req) (req_Name req +:+ "-admin-kubeconfig")
              (newObject Secret "" "") s) as ([kcs e] & s4 & Hk & E4 & _).
  unfold fetchKubeconfig in Hrun. rewrite (bind_run _ _ _ _ _ Hk) in Hrun.
  assert (K4 : touches (Reconcile_keys r req) s s4).
  { apply (effect_touches _ _ _ _ _ E4). intros key <-. right. simpl. auto. }
  destruct e as [e|]; [injection Hrun as _ <-; exact K4|].
  destruct (bootstrapHosted lib hc kcs s4) as [out5 s5] eqn:Hboot.
  destruct (bootstrapHosted_frame lib _ _ _ _ _ Hboot) as (clnt & E5 & Hcl).
  assert (K5 : touches (Reconcile_keys r req) s s5).
  { apply (touches_trans _ _ _ _ K4).
    apply (effect_touches _ _ _ _ _ E5). apply identity_keys_Reconcile_keys. }
  unfold bind at 1 in Hrun. rewrite Hboot in Hrun.
  destruct out5 as [[cluster|e]|msg]; try (injection Hrun as _ <-; exact K5).
  destruct (Hcl cluster eq_refl) as (server & mt & _ & _ & _ & Hcluster).
  destruct (mirrorLabels hc s5) as [out6 s6] eqn:Hmir.
  assert (K6 : touches (Reconcile_keys r req) s s6).
  { apply (touches_trans _ _ _ _ K5).
    destruct (Labels hc) as [l|] eqn:HL.
    - destruct (mirrorLabels_run hc l s5 HL) as (h & Hm & _).
      rewrite Hm in Hmir. injection Hmir as _ <-. apply touches_same; reflexivity.
    - rewrite mirrorLabels_nil in Hmir by exact HL. injection Hmir as _ <-.
      apply touches_refl. }
  unfold bind at 1 in Hrun. rewrite Hmir in Hrun.
  destruct out6 as [[]|msg]; [|injection Hrun as _ <-; exact K6].
  destruct (createArgoCDClusterSecret lib r (Labels hc) cluster s6) as [out7 s7] eqn:Hsec.
  pose proof (createArgoCDClusterSecret_touches _ _ _ _ _ _ Hsec) as T7.
  assert (K7 : touches (Reconcile_keys r req) s s7).
  { apply (touches_trans _ _ _ _ K6).
    destruct T7 as (Ha & t & Hc & Ht). split.
    - intros key Hkey. apply Ha. intros <-. apply Hkey. right. simpl.
      rewrite Hcluster. simpl. rewrite Hname. auto 6.
    - exists t. split; [exact Hc|]. eapply Forall_impl; [exact Ht|].
      intros c <-. right. simpl. rewrite Hcluster. simpl. rewrite Hname. auto 6. }
  unfold bind in Hrun. rewrite Hsec in Hrun.
  destruct out7 as [[e|]|msg]; injection Hrun as _ <-; exact K7.
Qed.

(** X8. The footprint of [Reconcile].  Whatever the environment does and
    whatever the outcome, every client call of a reconcile targets, and
    every change to a store hits, one of these objects: on any cluster the
    service account, the cluster role binding and the token secret named
    hyper-ops-admin; on the reconciler's own cluster the requested
    resource, its kubeconfig secret, and the secrets named in-cluster-local
    or like the resource.  Everything else stored is the same afterwards. *)
Theorem Reconcile_footprint r req s out s' :
  Reconcile lib r req s = (out, s') ->
  (forall key, ~ Reconcile_keys r req key -> api s' !! key = api s !! key) /\
  exists t, calls s' = t ++ calls s /\ Forall (fun c => Reconcile_keys r req (call_key c)) t.
Proof.
  rewrite Reconcile_eq_steps. unfold Reconcile_steps. intros Hrun.
  change (touches (Reconcile_keys r req) s s').
  destruct (client_Get_returns r (req_Namespace req) (req_Name req)
              (newObject HostedCluster "" "") s) as ([hc e] & s1 & Hf & E1 & _ & _ & _ & Hcase).
  unfold fetchHostedCluster in Hrun. rewrite (bind_run _ _ _ _ _ Hf) in Hrun.
  assert (K1 : touches (Reconcile_keys r req) s s1).
  { apply (effect_touches _ _ _ _ _ E1). intros key <-. right. simpl. auto. }
  destruct e as [e|]; [injection Hrun as _ <-; exact K1|].
  assert (Hname : Name hc = req_Name req).
  { destruct (client_Get_inv _ _ _ _ _ _ _ Hf) as (m & _ & _ & Hdec & _).
    destruct Hdec as (_ & _ & Hn & _). exact Hn. }
  destruct (decide (DeletionTimestamp hc <> None)).
  { unfold cleanupSecret in Hrun.
    change (bind (gets gitOpsNamespace) ?k s1) with (k (gitOpsNamespace s1) s1) in Hrun.
    cbn beta in Hrun.
    destruct (client_Delete_returns r (newObject Secret (gitOpsNamespace s1) (req_Name req)) s1)
      as (e & s2 & Hd & E2 & _).
    rewrite (bind_run _ _ _ _ _ Hd) in Hrun.
    assert (K2 : touches (Reconcile_keys r req) s s2).
    { apply (touches_trans _ _ _ _ K1). apply (effect_touches _ _ _ _ _ E2).
      intros key <-. right. simpl. auto 6. }
    destruct e; injection Hrun as _ <-; exact K2. }
  rewrite (bind_run _ _ _ _ _ (selectNamespace_run hc s1)) in Hrun.
  set (s2 := set_gitOpsNamespace _ s1) in Hrun.
  destruct (registerLocal_returns lib r s2) as (err & s3 & Hreg & E3 & _).
  rewrite (bind_run _ _ _ _ _ Hreg) in Hrun.
  assert (K3 : touches (Reconcile_keys r req) s s3).
  { apply (touches_trans _ _ _ _ K1). apply (touches_trans _ _ s2).
    - apply touches_same; reflexivity.
    - apply (effect_touches _ _ _ _ _ E3). apply local_keys_Reconcile_keys. }
  destruct err as [e|]; [injection Hrun as _ <-; exact K3|].
  rewrite (bind_run _ _ _ _ _ (disabled_run hc s3)) in Hrun.
  destruct (bool_decide _); [injection Hrun as _ <-; exact K3|].
  apply (touches_trans _ _ _ _ K3). eapply reconcileHosted_touches; eassumption.
Qed.

(** ** Deletion happens on the deletion path only *)

Lemma no_delete_refl s : no_delete s s.
Proof. split; [reflexivity|]. exists []. split; [reflexivity | constructor]. Qed.

Lemma no_delete_trans s1 s2 s3 : no_delete s1 s2 -> no_delete s2 s3 -> no_delete s1 s3.
Proof.
  intros (Ha1 & t1 & Hc1 & Ht1) (Ha2 & t2 & Hc2 & Ht2). split; [etrans; eassumption|].
  exists (t2 ++ t1). rewrite Hc2, Hc1. split; [apply app_assoc | apply Forall_app; auto].
Qed.

Lemma no_delete_same s s' : api s' = api s -> calls s' = calls s -> no_delete s s'.
Proof.
  intros Ha Hc. split; [rewrite Ha; reflexivity|].
  exists []. split; [exact Hc | constructor].
Qed.

Lemma no_delete_step s s' c :
  dom (api s) ⊆ dom (api s') -> calls s' = c :: calls s -> is_delete c = false ->
  no_delete s s'.
Proof.
  intros Ha Hc Hd. split; [exact Ha|]. exists [c]. split; [exact Hc|]. repeat constructor.
  exact Hd.
Qed.

Lemma client_Get_no_delete c ns name obj s :
  returns (client_Get c ns name obj) s (fun _ s' => no_delete s s').
Proof.
  eapply returns_mono; [apply client_Get_returns|].
  intros [o e] s' (_ & Ha & _ & Hc & _).
  eapply no_delete_step; [rewrite Ha; reflexivity | exact Hc | reflexivity].
Qed.

Lemma client_Create_no_delete c obj s :
  returns (client_Create c obj) s (fun _ s' => no_delete s s').
Proof.
  eapply returns_mono; [apply client_Create_returns|].
  intros e s' (_ & _ & _ & Hc & Hcase).
  eapply no_delete_step; [|exact Hc | reflexivity].
  destruct (mjoin (head (faults s))); [destruct Hcase as (_ & ->); reflexivity|].
  destruct (api s !! obj_key c obj); destruct Hcase as (_ & ->); [reflexivity|].
  rewrite dom_insert. set_solver.
Qed.

Lemma client_Update_no_delete c obj s :
  returns (client_Update c obj) s (fun _ s' => no_delete s s').
Proof.
  eapply returns_mono; [apply client_Update_returns|].
  intros e s' (_ & _ & _ & Hc & Hcase).
  eapply no_delete_step; [|exact Hc | reflexivity].
  destruct (mjoin (head (faults s))); [destruct Hcase as (_ & ->); reflexivity|].
  destruct (api s !! obj_key c obj); destruct Hcase as (_ & ->); [|reflexivity].
  rewrite dom_insert. set_solver.
Qed.

Lemma CreateOrUpdate_no_delete c obj f s :
  returns (CreateOrUpdate c obj f) s (fun _ s' => no_delete s s').
Proof.
  unfold CreateOrUpdate. cbn zeta.
  eapply returns_bind; [apply client_Get_no_delete|].
  intros [o [e|]] s1 H1.
  - destruct (negb (IsNotFound e)); [apply returns_ret; exact H1|].
    destruct (mutate f _ o) as [o' [e'|]]; [apply returns_ret; exact H1|].
    eapply returns_bind; [apply client_Create_no_delete|].
    intros e2 s2 H2. pose proof (no_delete_trans _ _ _ H1 H2).
    destruct e2; apply returns_ret; assumption.
  - apply returns_gets.
    destruct (mutate f _ o) as [o' [e'|]]; [apply returns_ret; exact H1|].
    apply returns_gets. destruct (decide _); [apply returns_ret; exact H1|].
    eapply returns_bind; [apply client_Update_no_delete|].
    intros e2 s2 H2. pose proof (no_delete_trans _ _ _ H1 H2).
    destruct e2; apply returns_ret; assumption.
Qed.

Lemma CreateOrUpdateWithRetries_no_delete c obj f s :
  returns (CreateOrUpdateWithRetries c obj f) s (fun _ s' => no_delete s s').
Proof.
  unfold CreateOrUpdateWithRetries, ExponentialBackoff.
  eapply returns_bind.
  - apply (backoff_loop_returns (retry_condition c f)
             (fun _ s' => no_delete s s') (fun _ _ => True)).
    + intros st s1 H1. unfold retry_condition.
      eapply returns_bind; [apply CreateOrUpdate_no_delete|].
      intros [[o op] e] s2 H2. pose proof (no_delete_trans _ _ _ H1 H2).
      destruct e as [e|]; [destruct (negb (IsConflict e))|]; apply returns_ret; auto.
    + apply no_delete_refl.
  - intros [st e] s' (H & _). apply returns_ret. exact H.
Qed.

Lemma setupClusterConfig_no_delete clnt server name hc s :
  returns (setupClusterConfig clnt server name hc) s (fun _ s' => no_delete s s').
Proof.
  eapply returns_mono; [apply setupClusterConfig_only_adds|].
  intros _ s' (Ha & _ & t & Hc & Ht). split; [apply subseteq_dom, Ha|].
  exists t. split; [exact Hc|]. eapply Forall_impl; [exact Ht|].
  intros [] H; solve [reflexivity | discriminate H].
Qed.

Lemma createArgoCDClusterSecret_no_delete r labels cluster s out s' :
  createArgoCDClusterSecret lib r labels cluster s = (out, s') -> no_delete s s'.
Proof.
  destruct labels as [l|]; [|intros [= _ <-]; apply no_delete_refl].
  intros Hrun.
  assert (H : returns (createArgoCDClusterSecret lib r (Some l) cluster) s (fun _ s' =>
            no_delete s s')).
  { unfold createArgoCDClusterSecret. cbn zeta.
    unfold map_assign. apply returns_modify.
    unfold json_Marshal. apply returns_gets.
    eapply returns_bind; [apply CreateOrUpdateWithRetries_no_delete|].
    intros [[o op] e] s1 H1.
    assert (T : no_delete s s1).
    { eapply no_delete_trans; [|exact H1]. apply no_delete_same; reflexivity. }
    destruct e; apply returns_ret; exact T. }
  destruct (returns_run _ _ _ _ _ H Hrun) as (_ & _ & T). exact T.
Qed.

Lemma registerLocal_no_delete r s out s' :
  registerLocal lib r s = (out, s') -> no_delete s s'.
Proof.
  unfold registerLocal. intros Hrun.
  destruct (setupClusterConfig_no_delete r "https://kubernetes.default.svc" "in-cluster-local"
              None s) as (res & s1 & Hrun1 & H1).
  rewrite (bind_run _ _ _ _ _ Hrun1) in Hrun.
  destruct res as [cl|e]; [|injection Hrun as _ <-; exact H1].
  unfold bind, map_literal in Hrun.
  apply createArgoCDClusterSecret_no_delete in Hrun.
  eapply no_delete_trans; [exact H1|].
  eapply no_delete_trans; [|exact Hrun]. apply no_delete_same; reflexivity.
Qed.

Lemma reconcileHosted_no_delete r req hc s out s' :
  reconcileHosted lib r req hc s = (out, s') -> no_delete s s'.
Proof.
  unfold reconcileHosted. intros Hrun.
  destruct (client_Get_no_delete r (req_Namespace req) (req_Name req +:+ "-admin-kubeconfig")
              (newObject Secret "" "") s) as ([kcs e] & s4 & Hk & K4).
  unfold fetchKubeconfig in Hrun. rewrite (bind_run _ _ _ _ _ Hk) in Hrun.
  destruct e as [e|]; [injection Hrun as _ <-; exact K4|].
  destruct (bootstrapHosted lib hc kcs s4) as [out5 s5] eqn:Hboot.
  assert (K5 : no_delete s s5).
  { apply (no_delete_trans _ _ _ K4). revert Hboot. unfold bootstrapHosted.
    destruct (GetClientForCluster lib _) as [clnt|e];
      [|intros [= _ <-]; apply no_delete_refl].
    unfold getServerFromKubeConfig.
    destruct (yaml_Unmarshal lib _) as [cfg|e]; [|intros [= _ <-]; apply no_delete_refl].
    destruct (api.Clusters cfg) as [|c0 rest]; [intros [= _ <-]; apply no_delete_refl|].
    intros Hboot.
    change (setupClusterConfig clnt (api.Server (api.Cluster_ c0)) (Name hc) (Some hc) s4
              = (out5, s5)) in Hboot.
    destruct (returns_run _ _ _ _ _ (setupClusterConfig_no_delete clnt _ _ _ s4) Hboot)
      as (_ & _ & H). exact H. }
  unfold bind at 1 in Hrun. rewrite Hboot in Hrun.
  destruct out5 as [[cluster|e]|msg]; try (injection Hrun as _ <-; exact K5).
  destruct (mirrorLabels hc s5) as [out6 s6] eqn:Hmir.
  assert (K6 : no_delete s s6).
  { apply (no_delete_trans _ _ _ K5).
    destruct (Labels hc) as [l|] eqn:HL.
    - destruct (mirrorLabels_run hc l s5 HL) as (h & Hm & _).
      rewrite Hm in Hmir. injection Hmir as _ <-. apply no_delete_same; reflexivity.
    - rewrite mirrorLabels_nil in Hmir by exact HL. injection Hmir as _ <-.
      apply no_delete_refl. }
  unfold bind at 1 in Hrun. rewrite Hmir in Hrun.
  destruct out6 as [[]|msg]; [|injection Hrun as _ <-; exact K6].
  destruct (createArgoCDClusterSecret lib r (Labels hc) cluster s6) as [out7 s7] eqn:Hsec.
  pose proof (no_delete_trans _ _ _ K6 (createArgoCDClusterSecret_no_delete _ _ _ _ _ _ Hsec))
    as K7.
  unfold bind in Hrun. rewrite Hsec in Hrun.
  destruct out7 as [[e|]|msg]; injection Hrun as _ <-; exact K7.
Qed.

(** X9. Deletion happens on the deletion path only.  Unless the requested
    resource is stored with a deletion timestamp, a reconcile, whatever the
    environment does and whatever the outcome, issues no Delete call, and
    every object stored before is still stored afterwards. *)
Theorem Reconcile_deletes_only_on_deletion r req s out s' :
  (forall m, api s !! (r, (HostedCluster, (req_Namespace req, req_Name req))) = Some m ->
             mDeletionTimestamp m = None) ->
  Reconcile lib r req s = (out, s') ->
  dom (api s) ⊆ dom (api s') /\
  exists t, calls s' = t ++ calls s /\ Forall (fun c => is_delete c = false) t.
Proof.
  intros Hlive. rewrite Reconcile_eq_steps. unfold Reconcile_steps. intros Hrun.
  change (no_delete s s').
  destruct (client_Get_no_delete r (req_Namespace req) (req_Name req)
              (newObject HostedCluster "" "") s) as ([hc e] & s1 & Hf & K1).
  unfold fetchHostedCluster in Hrun. rewrite (bind_run _ _ _ _ _ Hf) in Hrun.
  destruct e as [e|]; [injection Hrun as _ <-; exact K1|].
  destruct (client_Get_inv _ _ _ _ _ _ _ Hf) as (m & _ & Hm & Hdec & _).
  destruct (decoded_facts _ _ _ _ _ _ _ Hdec) as (_ & _ & _ & Hdel & _).
  rewrite decide_False in Hrun by (rewrite Hdel, (Hlive m Hm); auto).
  rewrite (bind_run _ _ _ _ _ (selectNamespace_run hc s1)) in Hrun.
  set (s2 := set_gitOpsNamespace _ s1) in Hrun.
  destruct (registerLocal lib r s2) as [out3 s3] eqn:Hreg.
  assert (K3 : no_delete s s3).
  { apply (no_delete_trans _ _ _ K1). apply (no_delete_trans _ s2).
    - apply no_delete_same; reflexivity.
    - eapply registerLocal_no_delete, Hreg. }
  unfold bind at 1 in Hrun. rewrite Hreg in Hrun.
  destruct out3 as [[e|]|msg]; try (injection Hrun as _ <-; exact K3).
  rewrite (bind_run _ _ _ _ _ (disabled_run hc s3)) in Hrun.
  destruct (bool_decide _); [injection Hrun as _ <-; exact K3|].
  apply (no_delete_trans _ _ _ K3). eapply reconcileHosted_no_delete, Hrun.
Qed.

(** ** Reconciling what is already reconciled *)

Lemma read_only_refl s : read_only s s.
Proof. split; [reflexivity|]. exists []. split; [reflexivity | constructor]. Qed.

Lemma read_only_trans s1 s2 s3 : read_only s1 s2 -> read_only s2 s3 -> read_only s1 s3.
Proof.
  intros (Ha1 & t1 & Hc1 & Ht1) (Ha2 & t2 & Hc2 & Ht2). split; [congruence|].
  exists (t2 ++ t1). rewrite Hc2, Hc1. split; [apply app_assoc | apply Forall_app; auto].
Qed.

Lemma read_only_same s s' : api s' = api s -> calls s' = calls s -> read_only s s'.
Proof.
  intros Ha Hc. split; [exact Ha|]. exists []. split; [exact Hc | constructor].
Qed.

Lemma read_only_Get s s' c k ns name :
  api s' = api s -> calls s' = CallGet c k ns name :: calls s -> read_only s s'.
Proof.
  intros Ha Hc. split; [exact Ha|]. eexists [_]. split; [exact Hc|]. repeat constructor.
Qed.

Lemma createArgoCDClusterSecret_converged r l cluster s m0 L :
  fault_free s -> heap s !! l = Some L ->
  api s !! (r, (Secret, (gitOpsNamespace s, Cluster_Name cluster))) = Some m0 ->
  mLabels m0 = <[argoCDSecretTypeLabel := argoCDSecretTypeCluster]> L ->
  mData m0 = argoSecretData lib cluster -> mType m0 = SecretTypeOpaque ->
  exists s',
    createArgoCDClusterSecret lib r (Some l) cluster s = (Normal None, s') /\
    fault_free s' /\ read_only s s' /\
    gitOpsNamespace s' = gitOpsNamespace s.
Proof.
  intros Hq HL Hm0 Hlab Hdata Htype.
  set (s0 := set_heap (alter (insert argoCDSecretTypeLabel argoCDSecretTypeCluster) l (heap s)) s).
  set (f := argocd_mutation (Some l) cluster
              (json_encode lib (ClusterConfig_json (Cluster_Config cluster)))).
  set (obj := newObject Secret (gitOpsNamespace s) (Cluster_Name cluster)).
  assert (Hq0 : fault_free s0) by exact Hq.
  destruct (CreateOrUpdate_fault_free r obj f s0 (argocd_mutation_identity _ _ _)
              (fun _ => eq_refl) Hq0)
    as ([[obj' op] err] & s' & Hrun & -> & Hq' & Hrest).
  destruct (returns_run _ _ _ _ _
              (CreateOrUpdate_returns r obj f s0 (argocd_mutation_identity _ _ _)) Hrun)
    as (? & [= <-] & Heff & _).
  change (api s0 !! obj_key r obj) with
    (api s !! (r, (Secret, (gitOpsNamespace s, Cluster_Name cluster)))) in Hrest.
  rewrite Hm0 in Hrest. destruct Hrest as (o & -> & Hfr & Hdec).
  assert (Hl0 : heap s0 !! l = Some (<[argoCDSecretTypeLabel := argoCDSecretTypeCluster]> L)).
  { unfold s0. simpl. rewrite list_lookup_alter_eq, HL. reflexivity. }
  assert (Hl' : heap s' !! l = Some (<[argoCDSecretTypeLabel := argoCDSecretTypeCluster]> L)).
  { rewrite <- Hl0. apply (eff_heap _ _ _ _ Heff); [intros [] | eapply lookup_lt_Some, Hl0]. }
  assert (Heq : m0 = freeze (heap s') (f o).1).
  { rewrite <- Hfr. unfold freeze, f, argocd_mutation. simpl.
    rewrite Hl'. simpl.
    rewrite <- Hfr in Hlab, Hdata, Htype. simpl in Hlab, Hdata, Htype.
    rewrite Hlab, Htype. f_equal. exact Hdata. }
  rewrite decide_True in Hdec by exact Heq. destruct Hdec as (_ & Ha & Hc).
  exists s'. split; [|split; [exact Hq'|split]].
  - unfold createArgoCDClusterSecret, map_assign, json_Marshal. cbn zeta.
    unfold bind at 1. unfold modify. fold s0. cbn beta iota.
    unfold bind at 1. unfold gets. cbn beta iota.
    change (gitOpsNamespace s0) with (gitOpsNamespace s). fold obj. fold f.
    rewrite (bind_run _ _ _ _ _ (CreateOrUpdateWithRetries_first _ _ _ _ _ _ _ Hrun)).
    reflexivity.
  - eapply read_only_Get; [exact Ha | exact Hc].
  - apply (eff_ns _ _ _ _ Heff).
Qed.

(** X10. Reconciling what is already reconciled is read-only.  Take the
    setting of the happy path, and suppose moreover that the three
    identity objects exist on the reconciler's cluster and on the hosted
    cluster, and that the selected namespace already holds the secret
    in-cluster-local and the secret named like the resource, each with the
    labels, the data and the type that a reconcile gives it.  Then
    [Reconcile] returns without error, the store afterwards is the store
    before, and every client call it makes is a Get. *)
Theorem Reconcile_converged r req s m tl k clnt cfg c0 rest th ml ms :
  fault_free s ->
  api s !! (r, (HostedCluster, (req_Namespace req, req_Name req))) = Some m ->
  mDeletionTimestamp m = None ->
  mLabels m <> ∅ ->
  mLabels m !! hyperOpsEnabledLabel <> Some "false" ->
  api s !! tokenSecretKey r = Some tl ->
  data_get (mData tl) "token" <> "" -> data_get (mData tl) "ca.crt" <> "" ->
  api s !! (r, (Secret, (req_Namespace req, req_Name req +:+ "-admin-kubeconfig"))) = Some k ->
  GetClientForCluster lib (data_get (mData k) "kubeconfig") = Ok clnt ->
  yaml_Unmarshal lib (data_get (mData k) "kubeconfig") = Ok cfg ->
  api.Clusters cfg = c0 :: rest ->
  api s !! tokenSecretKey clnt = Some th ->
  data_get (mData th) "token" <> "" -> data_get (mData th) "ca.crt" <> "" ->
  dom (identity_manifests r) ⊆ dom (api s) ->
  dom (identity_manifests clnt) ⊆ dom (api s) ->
  api s !! (r, (Secret, (default (gitOpsNamespace s)
                           (mLabels m !! hyperOpsGitopsNamespaceLabel),
                         "in-cluster-local"))) = Some ml ->
  mLabels ml = localLabels ->
  mType ml = SecretTypeOpaque ->
  mData ml =
    {[ "name" := "in-cluster-local";
       "server" := "https://kubernetes.default.svc";
       "config" :=
         json_encode lib
           (ClusterConfig_json
              (mkClusterConfig (data_get (mData tl) "token")
                 (mkTLSClientConfig
                    (base64_URLEncoding_EncodeToString (data_get (mData tl) "ca.crt"))))) ]} ->
  api s !! (r, (Secret, (default (gitOpsNamespace s)
                           (mLabels m !! hyperOpsGitopsNamespaceLabel),
                         req_Name req))) = Some ms ->
  mLabels ms = hostedLabels (mLabels m) ->
  mType ms = SecretTypeOpaque ->
  mData ms =
    {[ "name" := req_Name req;
       "server" := api.Server (api.Cluster_ c0);
       "config" :=
         json_encode lib
           (ClusterConfig_json
              (mkClusterConfig (data_get (mData th) "token")
                 (mkTLSClientConfig
                    (base64_URLEncoding_EncodeToString (data_get (mData th) "ca.crt"))))) ]} ->
  exists s',
    Reconcile lib r req s = (Normal (Result_zero, None), s') /\
    api s' = api s /\
    exists t, calls s' = t ++ calls s /\ Forall (fun c => is_get c = true) t.
Proof.
  intros Hq Hhc Hlive Hne Hen Htl Htl1 Htl2 Hk Hclnt Hcfg Hc0 Hth Hth1 Hth2 Hidr Hidc
         Hml Hmll Hmlt Hmld Hms Hmsl Hmst Hmsd.
  (* the fetch *)
  destruct (client_Get_ok r (req_Namespace req) (req_Name req)
              (newObject HostedCluster "" "") s m (fault_free_head _ Hq) Hhc)
    as (hc & s1 & Hfetch & Hdec & Ha1 & Hf1 & Hc1 & Hns1).
  destruct (decoded_facts _ _ _ _ _ _ _ Hdec)
    as (_ & _ & Hname & Hdel & _ & Hlab & _ & Hl).
  assert (Hq1 : fault_free s1) by (eapply fault_free_tail; eassumption).
  assert (R1 : read_only s s1) by (eapply read_only_Get; eassumption).
  (* the namespace *)
  pose proof (selectNamespace_run hc s1) as Hsel. rewrite Hlab in Hsel.
  set (s2 := set_gitOpsNamespace _ s1) in Hsel.
  destruct (Labels hc) as [l|] eqn:HL; [|exfalso; apply Hne; rewrite <- Hlab; reflexivity].
  destruct (Hl l eq_refl) as (_ & Hlt1 & Hcell1).
  assert (Hns2 : gitOpsNamespace s2
                 = default (gitOpsNamespace s) (mLabels m !! hyperOpsGitopsNamespaceLabel)).
  { unfold s2. simpl. rewrite Hns1. reflexivity. }
  (* the local cluster *)
  destruct (setupClusterConfig_steady r "https://kubernetes.default.svc" "in-cluster-local"
              None s2) as (s2a & tl' & Hrun2a & Htl' & Ha2a & Hq2a & E2a & Hc2a);
    [exact Hq1 | change (api s2) with (api s1); rewrite Ha1; exact Hidr |].
  change (api s2) with (api s1) in Htl', Ha2a. rewrite Ha1, Htl in Htl'. injection Htl' as <-.
  rewrite (readiness_ok _ _ _ _ Htl1 Htl2) in Hrun2a.
  match type of Hrun2a with _ = (Normal (Ok ?c), _) => set (cl := c) in * end.
  set (s2b := set_heap (heap s2a ++ [ {[ "hyper-ops.cloudmonkey.org/type" := "local" ]} ]) s2a).
  destruct (createArgoCDClusterSecret_converged r (length (heap s2a)) cl s2b ml
              {[ "hyper-ops.cloudmonkey.org/type" := "local" ]})
    as (s3 & Hrun3 & Hq3 & R3 & Hns3); try assumption.
  { unfold s2b. simpl. rewrite lookup_app_r by lia. rewrite Nat.sub_diag. reflexivity. }
  { change (gitOpsNamespace s2b) with (gitOpsNamespace s2a).
    rewrite (eff_ns _ _ _ _ E2a), Hns2. change (api s2b) with (api s2a).
    rewrite Ha2a, Ha1. exact Hml. }
  assert (Hreg : registerLocal lib r s2 = (Normal None, s3)).
  { unfold registerLocal. rewrite (bind_run _ _ _ _ _ Hrun2a). exact Hrun3. }
  destruct (returns_run _ _ _ _ _ (registerLocal_returns lib r s2) Hreg)
    as (? & [= <-] & Eloc & _).
  assert (Ha3 : api s3 = api s).
  { destruct R3 as (-> & _). change (api s2b) with (api s2a). congruence. }
  (* the gate *)
  assert (Hcell3 : heap s3 !! l = Some (mLabels m)).
  { rewrite (eff_heap _ _ _ _ Eloc); [exact Hcell1 | intros [] | exact Hlt1]. }
  assert (Hdis : disabled hc s3 = (Normal false, s3)).
  { rewrite disabled_run, HL. simpl. rewrite Hcell3. simpl.
    rewrite bool_decide_eq_false_2 by exact Hen. reflexivity. }
  (* the kubeconfig *)
  destruct (client_Get_ok r (req_Namespace req) (req_Name req +:+ "-admin-kubeconfig")
              (newObject Secret "" "") s3 k (fault_free_head _ Hq3))
    as (kcs & s4 & Hkube & Hdeck & Ha4 & Hf4 & Hc4 & Hns4);
    [rewrite Ha3; exact Hk|].
  destruct (decoded_facts _ _ _ _ _ _ _ Hdeck) as (_ & _ & _ & _ & HDk & _).
  assert (Hq4 : fault_free s4) by (eapply fault_free_tail; eassumption).
  destruct (returns_run _ _ _ _ _
              (client_Get_returns r (req_Namespace req) (req_Name req +:+ "-admin-kubeconfig")
                 (newObject Secret "" "") s3) Hkube) as (? & [= <-] & Ekube & _).
  (* the hosted cluster *)
  destruct (setupClusterConfig_steady clnt (api.Server (api.Cluster_ c0)) (Name hc) (Some hc)
              s4) as (s5 & th' & Hrun5 & Hth' & Ha5 & Hq5 & E5 & Hc5);
    [exact Hq4 | rewrite Ha4, Ha3; exact Hidc |].
  rewrite Ha4, Ha3, Hth in Hth'. injection Hth' as <-.
  rewrite (readiness_ok _ _ _ _ Hth1 Hth2) in Hrun5.
  match type of Hrun5 with _ = (Normal (Ok ?c), _) => set (ch := c) in * end.
  assert (Hboot : bootstrapHosted lib hc kcs s4 = (Normal (Ok ch), s5)).
  { unfold bootstrapHosted, getServerFromKubeConfig. rewrite HDk, Hclnt, Hcfg, Hc0.
    exact Hrun5. }
  (* the labels *)
  assert (Hcell5 : heap s5 !! l = Some (mLabels m)).
  { pose proof (eff_len _ _ _ _ Eloc). pose proof (eff_len _ _ _ _ Ekube).
    assert (Hlt2 : l < length (heap s2)) by exact Hlt1.
    rewrite (eff_heap _ _ _ _ E5) by (auto; lia).
    rewrite (eff_heap _ _ _ _ Ekube) by (auto; lia). exact Hcell3. }
  destruct (mirrorLabels_returns hc l (mLabels m) s5 HL Hcell5)
    as ([] & s6 & Hmir & Emir & Ha6 & Hc6 & Hf6 & Hcell6).
  assert (Hq6 : fault_free s6) by (eapply fault_free_same; eassumption).
  assert (Hns6 : gitOpsNamespace s6
                 = default (gitOpsNamespace s) (mLabels m !! hyperOpsGitopsNamespaceLabel)).
  { rewrite (eff_ns _ _ _ _ Emir), (eff_ns _ _ _ _ E5), Hns4, (eff_ns _ _ _ _ Eloc).
    exact Hns2. }
  destruct (createArgoCDClusterSecret_converged r l ch s6 ms
              (<["hyper-ops.cloudmonkey.org/type" := "hosted"]> (keepPrefixed (mLabels m))))
    as (s7 & Hrun7 & Hq7 & R7 & Hns7); try assumption.
  { rewrite Hns6, Ha6, Ha5, Ha4, Ha3. unfold ch. simpl. rewrite Hname. exact Hms. }
  { unfold ch, argoSecretData. simpl. rewrite Hname. exact Hmsd. }
  exists s7. split; [|split].
  - assert (Hdel' : DeletionTimestamp hc = None) by congruence.
    rewrite (Reconcile_after_bootstrap r req s hc s1 s2 s3 kcs s4 ch s5
               Hfetch Hdel' Hsel Hreg Hdis Hkube Hboot).
    rewrite (bind_run _ _ _ _ _ Hmir). rewrite HL.
    rewrite (bind_run _ _ _ _ _ Hrun7). reflexivity.
  - destruct R7 as (-> & _). congruence.
  - assert (R : read_only s s7).
    { apply (read_only_trans _ _ _ R1).
      apply (read_only_trans _ s2); [apply read_only_same; reflexivity|].
      apply (read_only_trans _ s2a).
      { split; [exact Ha2a|]. eexists. split; [exact Hc2a|]. repeat constructor. }
      apply (read_only_trans _ s2b); [apply read_only_same; reflexivity|].
      apply (read_only_trans _ _ _ R3).
      apply (read_only_trans _ s4); [eapply read_only_Get; eassumption|].
      apply (read_only_trans _ s5).
      { split; [exact Ha5|]. eexists. split; [exact Hc5|]. repeat constructor. }
      apply (read_only_trans _ s6); [apply read_only_same; assumption|].
      exact R7. }
    destruct R as (_ & R). exact R.
Qed.

(** ** Edges of the reconciler *)

(** X11. The label loop does not depend on the order in which the keys of
    the map are visited.  Go ranges over a map in an unspecified order; for
    every list of keys that holds exactly the keys of the map (in any order,
    even with repetitions), the loop of [Reconcile] that deletes the keys
    without the reserved prefix leaves in the map exactly the entries whose
    key carries the prefix, changes nothing else, and does not fail. *)
Theorem label_loop_any_order l keys L0 s :
  heap s !! l = Some L0 ->
  (forall k, k ∈ keys <-> is_Some (L0 !! k)) ->
  for_each keys (fun k =>
      if negb (String.prefix hyperOpsLabel k) then map_delete (Some l) k else ret tt) s
  = (Normal tt, set_heap (<[l := keepPrefixed L0]> (heap s)) s).
Proof.
  intros HL Hkeys. rewrite for_each_delete_run. f_equal. f_equal.
  apply list_eq. intros i. destruct (decide (i = l)) as [->|Hne].
  - rewrite list_lookup_alter_eq, HL, list_lookup_insert_eq by (eapply lookup_lt_Some, HL).
    simpl. f_equal. apply map_eq. intros k. rewrite foldl_drop_lookup. unfold keepPrefixed.
    rewrite map_lookup_filter.
    destruct (L0 !! k) as [v|] eqn:Hk; simpl.
    + destruct (String.prefix hyperOpsLabel k) eqn:Hp.
      * rewrite decide_False by (intros [_ ?]; discriminate).
        rewrite option_guard_True by done. reflexivity.
      * rewrite decide_True by (split; [apply Hkeys; rewrite Hk; eauto | reflexivity]).
        rewrite option_guard_False by done. reflexivity.
    + destruct (decide _); reflexivity.
  - rewrite list_lookup_alter_ne, list_lookup_insert_ne by congruence. reflexivity.
Qed.

(** X12. [createArgoCDClusterSecret] writes into the label map of its
    caller.  Given a nil map it panics at once, before any client call.
    Given a map, it returns normally, and whatever the result, error
    included, the caller's map then carries the label
    argocd.argoproj.io/secret-type=cluster on top of what it held. *)
Theorem createArgoCDClusterSecret_marks_labels r cluster s :
  createArgoCDClusterSecret lib r None cluster s
    = (Panic "assignment to entry in nil map", s) /\
  forall l L, heap s !! l = Some L ->
    exists err s',
      createArgoCDClusterSecret lib r (Some l) cluster s = (Normal err, s') /\
      heap s' !! l = Some (<[argoCDSecretTypeLabel := argoCDSecretTypeCluster]> L).
Proof.
  split; [reflexivity|]. intros l L HL.
  destruct (createArgoCDClusterSecret_returns lib r l cluster s (lookup_lt_Some _ _ _ HL))
    as (err & s' & Hrun & _ & Hcell & _).
  exists err, s'. split; [exact Hrun|]. rewrite Hcell, HL. reflexivity.
Qed.

(** X13. When the requested resource cannot be fetched, [Reconcile] stops
    after that one Get call and changes nothing.  If the resource is
    absent, or the call fails as not found, the result is success; if the
    call fails for another reason, that error is returned. *)
Theorem Reconcile_fetch_failure r req s :
  mjoin (head (faults s)) <> None \/
  api s !! (r, (HostedCluster, (req_Namespace req, req_Name req))) = None ->
  Reconcile lib r req s
    = (Normal (Result_zero,
               match mjoin (head (faults s)) with
               | None | Some NotFound => None
               | Some reason => Some (StatusError reason)
               end),
       mkState (gitOpsNamespace s) (heap s) (api s) (tail (faults s))
               (CallGet r HostedCluster (req_Namespace req) (req_Name req) :: calls s)).
Proof.
  intros H. unfold Reconcile. cbn zeta.
  destruct (client_Get_returns r (req_Namespace req) (req_Name req)
              (newObject HostedCluster "" "") s)
    as ([o e] & s1 & Hrun & Heff & Hapi & Hfl & Hcalls & Hcase).
  rewrite (bind_run _ _ _ _ _ Hrun). cbn beta iota.
  pose proof (eff_ns _ _ _ _ Heff) as Hns. simpl in Hcalls, Hcase.
  assert (Hs1 : s1 = mkState (gitOpsNamespace s) (heap s) (api s) (tail (faults s))
                       (CallGet r HostedCluster (req_Namespace req) (req_Name req) :: calls s)
                /\ e = Some (StatusError (default NotFound (mjoin (head (faults s)))))).
  { destruct (mjoin (head (faults s))) as [reason|].
    - destruct Hcase as (-> & _ & Hh). split; [|reflexivity].
      destruct s1; simpl in *; congruence.
    - destruct H as [H|H]; [contradiction|]. rewrite H in Hcase.
      destruct Hcase as (-> & _ & Hh). split; [|reflexivity].
      destruct s1; simpl in *; congruence. }
  destruct Hs1 as (-> & ->).
  destruct (mjoin (head (faults s))) as [[]|]; reflexivity.
Qed.

(** X14. The event filter looks at the presence of the enablement label
    only.  The update filter ignores the old object and decides like the
    create filter on the new one; an object passes exactly when its
    label map holds the key hyper-ops.cloudmonkey.org/enabled, whatever the
    value, and the filter changes nothing.  So a resource switched off with
    the value false passes the filter, and is then skipped by the gate of
    [Reconcile]; and an object that passes has a label map, so that the label
    loop of [Reconcile] on it does not panic. *)
Theorem event_filter_presence_only old o s :
  UpdateFunc (mkUpdateEvent old o) s = CreateFunc (mkCreateEvent o) s /\
  CreateFunc (mkCreateEvent o) s
    = (Normal (bool_decide
                 (is_Some (heap_read (heap s) (Labels o) !! hyperOpsEnabledLabel))), s) /\
  (heap_read (heap s) (Labels o) !! hyperOpsEnabledLabel = Some "false" ->
     CreateFunc (mkCreateEvent o) s = (Normal true, s) /\
     disabled o s = (Normal true, s)) /\
  (CreateFunc (mkCreateEvent o) s = (Normal true, s) ->
     exists s', mirrorLabels o s = (Normal tt, s')).
Proof.
  assert (Hc : CreateFunc (mkCreateEvent o) s
    = (Normal (bool_decide
                 (is_Some (heap_read (heap s) (Labels o) !! hyperOpsEnabledLabel))), s)).
  { unfold CreateFunc, map_index, bind, gets, ret. cbn [Object_].
    destruct (heap_read (heap s) (Labels o) !! hyperOpsEnabledLabel) as [v|].
    - rewrite bool_decide_eq_true_2 by eauto. reflexivity.
    - rewrite bool_decide_eq_false_2 by (intros [? ?]; discriminate). reflexivity. }
  split; [reflexivity|]. split; [exact Hc|]. split.
  - intros Hf. split.
    + rewrite Hc, Hf. rewrite bool_decide_eq_true_2 by eauto. reflexivity.
    + rewrite disabled_run, Hf. rewrite bool_decide_eq_true_2 by reflexivity. reflexivity.
  - rewrite Hc. intros [= Hb]. apply bool_decide_eq_true_1 in Hb.
    destruct (Labels o) as [l|] eqn:HL.
    + destruct (mirrorLabels_run o l s HL) as (h & Hm & _). eauto.
    + simpl in Hb. rewrite lookup_empty in Hb. destruct Hb; discriminate.
Qed.

(** ** Kubeconfigs that cannot be used, and clusters that are not ready *)

Lemma Reconcile_after_kubeconfig r req s hc s1 s2 s3 kubeConfigSecret s4 :
  fetchHostedCluster r req s = (Normal (hc, None), s1) ->
  DeletionTimestamp hc = None ->
  selectNamespace hc s1 = (Normal tt, s2) ->
  registerLocal lib r s2 = (Normal None, s3) ->
  disabled hc s3 = (Normal false, s3) ->
  fetchKubeconfig r req s3 = (Normal (kubeConfigSecret, None), s4) ->
  Reconcile lib r req s =
    (let* hostedClusterConfig := bootstrapHosted lib hc kubeConfigSecret in
     match hostedClusterConfig with
     | Err e => ret (Result_zero, Some e)
     | Ok hostedClusterConfig =>
         let* _ := mirrorLabels hc in
         let* err := createArgoCDClusterSecret lib r (Labels hc) hostedClusterConfig in
         match err with
         | Some e => ret (Result_zero, Some e)
         | None => ret (Result_zero, None)
         end
     end) s4.
Proof.
  intros Hfetch Hlive Hsel Hloc Hen Hkube.
  rewrite (Reconcile_gate lib r req s hc s1 s2 s3) by assumption.
  rewrite disabled_run in Hen. injection Hen as ->.
  unfold reconcileHosted. rewrite (bind_run _ _ _ _ _ Hkube). reflexivity.
Qed.

(** X15. A kubeconfig that cannot be used stops the reconcile at once.
    Take an environment that makes no call fail and a store with the
    resource (not deleted, not switched off), the local cluster's token
    secret and the kubeconfig secret.  Then [Reconcile] fetches the
    resource, registers the local cluster, fetches the kubeconfig secret
    and makes no further client call when the kubeconfig is unusable: it
    returns the error of the client construction if that fails, else the
    error of the YAML parser if that fails, and it panics with
    "runtime error: index out of range [0] with length 0" when the parsed
    kubeconfig lists no cluster.  In each case the local cluster has been
    registered: in the state [Reconcile] ends in, the secret
    in-cluster-local is stored in the selected namespace with the labels
    type=local and secret-type=cluster, the type Opaque, the name
    in-cluster-local and the server https://kubernetes.default.svc; every
    other key holds what it held before or, where nothing was stored, the
    identity object of the local cluster; and the calls between the two
    fetches all target the identity objects or that secret. *)
Theorem Reconcile_unusable_kubeconfig r req s m tl k :
  fault_free s ->
  api s !! (r, (HostedCluster, (req_Namespace req, req_Name req))) = Some m ->
  mDeletionTimestamp m = None ->
  mLabels m !! hyperOpsEnabledLabel <> Some "false" ->
  api s !! tokenSecretKey r = Some tl ->
  data_get (mData tl) "token" <> "" -> data_get (mData tl) "ca.crt" <> "" ->
  api s !! (r, (Secret, (req_Namespace req, req_Name req +:+ "-admin-kubeconfig"))) = Some k ->
  exists s4 ml t,
    (* the local cluster has been registered *)
    gitOpsNamespace s4
      = default (gitOpsNamespace s) (mLabels m !! hyperOpsGitopsNamespaceLabel) /\
    api s4 !! (r, (Secret, (gitOpsNamespace s4, "in-cluster-local"))) = Some ml /\
    mLabels ml = localLabels /\ mType ml = SecretTypeOpaque /\
    data_get (mData ml) "name" = "in-cluster-local" /\
    data_get (mData ml) "server" = "https://kubernetes.default.svc" /\
    (forall key, key <> (r, (Secret, (gitOpsNamespace s4, "in-cluster-local"))) ->
       api s4 !! key = (api s ∪ identity_manifests r) !! key) /\
    (* the calls made: the resource, the registration, the kubeconfig secret *)
    calls s4
      = CallGet r Secret (req_Namespace req) (req_Name req +:+ "-admin-kubeconfig")
          :: t ++ CallGet r HostedCluster (req_Namespace req) (req_Name req) :: calls s /\
    Forall (fun c => local_keys r (gitOpsNamespace s4) (call_key c)) t /\
    (* and how the reconcile ends *)
    (forall e, GetClientForCluster lib (data_get (mData k) "kubeconfig") = Err e ->
       Reconcile lib r req s = (Normal (Result_zero, Some e), s4)) /\
    (forall clnt e,
       GetClientForCluster lib (data_get (mData k) "kubeconfig") = Ok clnt ->
       yaml_Unmarshal lib (data_get (mData k) "kubeconfig") = Err e ->
       Reconcile lib r req s = (Normal (Result_zero, Some e), s4)) /\
    (forall clnt cfg,
       GetClientForCluster lib (data_get (mData k) "kubeconfig") = Ok clnt ->
       yaml_Unmarshal lib (data_get (mData k) "kubeconfig") = Ok cfg ->
       api.Clusters cfg = [] ->
       Reconcile lib r req s
         = (Panic "runtime error: index out of range [0] with length 0", s4)).
Proof.
  intros Hq Hhc Hlive Hen Htl Htl1 Htl2 Hk.
  destruct (Reconcile_quiet_prefix r req s m tl k Hq Hhc Hlive Hen Htl Htl1 Htl2 Hk)
    as (hc & s1 & s2 & s3 & kcs & s4 & Hfetch & Hdel & Hsel & Hreg & Hdis & Hkube &
        HDk & _ & _ & Hns2 & Hns4 & _ & Hframe & _).
  pose proof (Reconcile_after_kubeconfig _ _ _ _ _ _ _ _ _
                Hfetch Hdel Hsel Hreg Hdis Hkube) as Hrec.
  destruct (client_Get_inv _ _ _ _ _ _ _ Hkube) as (? & _ & _ & _ & Ha4 & _ & Hcalls & _).
  destruct (client_Get_inv _ _ _ _ _ _ _ Hfetch) as (? & _ & _ & _ & _ & _ & Hcalls1 & _).
  assert (Hcalls2 : calls s2 = calls s1).
  { rewrite selectNamespace_run in Hsel. injection Hsel as <-. reflexivity. }
  destruct (returns_run _ _ _ _ _ (registerLocal_returns lib r s2) Hreg)
    as (? & [= <-] & Eloc & Hlocal).
  destruct (Hlocal eq_refl) as (ml & Hml & Hlab & Hty & Hnm & Hsv).
  destruct (eff_calls _ _ _ _ Eloc) as (t & Hct & HF).
  exists s4, ml, t. rewrite Hns4.
  split; [exact Hns2|]. split; [rewrite Ha4; exact Hml|].
  split; [exact Hlab|]. split; [exact Hty|]. split; [exact Hnm|]. split; [exact Hsv|].
  split; [exact Hframe|].
  split; [rewrite Hcalls, Hct, Hcalls2, Hcalls1; reflexivity|].
  split; [exact HF|].
  split; [|split].
  - intros e He. rewrite Hrec. unfold bind, bootstrapHosted. rewrite HDk, He. reflexivity.
  - intros clnt e Hc He. rewrite Hrec. unfold bind, bootstrapHosted, getServerFromKubeConfig.
    rewrite HDk, Hc, He. reflexivity.
  - intros clnt cfg Hc Hcfg Hnil. rewrite Hrec.
    unfold bind, bootstrapHosted, getServerFromKubeConfig.
    rewrite HDk, Hc, Hcfg, Hnil. reflexivity.
Qed.



(** X17. The secret for a cluster is replaced, not merged.  In an
    environment that makes no call fail, when the namespace already holds
    a secret of the cluster's name, whatever its content,
    [createArgoCDClusterSecret] succeeds and the secret stored afterwards
    has exactly the labels of the caller's map with the secret-type label,
    exactly the three data fields, and the type Opaque, whatever labels,
    data and type the old secret had; the annotations of the old secret
    are kept. *)
Theorem createArgoCDClusterSecret_replaces r l L cluster s m0 :
  fault_free s -> heap s !! l = Some L ->
  api s !! (r, (Secret, (gitOpsNamespace s, Cluster_Name cluster))) = Some m0 ->
  exists s' m',
    createArgoCDClusterSecret lib r (Some l) cluster s = (Normal None, s') /\
    api s' !! (r, (Secret, (gitOpsNamespace s, Cluster_Name cluster))) = Some m' /\
    mLabels m' = <[argoCDSecretTypeLabel := argoCDSecretTypeCluster]> L /\
    mData m' = argoSecretData lib cluster /\
    mType m' = SecretTypeOpaque /\
    mAnnotations m' = mAnnotations m0.
Proof.
  intros Hq HL Hm0.
  set (s0 := set_heap (alter (insert argoCDSecretTypeLabel argoCDSecretTypeCluster) l (heap s)) s).
  set (f := argocd_mutation (Some l) cluster
              (json_encode lib (ClusterConfig_json (Cluster_Config cluster)))).
  set (obj := newObject Secret (gitOpsNamespace s) (Cluster_Name cluster)).
  assert (Hq0 : fault_free s0) by exact Hq.
  destruct (CreateOrUpdate_fault_free r obj f s0 (argocd_mutation_identity _ _ _)
              (fun _ => eq_refl) Hq0)
    as ([[obj' op] err] & s' & Hrun & -> & Hq' & Hrest).
  destruct (returns_run _ _ _ _ _
              (CreateOrUpdate_returns r obj f s0 (argocd_mutation_identity _ _ _)) Hrun)
    as (? & [= <-] & Heff & _ & Hst).
  destruct (Hst eq_refl) as (_ & Hstored).
  change (api s0 !! obj_key r obj) with
    (api s !! (r, (Secret, (gitOpsNamespace s, Cluster_Name cluster)))) in Hrest.
  rewrite Hm0 in Hrest. destruct Hrest as (o & -> & Hfr & _).
  assert (Hl0 : heap s0 !! l = Some (<[argoCDSecretTypeLabel := argoCDSecretTypeCluster]> L)).
  { unfold s0. simpl. rewrite list_lookup_alter_eq, HL. reflexivity. }
  assert (Hl' : heap s' !! l = Some (<[argoCDSecretTypeLabel := argoCDSecretTypeCluster]> L)).
  { rewrite <- Hl0. apply (eff_heap _ _ _ _ Heff); [intros [] | eapply lookup_lt_Some, Hl0]. }
  exists s', (freeze (heap s') (f o).1). split; [|split; [exact Hstored|]].
  - unfold createArgoCDClusterSecret, map_assign, json_Marshal. cbn zeta.
    unfold bind at 1. unfold modify. fold s0. cbn beta iota.
    unfold bind at 1. unfold gets. cbn beta iota.
    change (gitOpsNamespace s0) with (gitOpsNamespace s). fold obj. fold f.
    rewrite (bind_run _ _ _ _ _ (CreateOrUpdateWithRetries_first _ _ _ _ _ _ _ Hrun)).
    reflexivity.
  - unfold freeze, f, argocd_mutation. simpl. rewrite Hl'. simpl.
    split; [reflexivity|]. split; [reflexivity|]. split; [reflexivity|].
    rewrite <- Hfr. reflexivity.
Qed.

(** ** The encoded CA certificate *)

Lemma string_ind3 (P : string -> Prop) :
  P "" -> (forall a, P (String a "")) -> (forall a b, P (String a (String b ""))) ->
  (forall a b c rest, P rest -> P (String a (String b (String c rest)))) ->
  forall s, P s.
Proof.
  intros H0 H1 H2 H3.
  refine (fix go (s : string) : P s :=
            match s with
            | EmptyString => H0
            | String a EmptyString => H1 a
            | String a (String b EmptyString) => H2 a b
            | String a (String b (String c rest)) => H3 a b c rest (go rest)
            end).
Qed.

Lemma get_alphabet n (s : string) :
  n < String.length s ->
  exists c, String.get n s = Some c /\ c ∈ list_ascii_of_string s.
Proof.
  revert n. induction s as [|a s IH]; intros n Hn; simpl in Hn; [lia|].
  destruct n as [|n]; simpl.
  - exists a. split; [reflexivity | left].
  - destruct (IH n) as (c & Hc & Hin); [lia|]. exists c. split; [exact Hc | right; exact Hin].
Qed.

Lemma enc_alphabet val shift : enc val shift ∈ list_ascii_of_string encodeURL.
Proof.
  unfold enc.
  destruct (get_alphabet (N.to_nat (N.land (N.shiftr val shift) 63)) encodeURL)
    as (c & -> & Hin); [|exact Hin].
  change 63%N with (N.ones 6). rewrite N.land_ones.
  pose proof (N.mod_upper_bound (N.shiftr val shift) (2 ^ 6)) as Hb.
  change (String.length encodeURL) with 64. change (2 ^ 6)%N with 64%N in *. lia.
Qed.

Lemma four_more n : n `mod` 4 = 0 -> S (S (S (S n))) `mod` 4 = 0.
Proof.
  intros H. change (S (S (S (S n)))) with (4 + n).
  rewrite <- Nat.Div0.add_mod_idemp_r, H. reflexivity.
Qed.

Ltac encoded_chars :=
  repeat (apply List.Forall_cons; [first [left; apply enc_alphabet | right; reflexivity]|]);
  try apply List.Forall_nil.

(** X18. The CA certificate in a cluster description is encoded with the
    URL-safe alphabet and padded.  Whenever [setupClusterConfig] returns a
    cluster description, its caData is not empty, its length is a multiple
    of four, and each of its characters is a letter, a digit, '-', '_' or
    the padding '='; so it never holds the '+' or '/' of the standard
    base64 alphabet. *)
Theorem setupClusterConfig_caData_url_safe clnt server name hc s cl s' :
  setupClusterConfig clnt server name hc s = (Normal (Ok cl), s') ->
  CAData (TLSClientConfig_ (Cluster_Config cl)) <> "" /\
  String.length (CAData (TLSClientConfig_ (Cluster_Config cl))) `mod` 4 = 0 /\
  Forall (fun c => c ∈ list_ascii_of_string encodeURL \/ c = "="%char)
         (list_ascii_of_string (CAData (TLSClientConfig_ (Cluster_Config cl)))).
Proof.
  intros Hrun.
  destruct (returns_run _ _ _ _ _ (setupClusterConfig_returns clnt server name hc s) Hrun)
    as (? & [= <-] & _ & m & _ & _ & Hca & ->).
  simpl. revert Hca. generalize (data_get (mData m) "ca.crt"). clear.
  intros src. induction src as [|a|a b|a b c rest IH] using string_ind3; intros Hne.
  - contradiction.
  - split; [discriminate|]. split; [reflexivity|].
    cbn [base64_URLEncoding_EncodeToString list_ascii_of_string].
    encoded_chars.
  - split; [discriminate|]. split; [reflexivity|].
    cbn [base64_URLEncoding_EncodeToString list_ascii_of_string].
    encoded_chars.
  - split; [discriminate|].
    cbn [base64_URLEncoding_EncodeToString list_ascii_of_string String.length].
    destruct rest as [|d rest'].
    + split; [reflexivity|]. encoded_chars.
    + destruct IH as (_ & Hlen & Hall); [discriminate|]. split.
      * apply four_more, Hlen.
      * encoded_chars. exact Hall.
Qed.

(** ** The earlier revision *)

Lemma setupClusterConfig_as_rev1 clnt server name hc s :
  setupClusterConfig clnt server name hc s =
    (let* config := Rev1.createHostedClusterConfig clnt in
     match config with
     | Ok config => ret (Ok (mkCluster name server config hc))
     | Err e => ret (Err e)
     end) s.
Proof.
  unfold setupClusterConfig, Rev1.createHostedClusterConfig. cbn zeta.
  unfold bind, ret.
  repeat (case_match; simplify_eq; try reflexivity).
Qed.

(** X19. [setupClusterConfig] is [createHostedClusterConfig] of the
    earlier revision with the result wrapped.  From every state the two
    make the same client calls and end in the same state; they fail with
    the same error; and when the earlier function returns credentials, the
    current one returns the cluster description made of the name, the
    server and the resource it was given and of these credentials. *)
Theorem setupClusterConfig_refines_rev1 clnt server name hc s :
  setupClusterConfig clnt server name hc s =
    match Rev1.createHostedClusterConfig clnt s with
    | (Normal (Ok config), s') => (Normal (Ok (mkCluster name server config hc)), s')
    | (Normal (Err e), s') => (Normal (Err e), s')
    | (Panic msg, s') => (Panic msg, s')
    end.
Proof.
  rewrite setupClusterConfig_as_rev1. unfold bind, ret.
  destruct (Rev1.createHostedClusterConfig clnt s) as [[[config|e]|msg] s']; reflexivity.
Qed.

Lemma ends_ret {A} (a : A) s (Q : A -> State -> Prop) (P : State -> Prop) :
  P s -> Q a s -> ends (ret a) s Q P.
Proof. intros HP HQ out s' [= <- <-]. auto. Qed.

Lemma ends_panic {A} msg s (Q : A -> State -> Prop) (P : State -> Prop) :
  P s -> ends (panic msg) s Q P.
Proof. intros HP out s' [= <- <-]. auto. Qed.

Lemma ends_bind {A B} (m : M A) (k : A -> M B) s Q1 (Q2 : B -> State -> Prop) P :
  ends m s Q1 P ->
  (forall a s1, P s1 -> Q1 a s1 -> ends (k a) s1 Q2 P) ->
  ends (bind m k) s Q2 P.
Proof.
  intros Hm Hk out s'. unfold bind. destruct (m s) as [[a|msg] s1] eqn:E.
  - destruct (Hm _ _ E) as (HP & HQ). intros H. exact (Hk a s1 HP HQ _ _ H).
  - destruct (Hm _ _ E) as (HP & _). intros [= <- <-]. auto.
Qed.

Lemma ends_returns {A} (m : M A) s (Q : A -> State -> Prop) (P : State -> Prop) :
  returns m s (fun a s' => P s' /\ Q a s') -> ends m s Q P.
Proof.
  intros (a & s1 & Hrun & HP & HQ) out s' H. rewrite Hrun in H. injection H as <- <-. auto.
Qed.

Lemma creates_only_refl s : creates_only s s.
Proof. split; [reflexivity|]. exists []. split; [reflexivity | constructor]. Qed.

Lemma creates_only_trans s1 s2 s3 :
  creates_only s1 s2 -> creates_only s2 s3 -> creates_only s1 s3.
Proof.
  intros (Ha1 & t1 & Hc1 & Ht1) (Ha2 & t2 & Hc2 & Ht2). split; [etrans; eassumption|].
  exists (t2 ++ t1). rewrite Hc2, Hc1. split; [apply app_assoc | apply Forall_app; auto].
Qed.

Lemma creates_only_same s s' : api s' = api s -> calls s' = calls s -> creates_only s s'.
Proof.
  intros Ha Hc. split; [rewrite Ha; reflexivity|]. exists []. split; [exact Hc | constructor].
Qed.

Lemma map_index_ends m k s (P : State -> Prop) :
  P s -> ends (map_index m k) s (fun _ s' => s' = s) P.
Proof.
  intros HP. unfold map_index, bind, gets, ret. intros out s'.
  destruct (heap_read (heap s) m !! k); intros [= <- <-]; auto.
Qed.

Lemma client_Get_creates_only c ns name obj s0 s :
  creates_only s0 s ->
  ends (client_Get c ns name obj) s
    (fun '(o, err) s' =>
       err = None ->
       exists m, api s !! (c, (kind obj, (ns, name))) = Some m /\
                 DeletionTimestamp o = mDeletionTimestamp m)
    (creates_only s0).
Proof.
  intros H0 out s' Hrun.
  destruct (client_Get_returns c ns name obj s) as ([o e] & s1 & Hrun1 & _ & Ha & _ & Hc & _).
  rewrite Hrun1 in Hrun. injection Hrun as <- <-. split.
  - apply (creates_only_trans _ _ _ H0). split; [rewrite Ha; reflexivity|].
    eexists [_]. split; [exact Hc|]. repeat constructor.
  - intros ->. destruct (client_Get_inv _ _ _ _ _ _ _ Hrun1) as (m & _ & Hm & Hdec & _).
    destruct (decoded_facts _ _ _ _ _ _ _ Hdec) as (_ & _ & _ & Hdel & _). eauto.
Qed.

Lemma upsert_creates_only c obj s0 s :
  creates_only s0 s ->
  ends (CreateOrUpdateWithRetries c obj no_mutation) s (fun _ _ => True) (creates_only s0).
Proof.
  intros H0. apply ends_returns. eapply returns_mono; [apply CreateOrUpdateWithRetries_no_mutation|].
  intros [[o op] e] s' ((Ha & Hc) & _). split; [|exact I].
  apply (creates_only_trans _ _ _ H0). split; [|exact Hc].
  destruct Ha as [->|(Hn & ->)]; [reflexivity | apply insert_subseteq, Hn].
Qed.

Lemma createHostedClusterConfig_creates_only clnt s0 s :
  creates_only s0 s ->
  ends (Rev1.createHostedClusterConfig clnt) s (fun _ _ => True) (creates_only s0).
Proof.
  intros H0 out s' Hrun. split; [|destruct out; exact I].
  destruct (setupClusterConfig_only_adds clnt "" "" None s) as (res & s2 & Hrun2 & Ha & _ & Hc).
  rewrite setupClusterConfig_as_rev1 in Hrun2. unfold bind in Hrun2. rewrite Hrun in Hrun2.
  assert (s2 = s') as ->.
  { destruct out as [[config|e]|msg]; injection Hrun2 as _ <-; reflexivity. }
  apply (creates_only_trans _ _ _ H0). split; assumption.
Qed.

(** X20. In the earlier revision a reconcile never overwrites anything.
    Unless the requested resource is stored with a deletion timestamp,
    [Rev1.Reconcile], whatever the environment does and whatever the
    outcome, issues only Get and Create calls, and every object stored
    before is stored unchanged afterwards.  In particular a secret of the
    resource's name that exists already is left as it is, whatever labels
    and credentials the reconcile has computed. *)
Theorem Rev1_Reconcile_never_overwrites r req s out s' :
  (forall m, api s !! (r, (HostedCluster, (req_Namespace req, req_Name req))) = Some m ->
             mDeletionTimestamp m = None) ->
  Rev1.Reconcile lib r req s = (out, s') ->
  api s ⊆ api s' /\
  exists t, calls s' = t ++ calls s /\ Forall (fun x => reads_or_creates x = true) t.
Proof.
  intros Hlive Hrun.
  assert (H : ends (Rev1.Reconcile lib r req) s (fun _ _ => True) (creates_only s)).
  { unfold Rev1.Reconcile. cbn zeta.
    eapply ends_bind; [apply client_Get_creates_only, creates_only_refl|].
    intros [hc [e|]] s1 H1 Hhc; [apply ends_ret; auto|].
    destruct (Hhc eq_refl) as (m & Hm & Hdel). simpl in Hm.
    rewrite decide_False by (rewrite Hdel, (Hlive m Hm); auto).
    eapply ends_bind; [apply map_index_ends; exact H1|].
    intros [enabled ok] ? _ ->.
    destruct (ok && bool_decide (enabled = "false")); [apply ends_ret; auto|].
    eapply ends_bind; [apply map_index_ends; exact H1|].
    intros [? ok'] ? _ ->.
    eapply ends_bind with (Q1 := fun _ _ => True).
    { destruct (negb ok'); [apply ends_ret; auto|].
      eapply ends_bind; [apply map_index_ends; exact H1|].
      intros [v ?] ? _ ->. intros o' s'' [= <- <-]. split; [|exact I].
      apply (creates_only_trans _ _ _ H1). apply creates_only_same; reflexivity. }
    intros _ s2 H2 _.
    eapply ends_bind; [apply client_Get_creates_only; exact H2|].
    intros [kcs [e|]] s3 H3 _; [apply ends_ret; auto|].
    destruct (GetClientForCluster lib _) as [clnt|e]; [|apply ends_ret; auto].
    eapply ends_bind; [apply createHostedClusterConfig_creates_only; exact H3|].
    intros [config|e] s4 H4 _; [|apply ends_ret; auto].
    unfold json_Marshal.
    destruct (yaml_Unmarshal lib _) as [kubeconfig|e]; [|apply ends_ret; auto].
    eapply ends_bind with (Q1 := fun _ _ => True).
    { unfold map_assign. destruct (Labels hc) as [l|]; [|apply ends_panic; exact H4].
      intros o' s'' [= <- <-]. split; [|exact I].
      apply (creates_only_trans _ _ _ H4). apply creates_only_same; reflexivity. }
    intros _ s5 H5 _.
    eapply ends_bind with (Q1 := fun _ _ => True).
    { intros o' s'' [= <- <-]. auto. }
    intros ns s6 H6 _.
    destruct (api.Clusters kubeconfig) as [|c0 rest]; [apply ends_panic; exact H6|].
    eapply ends_bind; [apply upsert_creates_only; exact H6|].
    intros [[o op] [e|]] s7 H7 _; apply ends_ret; auto. }
  destruct (H _ _ Hrun) as (HP & _). exact HP.
Qed.

Lemma Rev1_Reconcile_eq_steps r req s :
  Rev1.Reconcile lib r req s = Rev1.Reconcile_steps lib r req s.
Proof.
  unfold Rev1.Reconcile, Rev1.Reconcile_steps, Rev1.reconcileHosted, fetchHostedCluster,
    cleanupSecret, selectNamespace, disabled, fetchKubeconfig, json_Marshal.
  cbn zeta. unfold bind, ret.
  repeat (case_match; simplify_eq; try reflexivity).
Qed.

(** X21. In the earlier revision the switch is looked at first.  For a
    stored resource that is not being deleted and carries the enablement
    label with the value false, [Rev1.Reconcile] returns success after the
    one Get that fetched the resource: the stores and the namespace
    variable are as before, whatever namespace label the resource has. *)
Theorem Rev1_Reconcile_switched_off r req s m :
  mjoin (head (faults s)) = None ->
  api s !! (r, (HostedCluster, (req_Namespace req, req_Name req))) = Some m ->
  mDeletionTimestamp m = None ->
  mLabels m !! hyperOpsEnabledLabel = Some "false" ->
  exists s',
    Rev1.Reconcile lib r req s = (Normal (Result_zero, None), s') /\
    api s' = api s /\
    gitOpsNamespace s' = gitOpsNamespace s /\
    calls s' = CallGet r HostedCluster (req_Namespace req) (req_Name req) :: calls s.
Proof.
  intros Hq Hhc Hlive Hoff.
  destruct (client_Get_ok r (req_Namespace req) (req_Name req)
              (newObject HostedCluster "" "") s m Hq Hhc)
    as (hc & s1 & Hfetch & Hdec & Ha1 & _ & Hc1 & Hns1).
  destruct (decoded_facts _ _ _ _ _ _ _ Hdec) as (_ & _ & _ & Hdel & _ & Hlab & _).
  exists s1. split; [|auto].
  rewrite Rev1_Reconcile_eq_steps. unfold Rev1.Reconcile_steps.
  unfold fetchHostedCluster. rewrite (bind_run _ _ _ _ _ Hfetch). cbn beta iota.
  rewrite decide_False by (rewrite Hdel, Hlive; auto).
  rewrite (bind_run _ _ _ _ _ (disabled_run hc s1)).
  rewrite Hlab, bool_decide_eq_true_2 by exact Hoff. reflexivity.
Qed.

Lemma createHostedClusterConfig_ready clnt s m :
  fault_free s ->
  api s !! tokenSecretKey clnt = Some m ->
  data_get (mData m) "token" <> "" -> data_get (mData m) "ca.crt" <> "" ->
  exists s',
    Rev1.createHostedClusterConfig clnt s
      = (Normal (Ok (mkClusterConfig (data_get (mData m) "token")
                       (mkTLSClientConfig
                          (base64_URLEncoding_EncodeToString
                             (data_get (mData m) "ca.crt"))))), s') /\
    fault_free s' /\
    effect (identity_keys clnt) no_loc s s' /\
    api s' = api s ∪ identity_manifests clnt.
Proof.
  intros Hq Hm Ht Hc.
  destruct (setupClusterConfig_ready clnt "" "" None s m Hq Hm Ht Hc)
    as (s' & Hrun & Hq' & Heff & Ha).
  rewrite setupClusterConfig_as_rev1 in Hrun. unfold bind, ret in Hrun.
  destruct (Rev1.createHostedClusterConfig clnt s) as [[[config|e]|msg] s2]; try discriminate.
  injection Hrun as <- <-. eauto.
Qed.

(** X22. The happy path of the earlier revision, and what it stores.
    Take an environment that makes no client call fail and a store with
    the resource (not deleted, with at least one label, not switched off),
    its kubeconfig secret, accepted by the parsers and naming at least one
    cluster, and on the cluster it leads to a token secret with a token and
    a CA certificate.  Then [Rev1.Reconcile] returns without error, and the
    store afterwards is the store before, plus the identity objects that
    were missing on the hosted cluster, plus, if the selected namespace held
    no secret of the resource's name, that secret with all the labels of
    the resource, unfiltered, and the secret-type label.  A secret of that
    name that existed is kept as it was. *)
Theorem Rev1_Reconcile_fault_free r req s m k clnt cfg c0 rest th :
  fault_free s ->
  api s !! (r, (HostedCluster, (req_Namespace req, req_Name req))) = Some m ->
  mDeletionTimestamp m = None ->
  mLabels m <> ∅ ->
  mLabels m !! hyperOpsEnabledLabel <> Some "false" ->
  api s !! (r, (Secret, (req_Namespace req, req_Name req +:+ "-admin-kubeconfig"))) = Some k ->
  GetClientForCluster lib (data_get (mData k) "kubeconfig") = Ok clnt ->
  yaml_Unmarshal lib (data_get (mData k) "kubeconfig") = Ok cfg ->
  api.Clusters cfg = c0 :: rest ->
  api s !! tokenSecretKey clnt = Some th ->
  data_get (mData th) "token" <> "" -> data_get (mData th) "ca.crt" <> "" ->
  exists s',
    Rev1.Reconcile lib r req s = (Normal (Result_zero, None), s') /\
    gitOpsNamespace s'
      = default (gitOpsNamespace s) (mLabels m !! hyperOpsGitopsNamespaceLabel) /\
    api s' =
      (api s ∪ identity_manifests clnt) ∪
      {[ (r, (Secret, (gitOpsNamespace s', req_Name req))) :=
           mkManifest (<[argoCDSecretTypeLabel := argoCDSecretTypeCluster]> (mLabels m))
             ∅ None
             {[ "name" := req_Name req;
                "server" := api.Server (api.Cluster_ c0);
                "config" :=
                  json_encode lib
                    (ClusterConfig_json
                       (mkClusterConfig (data_get (mData th) "token")
                          (mkTLSClientConfig
                             (base64_URLEncoding_EncodeToString
                                (data_get (mData th) "ca.crt"))))) ]}
             SecretTypeOpaque [] noRoleRef ]}.
Proof.
  intros Hq Hhc Hlive Hne Hen Hk Hclnt Hcfg Hc0 Hth Hth1 Hth2.
  destruct (client_Get_ok r (req_Namespace req) (req_Name req)
              (newObject HostedCluster "" "") s m (fault_free_head _ Hq) Hhc)
    as (hc & s1 & Hfetch & Hdec & Ha1 & Hf1 & _ & Hns1).
  destruct (decoded_facts _ _ _ _ _ _ _ Hdec)
    as (_ & _ & Hname & Hdel & _ & Hlab & _ & Hl).
  assert (Hq1 : fault_free s1) by (eapply fault_free_tail; eassumption).
  pose proof (selectNamespace_run hc s1) as Hsel. rewrite Hlab in Hsel.
  set (s2 := set_gitOpsNamespace _ s1) in Hsel.
  destruct (Labels hc) as [l|] eqn:HL; [|exfalso; apply Hne; rewrite <- Hlab; reflexivity].
  destruct (Hl l eq_refl) as (_ & Hlt1 & Hcell1).
  assert (Hns2 : gitOpsNamespace s2
                 = default (gitOpsNamespace s) (mLabels m !! hyperOpsGitopsNamespaceLabel)).
  { unfold s2. simpl. rewrite Hns1. reflexivity. }
  (* the kubeconfig *)
  destruct (client_Get_ok r (req_Namespace req) (req_Name req +:+ "-admin-kubeconfig")
              (newObject Secret "" "") s2 k (fault_free_head _ Hq1))
    as (kcs & s3 & Hkube & Hdeck & Ha3 & Hf3 & _ & Hns3);
    [change (api s2) with (api s1); rewrite Ha1; exact Hk|].
  destruct (decoded_facts _ _ _ _ _ _ _ Hdeck) as (_ & _ & _ & _ & HDk & _ & Hlen3 & _).
  assert (Hq3 : fault_free s3) by (eapply fault_free_tail; [exact Hq1 | exact Hf3]).
  destruct (returns_run _ _ _ _ _
              (client_Get_returns r (req_Namespace req) (req_Name req +:+ "-admin-kubeconfig")
                 (newObject Secret "" "") s2) Hkube) as (? & [= <-] & Ekube & _).
  (* the hosted cluster *)
  destruct (createHostedClusterConfig_ready clnt s3 th Hq3) as (s4 & Hrun4 & Hq4 & E4 & Ha4);
    [rewrite Ha3; change (api s2) with (api s1); rewrite Ha1; exact Hth | exact Hth1
     | exact Hth2 |].
  assert (Hcell4 : heap s4 !! l = Some (mLabels m)).
  { pose proof (eff_len _ _ _ _ Ekube). assert (l < length (heap s2)) by exact Hlt1.
    rewrite (eff_heap _ _ _ _ E4) by (auto; lia).
    rewrite (eff_heap _ _ _ _ Ekube) by (auto; lia). exact Hcell1. }
  (* the secret *)
  set (s5 := set_heap (alter (insert argoCDSecretTypeLabel argoCDSecretTypeCluster) l (heap s4))
               s4).
  assert (Hq5 : fault_free s5) by exact Hq4.
  match type of Hrun4 with _ = (Normal (Ok ?c), _) => set (config := c) in * end.
  set (obj := mkObject Secret (gitOpsNamespace s5) (req_Name req) (Some l) ∅ None
                {[ "name" := Name hc;
                   "server" := api.Server (api.Cluster_ c0);
                   "config" := json_encode lib (ClusterConfig_json config) ]}
                SecretTypeOpaque [] noRoleRef).
  destruct (upsert_unchanged_fault_free r obj s5 Hq5)
    as (obj' & op & s6 & Hrun6 & Hq6 & Ha6 & _ & _).
  destruct (returns_run _ _ _ _ _
              (CreateOrUpdateWithRetries_returns r obj no_mutation s5 no_mutation_identity)
              Hrun6) as (? & [= <-] & E6 & _).
  assert (Hns5 : gitOpsNamespace s5
                 = default (gitOpsNamespace s) (mLabels m !! hyperOpsGitopsNamespaceLabel)).
  { change (gitOpsNamespace s5) with (gitOpsNamespace s4).
    rewrite (eff_ns _ _ _ _ E4), Hns3. exact Hns2. }
  exists s6. split; [|split].
  - rewrite Rev1_Reconcile_eq_steps. unfold Rev1.Reconcile_steps.
    rewrite (bind_run _ _ _ _ _ Hfetch). cbn beta iota.
    rewrite decide_False by (rewrite Hdel, Hlive; auto).
    rewrite (bind_run _ _ _ _ _ (disabled_run hc s1)).
    rewrite HL, Hlab. rewrite bool_decide_eq_false_2 by exact Hen.
    rewrite (bind_run _ _ _ _ _ Hsel).
    unfold Rev1.reconcileHosted. rewrite (bind_run _ _ _ _ _ Hkube). cbn beta iota.
    rewrite HDk, Hclnt. rewrite (bind_run _ _ _ _ _ Hrun4). cbn beta iota.
    rewrite Hcfg, HL. unfold map_assign.
    unfold bind at 1. unfold modify. fold s5. cbn beta iota.
    unfold bind at 1. unfold gets. cbn beta iota. rewrite Hc0.
    fold config. fold obj.
    rewrite (bind_run _ _ _ _ _ Hrun6). reflexivity.
  - rewrite (eff_ns _ _ _ _ E6). exact Hns5.
  - rewrite Ha6. change (api s5) with (api s4). rewrite Ha4, Ha3.
    change (api s2) with (api s1). rewrite Ha1.
    rewrite (eff_ns _ _ _ _ E6). f_equal. unfold obj_key, obj, freeze. simpl.
    rewrite list_lookup_alter_eq, Hcell4. simpl. rewrite Hname. reflexivity.
Qed.

(** ** How many calls an upsert makes *)

(* [n] calls were made from [s] to [s'], each taking one entry of the
   environment's script *)
Lemma CreateOrUpdate_calls c obj f s :
  returns (CreateOrUpdate c obj f) s (fun _ s' =>
    exists t, calls s' = t ++ calls s /\ 1 <= length t <= 2 /\
              faults s' = drop (length t) (faults s)).
Proof.
  assert (Hstep : forall s s1 s2 c1 c2,
            calls s1 = c1 :: calls s -> faults s1 = tail (faults s) ->
            calls s2 = c2 :: calls s1 -> faults s2 = tail (faults s1) ->
            exists t, calls s2 = t ++ calls s /\ 1 <= length t <= 2 /\
                      faults s2 = drop (length t) (faults s)).
  { intros s0 s1 s2 c1 c2 Hc1 Hf1 Hc2 Hf2. exists [c2; c1]. rewrite Hc2, Hc1, Hf2, Hf1.
    split; [reflexivity|]. split; [simpl; lia|]. destruct (faults s0) as [|? [|? ?]]; reflexivity. }
  unfold CreateOrUpdate. cbn zeta.
  eapply returns_bind; [apply client_Get_returns|].
  intros [o e] s1 (_ & _ & Hf1 & Hc1 & _).
  assert (H1 : exists t, calls s1 = t ++ calls s /\ 1 <= length t <= 2 /\
                         faults s1 = drop (length t) (faults s)).
  { eexists [_]. rewrite Hc1, Hf1. split; [reflexivity|]. split; [simpl; lia|].
    destruct (faults s); reflexivity. }
  destruct e as [e|].
  - destruct (negb (IsNotFound e)); [apply returns_ret; exact H1|].
    destruct (mutate f _ o) as [o' [e'|]]; [apply returns_ret; exact H1|].
    eapply returns_bind; [apply client_Create_returns|].
    intros e2 s2 (_ & _ & Hf2 & Hc2 & _).
    destruct e2; apply returns_ret; eapply Hstep; eassumption.
  - apply returns_gets.
    destruct (mutate f _ o) as [o' [e'|]]; [apply returns_ret; exact H1|].
    apply returns_gets. destruct (decide _); [apply returns_ret; exact H1|].
    eapply returns_bind; [apply client_Update_returns|].
    intros e2 s2 (_ & _ & Hf2 & Hc2 & _).
    destruct e2; apply returns_ret; eapply Hstep; eassumption.
Qed.

Lemma backoff_loop_calls n c f st s :
  returns (backoff_loop n (retry_condition c f) st) s (fun _ s' =>
    exists t, calls s' = t ++ calls s /\ length t <= 2 * n /\
              faults s' = drop (length t) (faults s)).
Proof.
  revert st s. induction n as [|n IH]; intros st s.
  { apply returns_ret. exists []. split; [reflexivity|]. split; [simpl; lia | reflexivity]. }
  cbn [backoff_loop]. unfold retry_condition at 1.
  eapply returns_bind.
  { eapply returns_bind; [apply CreateOrUpdate_calls|].
    intros [[o op] e] s1 H.
    instantiate (1 := fun _ s1 =>
      exists t, calls s1 = t ++ calls s /\ 1 <= length t <= 2 /\
                faults s1 = drop (length t) (faults s)).
    destruct e as [e|]; [destruct (negb (IsConflict e))|]; apply returns_ret; exact H. }
  intros [[st' ok] e] s1 (t1 & Hc1 & Hl1 & Hf1).
  assert (H1 : exists t, calls s1 = t ++ calls s /\ length t <= 2 * S n /\
                         faults s1 = drop (length t) (faults s)).
  { exists t1. split; [exact Hc1|]. split; [lia | exact Hf1]. }
  destruct e as [e|]; [apply returns_ret; exact H1|].
  destruct ok; [apply returns_ret; exact H1|].
  eapply returns_mono; [apply IH|].
  intros _ s2 (t2 & Hc2 & Hl2 & Hf2). exists (t2 ++ t1).
  rewrite Hc2, Hc1, Hf2, Hf1, length_app, drop_drop.
  split; [apply app_assoc|]. split; [lia|]. f_equal. lia.
Qed.

(** X23. An upsert always returns, after at most eight client calls.
    Whatever the object, the mutation and the environment,
    [CreateOrUpdateWithRetries] ends normally, having made between one and
    eight client calls (four attempts of a Get and at most one write
    each), each of which took one entry of the environment's script. *)
Theorem CreateOrUpdateWithRetries_bounded c obj f s :
  exists res s' t,
    CreateOrUpdateWithRetries c obj f s = (Normal res, s') /\
    calls s' = t ++ calls s /\
    1 <= length t <= 8 /\
    faults s' = drop (length t) (faults s).
Proof.
  assert (H : returns (CreateOrUpdateWithRetries c obj f) s (fun _ s' =>
            exists t, calls s' = t ++ calls s /\ 1 <= length t <= 8 /\
                      faults s' = drop (length t) (faults s))).
  { unfold CreateOrUpdateWithRetries, ExponentialBackoff.
    change (Z.to_nat (Steps DefaultBackoff)) with 4.
    cbn [backoff_loop]. unfold retry_condition at 1.
    eapply returns_bind.
    { eapply returns_bind.
      { eapply returns_bind; [apply CreateOrUpdate_calls|].
        intros [[o op] e] s1 H1.
        instantiate (1 := fun _ s1 =>
          exists t, calls s1 = t ++ calls s /\ 1 <= length t <= 2 /\
                    faults s1 = drop (length t) (faults s)).
        destruct e as [e|]; [destruct (negb (IsConflict e))|]; apply returns_ret; exact H1. }
      intros [[st' ok] e] s1 (t1 & Hc1 & Hl1 & Hf1).
      instantiate (1 := fun _ s1 =>
        exists t, calls s1 = t ++ calls s /\ 1 <= length t <= 8 /\
                  faults s1 = drop (length t) (faults s)).
      assert (H1 : exists t, calls s1 = t ++ calls s /\ 1 <= length t <= 8 /\
                             faults s1 = drop (length t) (faults s)).
      { exists t1. split; [exact Hc1|]. split; [lia | exact Hf1]. }
      destruct e as [e|]; [apply returns_ret; exact H1|].
      destruct ok; [apply returns_ret; exact H1|].
      eapply returns_mono; [apply (backoff_loop_calls 3)|].
      intros _ s2 (t2 & Hc2 & Hl2 & Hf2). exists (t2 ++ t1).
      rewrite Hc2, Hc1, Hf2, Hf1, length_app, drop_drop.
      split; [apply app_assoc|]. split; [lia|]. f_equal. lia. }
    intros [st e] s1 H1. apply returns_ret. exact H1. }
  destruct H as (res & s' & Hrun & t & Ht). exists res, s', t. auto.
Qed.

(** ** The local registration, step by step *)

(* the first call of an upsert is the Get of its object *)
Lemma CreateOrUpdate_first_call c obj f s :
  returns (CreateOrUpdate c obj f) s (fun _ s' =>
    exists t, calls s' = t ++ CallGet c (kind obj) (Namespace obj) (Name obj) :: calls s).
Proof.
  unfold CreateOrUpdate. cbn zeta.
  eapply returns_bind; [apply client_Get_returns|].
  intros [o e] s1 (_ & _ & _ & Hc1 & _). simpl in Hc1.
  assert (H1 : exists t, calls s1
                 = t ++ CallGet c (kind obj) (Namespace obj) (Name obj) :: calls s)
    by (exists []; exact Hc1).
  assert (Hstep : forall s2 c2, calls s2 = c2 :: calls s1 ->
            exists t, calls s2
              = t ++ CallGet c (kind obj) (Namespace obj) (Name obj) :: calls s).
  { intros s2 c2 Hc2. exists [c2]. rewrite Hc2, Hc1. reflexivity. }
  destruct e as [e|].
  - destruct (negb (IsNotFound e)); [apply returns_ret; exact H1|].
    destruct (mutate f _ o) as [o' [e'|]]; [apply returns_ret; exact H1|].
    eapply returns_bind; [apply client_Create_returns|].
    intros e2 s2 (_ & _ & _ & Hc2 & _).
    destruct e2; apply returns_ret; eapply Hstep; eassumption.
  - apply returns_gets.
    destruct (mutate f _ o) as [o' [e'|]]; [apply returns_ret; exact H1|].
    apply returns_gets. destruct (decide _); [apply returns_ret; exact H1|].
    eapply returns_bind; [apply client_Update_returns|].
    intros e2 s2 (_ & _ & _ & Hc2 & _).
    destruct e2; apply returns_ret; eapply Hstep; eassumption.
Qed.

Lemma CreateOrUpdateWithRetries_first_call c obj f s :
  returns (CreateOrUpdateWithRetries c obj f) s (fun _ s' =>
    exists t, calls s' = t ++ CallGet c (kind obj) (Namespace obj) (Name obj) :: calls s).
Proof.
  unfold CreateOrUpdateWithRetries, ExponentialBackoff.
  change (Z.to_nat (Steps DefaultBackoff)) with 4.
  cbn [backoff_loop]. unfold retry_condition at 1.
  eapply returns_bind.
  { eapply returns_bind.
    { eapply returns_bind; [apply CreateOrUpdate_first_call|].
      intros [[o op] e] s1 H1.
      instantiate (1 := fun _ s1 =>
        exists t, calls s1 = t ++ CallGet c (kind obj) (Namespace obj) (Name obj) :: calls s).
      destruct e as [e|]; [destruct (negb (IsConflict e))|]; apply returns_ret; exact H1. }
    intros [[st' ok] e] s1 (t1 & Hc1).
    instantiate (1 := fun _ s1 =>
      exists t, calls s1 = t ++ CallGet c (kind obj) (Namespace obj) (Name obj) :: calls s).
    assert (H1 : exists t, calls s1
                   = t ++ CallGet c (kind obj) (Namespace obj) (Name obj) :: calls s)
      by (exists t1; exact Hc1).
    destruct e as [e|]; [apply returns_ret; exact H1|].
    destruct ok; [apply returns_ret; exact H1|].
    eapply returns_mono; [apply (backoff_loop_calls 3)|].
    intros _ s2 (t2 & Hc2 & _). exists (t2 ++ t1).
    rewrite Hc2, Hc1. apply app_assoc. }
  intros [st e] s1 H1. apply returns_ret. exact H1.
Qed.

(* The bootstrap asks for the service account first; when it returns a
   cluster, the service account and the role binding are stored and its
   last call was the Get of the token secret. *)
Lemma setupClusterConfig_bootstraps clnt server name hc s :
  returns (setupClusterConfig clnt server name hc) s (fun r s' =>
    (exists t, calls s'
       = t ++ CallGet clnt ServiceAccount "kube-system" "hyper-ops-admin" :: calls s) /\
    match r with
    | Ok _ =>
        is_Some (api s' !! (clnt, (ServiceAccount, ("kube-system", "hyper-ops-admin")))) /\
        is_Some (api s' !! (clnt, (ClusterRoleBinding, ("", "hyper-ops-admin")))) /\
        head (calls s') = Some (CallGet clnt Secret "kube-system" "hyper-ops-admin-token")
    | Err _ => True
    end).
Proof.
  unfold setupClusterConfig.
  pose proof (CreateOrUpdateWithRetries_returns clnt serviceAccount no_mutation s
                no_mutation_identity) as R1.
  pose proof (CreateOrUpdateWithRetries_first_call clnt serviceAccount no_mutation s) as R2.
  eapply returns_bind; [exact (returns_conj _ _ _ _ R1 R2)|]. clear R1 R2.
  intros [[sa op1] e1] s1 ((Heff1 & Hk1 & Hok1) & Hfirst). simpl in Hfirst.
  destruct e1 as [e1|]; [apply returns_ret; split; [exact Hfirst | exact I]|].
  destruct (Hok1 eq_refl) as (_ & Hsa).
  eapply returns_bind; [apply CreateOrUpdateWithRetries_returns, no_mutation_identity|].
  intros [[crb op2] e2] s2 (Heff2 & Hk2 & Hok2).
  assert (F2 : exists t, calls s2
                 = t ++ CallGet clnt ServiceAccount "kube-system" "hyper-ops-admin" :: calls s).
  { destruct Hfirst as (t1 & Hc1). destruct (eff_calls _ _ _ _ Heff2) as (t2 & Hc2 & _).
    exists (t2 ++ t1). rewrite Hc2, Hc1. apply app_assoc. }
  destruct e2 as [e2|]; [apply returns_ret; split; [exact F2 | exact I]|].
  destruct (Hok2 eq_refl) as (_ & Hcrb).
  assert (Hsa2 : is_Some (api s2 !! (clnt, (ServiceAccount, ("kube-system", "hyper-ops-admin"))))).
  { rewrite (eff_api _ _ _ _ Heff2) by (intros [=]). eexists. exact Hsa. }
  eapply returns_bind; [apply CreateOrUpdateWithRetries_returns, no_mutation_identity|].
  intros [[tok op3] e3] s3 (Heff3 & Hk3 & _).
  assert (F3 : exists t, calls s3
                 = t ++ CallGet clnt ServiceAccount "kube-system" "hyper-ops-admin" :: calls s).
  { destruct F2 as (t1 & Hc1). destruct (eff_calls _ _ _ _ Heff3) as (t2 & Hc2 & _).
    exists (t2 ++ t1). rewrite Hc2, Hc1. apply app_assoc. }
  destruct e3 as [e3|]; [apply returns_ret; split; [exact F3 | exact I]|].
  assert (Hkind : kind tok = Secret) by (injection Hk3 as -> _ _; reflexivity).
  eapply returns_bind; [apply client_Get_returns|].
  intros [fetched e4] s4 (_ & Hapi & _ & Hc4 & _). rewrite Hkind in *.
  assert (F4 : exists t, calls s4
                 = t ++ CallGet clnt ServiceAccount "kube-system" "hyper-ops-admin" :: calls s).
  { destruct F3 as (t1 & Hc1). eexists (_ :: t1). rewrite Hc4, Hc1. reflexivity. }
  destruct e4 as [e4|]; [apply returns_ret; split; [exact F4 | exact I]|].
  destruct (decide _); [apply returns_ret; split; [exact F4 | exact I]|].
  destruct (decide _); [apply returns_ret; split; [exact F4 | exact I]|].
  apply returns_ret. split; [exact F4|].
  rewrite Hapi, !(eff_api _ _ _ _ Heff3) by (intros [=]).
  split; [exact Hsa2|]. split; [eexists; exact Hcrb|].
  rewrite Hc4. reflexivity.
Qed.

(* the three objects of the identity are none of them the local secret *)
Lemma identity_keys_not_local r ns key :
  identity_keys r key -> key <> (r, (Secret, (ns, "in-cluster-local"))).
Proof. intros [-> | [-> | ->]]; intros [=]. Qed.

(** C4, as amended.  Local registration and the enablement gate.  For every
    fetched resource that is not being deleted, whatever its labels,
    [Reconcile] selects the namespace and then runs the bootstrap of the
    local cluster: its first call asks the reconciler's own client for the
    service account hyper-ops-admin, and it touches the three identity
    objects only.
    - If the bootstrap fails (a failing call, or a token secret that is not
      populated yet), [Reconcile] returns its error in the state the
      bootstrap left, whatever the enablement label says: the secret
      in-cluster-local is not written.
    - If the bootstrap returns a cluster, it has read a populated token
      secret last, the three identity objects are stored on the local
      cluster, and every later call of the registration targets the secret
      in-cluster-local in the selected namespace.  If that upsert fails,
      [Reconcile] returns its error.  If it succeeds, the secret is stored
      with the labels type=local and secret-type=cluster, the type Opaque
      and the data fields of the cluster the bootstrap returned; and when
      the enablement label is "false", [Reconcile] returns success in the
      very state the registration left: no remote provisioning, no hosted
      secret.  Otherwise it goes on from that state with the hosted part.
    - When no call fails and the token secret of the local cluster is
      populated, the registration succeeds. *)
Theorem Reconcile_local_registration r req s m :
  mjoin (head (faults s)) = None ->
  api s !! (r, (HostedCluster, (req_Namespace req, req_Name req))) = Some m ->
  mDeletionTimestamp m = None ->
  exists hc s1 s2 res sb err s3,
    fetchHostedCluster r req s = (Normal (hc, None), s1) /\
    selectNamespace hc s1 = (Normal tt, s2) /\
    calls s2 = CallGet r HostedCluster (req_Namespace req) (req_Name req) :: calls s /\
    (* the bootstrap of the local cluster *)
    setupClusterConfig r "https://kubernetes.default.svc" "in-cluster-local" None s2
      = (Normal res, sb) /\
    (exists t, calls sb
       = t ++ CallGet r ServiceAccount "kube-system" "hyper-ops-admin" :: calls s2) /\
    effect (identity_keys r) no_loc s2 sb /\
    (* the registration as a whole *)
    registerLocal lib r s2 = (Normal err, s3) /\
    effect (local_keys r (gitOpsNamespace s2)) no_loc s2 s3 /\
    match res with
    | Err e => err = Some e /\ s3 = sb
    | Ok cl =>
        (exists tok,
           api sb !! tokenSecretKey r = Some tok /\
           data_get (mData tok) "token" <> "" /\
           data_get (mData tok) "ca.crt" <> "" /\
           cl = mkCluster "in-cluster-local" "https://kubernetes.default.svc"
                  (mkClusterConfig (data_get (mData tok) "token")
                     (mkTLSClientConfig
                        (base64_URLEncoding_EncodeToString (data_get (mData tok) "ca.crt"))))
                  None) /\
        head (calls sb) = Some (CallGet r Secret "kube-system" "hyper-ops-admin-token") /\
        (forall key, identity_keys r key -> is_Some (api s3 !! key)) /\
        (exists t,
           calls s3 = t ++ calls sb /\
           Forall (fun c => call_key c = (r, (Secret, (gitOpsNamespace s2, "in-cluster-local"))))
                  t) /\
        (err = None ->
           exists ml,
             api s3 !! (r, (Secret, (gitOpsNamespace s3, "in-cluster-local"))) = Some ml /\
             mLabels ml = localLabels /\
             mData ml = argoSecretData lib cl /\
             mType ml = SecretTypeOpaque)
    end /\
    (fault_free s ->
     forall tl, api s !! tokenSecretKey r = Some tl ->
       data_get (mData tl) "token" <> "" -> data_get (mData tl) "ca.crt" <> "" ->
       err = None) /\
    match err with
    | Some e => Reconcile lib r req s = (Normal (Result_zero, Some e), s3)
    | None =>
        Reconcile lib r req s =
          (if bool_decide (mLabels m !! hyperOpsEnabledLabel = Some "false")
           then (Normal (Result_zero, None), s3)
           else reconcileHosted lib r req hc s3)
    end.
Proof.
  intros Hf Hm Hlive.
  destruct (client_Get_ok r (req_Namespace req) (req_Name req) (newObject HostedCluster "" "")
              s m Hf Hm) as (hc & s1 & Hrun & Hdec & Ha & Hfl & Hc & Hns).
  destruct (decoded_facts _ _ _ _ _ _ _ Hdec) as (_ & _ & _ & Hd & _ & Hlab & _ & Hloc).
  pose proof (selectNamespace_run hc s1) as Hsel.
  set (s2 := set_gitOpsNamespace _ s1) in Hsel.
  pose proof (setupClusterConfig_returns r "https://kubernetes.default.svc" "in-cluster-local"
                None s2) as B1.
  pose proof (setupClusterConfig_bootstraps r "https://kubernetes.default.svc"
                "in-cluster-local" None s2) as B2.
  destruct (returns_conj _ _ _ _ B1 B2) as (res & sb & Hboot & (Eid & Hres) & (Hfirst & Hobj)).
  clear B1 B2.
  destruct (registerLocal_returns lib r s2) as (err & s3 & Hreg & Heff & Hok).
  exists hc, s1, s2, res, sb, err, s3.
  split; [exact Hrun|]. split; [exact Hsel|]. split; [exact Hc|].
  split; [exact Hboot|]. split; [exact Hfirst|]. split; [exact Eid|].
  split; [exact Hreg|]. split; [exact Heff|].
  split; [|split].
  - assert (Hreg2 := Hreg). unfold registerLocal in Hreg2.
    rewrite (bind_run _ _ _ _ _ Hboot) in Hreg2.
    destruct res as [cl|e].
    2:{ injection Hreg2 as <- <-. auto. }
    destruct Hobj as (Hsa & Hcrb & Hlast).
    split; [exact Hres|]. split; [exact Hlast|].
    set (sl := set_heap (heap sb ++ [ {[ "hyper-ops.cloudmonkey.org/type" := "local" ]} ]) sb).
    change (createArgoCDClusterSecret lib r (Some (length (heap sb))) cl sl
              = (Normal err, s3)) in Hreg2.
    assert (H2 : heap sl !! length (heap sb)
                 = Some {[ "hyper-ops.cloudmonkey.org/type" := "local" ]}).
    { unfold sl. simpl. rewrite lookup_app_r by lia. rewrite Nat.sub_diag. reflexivity. }
    assert (Hfresh : length (heap sb) < length (heap sl)) by (eapply lookup_lt_Some, H2).
    destruct (returns_run _ _ _ _ _
                (createArgoCDClusterSecret_returns lib r _ cl sl Hfresh) Hreg2)
      as (err' & [= <-] & Heff3 & Hh3 & Hok3).
    change (gitOpsNamespace sl) with (gitOpsNamespace sb) in Heff3, Hok3.
    rewrite (eff_ns _ _ _ _ Eid) in Heff3, Hok3.
    destruct Hres as (tok & Htok & Ht1 & Ht2 & Hcl).
    assert (Hname : Cluster_Name cl = "in-cluster-local") by (rewrite Hcl; reflexivity).
    rewrite Hname in Heff3, Hok3.
    split; [|split].
    + intros key Hkey.
      rewrite (eff_api _ _ _ _ Heff3)
        by (intros Heq; exact (identity_keys_not_local _ _ _ Hkey (eq_sym Heq))).
      change (api sl) with (api sb).
      destruct Hkey as [-> | [-> | ->]]; [exact Hsa | exact Hcrb | eexists; exact Htok].
    + destruct (eff_calls _ _ _ _ Heff3) as (t & Hct & HF).
      exists t. split; [exact Hct|].
      eapply Forall_impl; [exact HF|]. intros c0 Hc0. symmetry. exact Hc0.
    + intros He. destruct (Hok3 He) as (ml & Hml & Hlb & Hdat & Hty).
      exists ml. rewrite (eff_ns _ _ _ _ Heff).
      split; [exact Hml|]. split; [|split; [exact Hdat | exact Hty]].
      rewrite Hlb. simpl. rewrite Hh3, H2. reflexivity.
  - intros Hq tl Htl Htl1 Htl2.
    assert (Hq2 : fault_free s2) by (eapply fault_free_tail; eassumption).
    destruct (registerLocal_quiet r s2 tl Hq2) as (s3' & Hreg' & _);
      [change (api s2) with (api s1); rewrite Ha; exact Htl | exact Htl1 | exact Htl2 |].
    rewrite Hreg in Hreg'. congruence.
  - destruct err as [e|].
    + rewrite Reconcile_eq_steps. unfold Reconcile_steps.
      rewrite (bind_run _ _ _ _ _ Hrun). cbn beta iota.
      rewrite decide_False by (rewrite Hd, Hlive; auto).
      rewrite (bind_run _ _ _ _ _ Hsel).
      rewrite (bind_run _ _ _ _ _ Hreg). reflexivity.
    + rewrite (Reconcile_gate lib r req s hc s1 s2 s3 Hrun) by (auto; congruence).
      rewrite (heap_read_kept _ s2 s3 (Labels hc) Heff).
      * change (heap s2) with (heap s1). rewrite Hlab. reflexivity.
      * intros l Hl. apply (Hloc l Hl).
Qed.

End More.

(** * Examples *)

Example base64_Man : base64_URLEncoding_EncodeToString "Man" = "TWFu".
Proof. reflexivity. Qed.

Example base64_padding :
  base64_URLEncoding_EncodeToString "light work." = "bGlnaHQgd29yay4=" /\
  base64_URLEncoding_EncodeToString "M" = "TQ==".
Proof. split; reflexivity. Qed.

Example base64_url_alphabet :
  base64_URLEncoding_EncodeToString
    (String (ascii_of_nat 251) (String (ascii_of_nat 255) EmptyString)) = "-_8=".
Proof. reflexivity. Qed.

Example ex_full_run :
  fst (Reconcile ex_lib 0 ex_req ex_full) = Normal (Result_zero, None).
Proof. compute_done. Qed.

(** ** The retry loop at work *)

Example retry_after_conflicts :
  let s := mkState "" [] ∅ [None; Some Conflict; None; Some Conflict; None; None] [] in
  fst (CreateOrUpdateWithRetries 0 serviceAccount no_mutation s)
    = Normal (serviceAccount, OperationResultCreated, None) /\
  length (calls (snd (CreateOrUpdateWithRetries 0 serviceAccount no_mutation s))) = 6.
Proof. cbv zeta. split; compute_done. Qed.

Example retry_budget_exhausted :
  let s := mkState "" [] ∅ (replicate 5 (Some Conflict)) [] in
  fst (CreateOrUpdateWithRetries 0 serviceAccount no_mutation s)
    = Normal (serviceAccount, OperationResultNone, Some ErrWaitTimeout) /\
  faults (snd (CreateOrUpdateWithRetries 0 serviceAccount no_mutation s)) = [Some Conflict].
Proof. cbv zeta. split; compute_done. Qed.

Example retry_stops_on_other_error :
  let s := mkState "" [] ∅ [Some Conflict; Some Forbidden; None] [] in
  fst (CreateOrUpdateWithRetries 0 serviceAccount no_mutation s)
    = Normal (serviceAccount, OperationResultNone, Some (StatusError Forbidden)) /\
  faults (snd (CreateOrUpdateWithRetries 0 serviceAccount no_mutation s)) = [None].
Proof. cbv zeta. split; compute_done. Qed.

(** ** Target namespace *)

(** C1: the namespace taken from the gitops-namespace label outlives the
    label.  The resource r1 is reconciled with the label set to ns-a, the
    platform removes the label, and r1 is reconciled again: the second
    reconcile succeeds, still has ns-a as target namespace, ends with a
    write to the secret r1 in ns-a, and leaves nothing in the default
    namespace openshift-gitops. *)
Theorem Reconcile_namespace_override_persists :
  let first := Reconcile ex_lib 0 ex_req ex_full in
  let relabelled := ex_unlabel (snd first) in
  let second := Reconcile ex_lib 0 ex_req relabelled in
  fst first = Normal (Result_zero, None) /\
  mLabels <$> api (snd first) !! (0, (Secret, ("ns-a", "r1"))) = Some (hostedLabels ex_labels) /\
  mLabels <$> api relabelled !! (0, (HostedCluster, ("clusters", "r1")))
    = Some {[ hyperOpsEnabledLabel := "true"; "team" := "blue" ]} /\
  fst second = Normal (Result_zero, None) /\
  gitOpsNamespace (snd second) = "ns-a" /\
  call_key <$> head (calls (snd second)) = Some (0, (Secret, ("ns-a", "r1"))) /\
  mLabels <$> api (snd second) !! (0, (Secret, ("ns-a", "r1")))
    = Some (hostedLabels {[ hyperOpsEnabledLabel := "true" ]}) /\
  api (snd second) !! (0, (Secret, (gitOpsNamespace_init, "r1"))) = None.
Proof. cbv zeta. repeat apply conj; compute_done. Qed.

(** ** Instances of the theorems on the concrete world *)

Lemma Reconcile_deleting_witness :
  exists s',
    Reconcile ex_lib 0 ex_req ex_deleting = (Normal (Result_zero, None), s') /\
    calls s' = [CallDelete 0 Secret "openshift-gitops" "r1";
                CallGet 0 HostedCluster "clusters" "r1"] /\
    api s' = delete (0, (Secret, ("openshift-gitops", "r1"))) (api ex_deleting).
Proof.
  destruct (Reconcile_deleting ex_lib 0 ex_req ex_deleting
              (ex_hc {[ hyperOpsEnabledLabel := "true" ]} (Some 1%Z)))
    as (s' & _ & Hok & Hcalls & Hapi & _).
  - reflexivity.
  - compute_done.
  - simpl. discriminate.
  - exists s'. split; [apply Hok; left; reflexivity|]. split; [exact Hcalls | exact Hapi].
Defined.

Lemma getServerFromKubeConfig_first_cluster_witness :
  getServerFromKubeConfig ex_lib ex_kcobj ex_full
    = (Normal ("https://r1.example:6443", None), ex_full).
Proof.
  refine (proj1 (getServerFromKubeConfig_first_cluster ex_lib ex_kcobj
                   (api.mkConfig
                      [api.mkNamedCluster "hosted" (api.mkCluster "https://r1.example:6443")])
                   ex_full _)
            (api.mkNamedCluster "hosted" (api.mkCluster "https://r1.example:6443")) [] _).
  - compute_done.
  - reflexivity.
Defined.

Example getServerFromKubeConfig_no_cluster :
  let secret :=
    mkObject Secret "clusters" "r1-admin-kubeconfig" None ∅ None
      {[ "kubeconfig" := "clusters: []" ]} "Opaque" [] noRoleRef in
  fst (getServerFromKubeConfig ex_lib secret ex_full)
    = Panic "runtime error: index out of range [0] with length 0".
Proof. compute_done. Qed.

Lemma setupClusterConfig_readiness_witness :
  exists m,
    setupClusterConfig 0 "https://kubernetes.default.svc" "in-cluster-local" None ex_blank
      = (Normal (Err (Errorf "token not found")), ex_b4) /\
    api ex_b3 !! tokenSecretKey 0 = Some m /\
    data_get (mData m) "token" = "" /\
    calls ex_b4 = CallGet 0 Secret "kube-system" "hyper-ops-admin-token" :: calls ex_b3.
Proof.
  destruct (setupClusterConfig_readiness 0 "https://kubernetes.default.svc" "in-cluster-local"
              None ex_blank
              serviceAccount OperationResultCreated ex_b1
              clusterRoleBinding OperationResultCreated ex_b2
              (tokenSecret serviceAccount) OperationResultCreated ex_b3
              ex_unpopulated ex_b4)
    as (r & m & Hrun & Hm & HD & Hcalls & _ & _).
  - compute_done.
  - compute_done.
  - compute_done.
  - compute_done.
  - assert (Hrun' :
      setupClusterConfig 0 "https://kubernetes.default.svc" "in-cluster-local" None ex_blank
        = (Normal (Err (Errorf "token not found")), ex_b4)) by compute_done.
    exists m. rewrite <- HD. split; [exact Hrun'|]. split; [exact Hm|].
    split; [reflexivity | exact Hcalls].
Defined.

Lemma Reconcile_local_registration_witness :
  exists s3,
    Reconcile ex_lib 0 ex_req ex_disabled = (Normal (Result_zero, None), s3) /\
    (forall key, identity_keys 0 key -> is_Some (api s3 !! key)) /\
    api s3 !! (0, (Secret, ("openshift-gitops", "in-cluster-local"))) = Some ex_local_secret /\
    head (calls s3) = Some (CallCreate 0 Secret "openshift-gitops" "in-cluster-local"
                              ex_local_secret).
Proof.
  destruct (Reconcile_local_registration ex_lib 0 ex_req ex_disabled
              (ex_hc {[ hyperOpsEnabledLabel := "false" ]} None))
    as (hc & s1 & s2 & res & sb & err & s3 & Hf & Hsel & _ & Hboot & _ & _ & Hreg & _ &
        Hres & Hquiet & Hrec).
  - reflexivity.
  - compute_done.
  - reflexivity.
  - assert (Hf' : fetchHostedCluster 0 ex_req ex_disabled
                   = (Normal (ex_hcobj, None), ex_s1 ex_disabled)) by compute_done.
    rewrite Hf' in Hf. injection Hf as <- <-.
    assert (Hs2 : s2 = ex_s2 ex_disabled) by (unfold ex_s2; rewrite Hsel; reflexivity).
    subst s2.
    assert (Herr : err = None).
    { apply (Hquiet ltac:(intros i; reflexivity) ex_token); compute_done. }
    subst err.
    assert (Hs3 : s3 = ex_s3 ex_disabled) by (unfold ex_s3; rewrite Hreg; reflexivity).
    subst s3.
    destruct res as [cl|e]; [|destruct Hres as [Hn _]; discriminate Hn].
    destruct Hres as (_ & _ & Hids & _ & _).
    exists (ex_s3 ex_disabled). split; [exact Hrec|]. split; [exact Hids|].
    split; compute_done.
Defined.

(** C4 as stated fails: no call fails, the resource is stored with the
    enablement label "false" and is not being deleted, but the token secret
    of the local cluster does not exist yet.  [Reconcile] then returns the
    error "token not found" instead of success, and no secret
    in-cluster-local has been written. *)
Lemma Reconcile_switched_off_local_not_ready :
  let final := snd (Reconcile ex_lib 0 ex_req ex_cold) in
  faults ex_cold = [] /\
  api ex_cold !! (0, (HostedCluster, ("clusters", "r1")))
    = Some (ex_hc {[ hyperOpsEnabledLabel := "false" ]} None) /\
  fst (Reconcile ex_lib 0 ex_req ex_cold)
    = Normal (Result_zero, Some (Errorf "token not found")) /\
  api final !! (0, (Secret, ("openshift-gitops", "in-cluster-local"))) = None /\
  head (calls final) = Some (CallGet 0 Secret "kube-system" "hyper-ops-admin-token").
Proof. cbv zeta. repeat apply conj; compute_done. Qed.

Lemma Reconcile_kubeconfig_fetch_failure_witness :
  Reconcile ex_lib 0 ex_req ex_forbidden
    = (Normal (Result_zero, Some (StatusError Forbidden)), ex_s4 ex_forbidden) /\
  api (ex_s4 ex_forbidden) = api (ex_s3 ex_forbidden).
Proof.
  destruct (Reconcile_kubeconfig_fetch_failure ex_lib 0 ex_req ex_forbidden ex_hcobj
              (ex_s1 ex_forbidden) (ex_s2 ex_forbidden) (ex_s3 ex_forbidden)
              (newObject Secret "" "") (StatusError Forbidden) (ex_s4 ex_forbidden))
    as (Hrun & Hapi & _).
  - compute_done.
  - reflexivity.
  - compute_done.
  - compute_done.
  - compute_done.
  - compute_done.
  - split; [exact Hrun | exact Hapi].
Defined.

(** C5 as stated fails: the resource is enabled, its kubeconfig secret is
    absent, the fetch fails with a not-found error, and [Reconcile] returns
    no error. *)
Lemma Reconcile_absent_kubeconfig_not_propagated :
  mLabels <$> api ex_nokube !! (0, (HostedCluster, ("clusters", "r1"))) = Some ex_labels /\
  api (ex_s3 ex_nokube) !! (0, (Secret, ("clusters", "r1-admin-kubeconfig"))) = None /\
  fst (fetchKubeconfig 0 ex_req (ex_s3 ex_nokube))
    = Normal (newObject Secret "" "", Some (StatusError NotFound)) /\
  Reconcile ex_lib 0 ex_req ex_nokube = (Normal (Result_zero, None), ex_s4 ex_nokube).
Proof. repeat apply conj; compute_done. Qed.

Lemma Reconcile_label_propagation_witness :
  exists ms,
    api (snd (Reconcile ex_lib 0 ex_req ex_full)) !! (0, (Secret, ("ns-a", "r1"))) = Some ms /\
    mLabels ms =
      {[ hyperOpsEnabledLabel := "true";
         hyperOpsGitopsNamespaceLabel := "ns-a";
         "hyper-ops.cloudmonkey.org/type" := "hosted";
         argoCDSecretTypeLabel := "cluster" ]} /\
    mLabels ms !! "team" = None.
Proof.
  destruct (Reconcile_label_propagation ex_lib 0 ex_req ex_full ex_hcobj
              (ex_s1 ex_full) (ex_s2 ex_full) (ex_s3 ex_full) ex_kcobj (ex_s4 ex_full)
              ex_cluster (ex_s5 ex_full) Result_zero
              (snd (Reconcile ex_lib 0 ex_req ex_full)))
    as (m & ms & Hm & Hms & Hlab & _ & _ & Hrest).
  - compute_done.
  - reflexivity.
  - compute_done.
  - compute_done.
  - compute_done.
  - compute_done.
  - compute_done.
  - compute_done.
  - assert (Hns : gitOpsNamespace (snd (Reconcile ex_lib 0 ex_req ex_full)) = "ns-a")
      by compute_done.
    assert (Hm' : api ex_full !! (0, (HostedCluster, (req_Namespace ex_req, req_Name ex_req)))
                  = Some (ex_hc ex_labels None)) by compute_done.
    rewrite Hm' in Hm. injection Hm as <-.
    rewrite Hns in Hms. exists ms. split; [exact Hms|]. split.
    + rewrite Hlab. compute_done.
    + rewrite Hrest by discriminate. reflexivity.
Defined.

(** C3 as stated fails: the source label key argocd.argoproj.io/secret-type
    does not carry the prefix, and yet it is a key of the output. *)
Lemma Reconcile_secret_type_key_not_absent :
  let source := mLabels <$> api ex_typed !! (0, (HostedCluster, ("clusters", "r1"))) in
  let final := snd (Reconcile ex_lib 0 ex_req ex_typed) in
  let output := mLabels <$> api final !! (0, (Secret, ("openshift-gitops", "r1"))) in
  fst (Reconcile ex_lib 0 ex_req ex_typed) = Normal (Result_zero, None) /\
  String.prefix hyperOpsLabel argoCDSecretTypeLabel = false /\
  source ≫= lookup argoCDSecretTypeLabel = Some "repo-creds" /\
  output ≫= lookup argoCDSecretTypeLabel = Some "cluster".
Proof. cbv zeta. repeat apply conj; compute_done. Qed.

Lemma createArgoCDClusterSecret_data_shape_witness :
  exists m,
    api (snd (createArgoCDClusterSecret ex_lib 0 (Some 0) ex_local ex_labelled))
      !! (0, (Secret, ("openshift-gitops", "in-cluster-local"))) = Some m /\
    map_to_list (mData m) =
      [("server", "https://kubernetes.default.svc");
       ("config",
        ex_render
          (JObject [("bearerToken", JString "tok");
                    ("tlsClientConfig", JObject [("caData", JString "Q0E=")])]));
       ("name", "in-cluster-local")].
Proof.
  destruct (createArgoCDClusterSecret_data_shape ex_lib 0 "https://kubernetes.default.svc"
              "in-cluster-local" None ex_full ex_local ex_bootstrapped 0 (Some 0) ex_labelled
              (snd (createArgoCDClusterSecret ex_lib 0 (Some 0) ex_local ex_labelled)))
    as (tok & m & Htok & _ & _ & Hm & Hd & _).
  - compute_done.
  - compute_done.
  - assert (Htok' : api ex_bootstrapped !! tokenSecretKey 0 = Some ex_token)
      by compute_done.
    rewrite Htok' in Htok. injection Htok as <-.
    exists m. split; [exact Hm|]. rewrite Hd. compute_done.
Defined.

Lemma Reconcile_reads_HostedCluster_witness :
  let final := snd (Reconcile ex_lib 0 ex_req ex_full) in
  HostedClusters_kept ex_full final /\
  heap final !! 0 = Some (hostedLabels ex_labels).
Proof.
  cbv zeta.
  destruct (Reconcile_reads_HostedCluster ex_lib 0 ex_req ex_full
              (fst (Reconcile ex_lib 0 ex_req ex_full))
              (snd (Reconcile ex_lib 0 ex_req ex_full))) as (Hkept & Hmem).
  - apply surjective_pairing.
  - split; [exact Hkept|].
    destruct (Hmem ex_hcobj (ex_s1 ex_full) (ex_s2 ex_full) (ex_s3 ex_full) ex_kcobj
                (ex_s4 ex_full) ex_cluster (ex_s5 ex_full))
      with (l := 0) as (m & Hm & _ & Hfinal).
    + compute_done.
    + reflexivity.
    + compute_done.
    + compute_done.
    + compute_done.
    + compute_done.
    + compute_done.
    + reflexivity.
    + assert (Hm' : api (snd (Reconcile ex_lib 0 ex_req ex_full))
                      !! (0, (HostedCluster, (req_Namespace ex_req, req_Name ex_req)))
                    = Some (ex_hc ex_labels None)) by compute_done.
      rewrite Hm' in Hm. injection Hm as <-. exact Hfinal.
Defined.

(** C9 as stated fails: the label set of the fetched record after
    [Reconcile] differs from its label set as fetched (the foreign label is
    gone, two labels were added). *)
Lemma Reconcile_mutates_fetched_labels :
  let fetched := heap (ex_s1 ex_full) !! 0 in
  let final := heap (snd (Reconcile ex_lib 0 ex_req ex_full)) !! 0 in
  fst (fetchHostedCluster 0 ex_req ex_full) = Normal (ex_hcobj, None) /\
  Labels ex_hcobj = Some 0 /\
  fetched = Some ex_labels /\
  final = Some (hostedLabels ex_labels) /\
  fetched ≫= lookup "team" = Some "blue" /\
  final ≫= lookup "team" = None /\
  final <> fetched.
Proof.
  cbv zeta. repeat apply conj; compute_done.
Qed.

(** ** Instances of the further theorems on the concrete world *)

Lemma faults_nil_fault_free s : faults s = [] -> fault_free s.
Proof. intros H i. rewrite H. reflexivity. Qed.

Lemma CreateOrUpdateWithRetries_fault_free_witness :
  exists obj' s',
    CreateOrUpdateWithRetries 0 serviceAccount no_mutation ex_blank
      = (Normal (obj', OperationResultCreated, None), s') /\
    length (calls s') = 2.
Proof.
  destruct (CreateOrUpdateWithRetries_fault_free 0 serviceAccount no_mutation ex_blank)
    as (obj' & op & s' & Hrun & _ & Hcase).
  - intros o. simpl. auto.
  - intros o. reflexivity.
  - intros i. reflexivity.
  - assert (Hnone : api ex_blank !! obj_key 0 serviceAccount = None) by reflexivity.
    rewrite Hnone in Hcase. destruct Hcase as (-> & _ & _ & _ & Hcalls).
    exists obj', s'. split; [exact Hrun|]. rewrite Hcalls. reflexivity.
Defined.

Lemma setupClusterConfig_never_overwrites_witness :
  api ex_full ⊆ api ex_bootstrapped /\
  api ex_bootstrapped ⊆ api ex_full ∪ identity_manifests 0.
Proof.
  destruct (setupClusterConfig_never_overwrites 0 "https://kubernetes.default.svc"
              "in-cluster-local" None ex_full
              (fst (setupClusterConfig 0 "https://kubernetes.default.svc" "in-cluster-local"
                      None ex_full))
              ex_bootstrapped) as (H1 & H2 & _).
  - apply surjective_pairing.
  - split; [exact H1 | exact H2].
Defined.

Lemma CreateOrUpdateWithRetries_absorbs_conflicts_witness :
  exists obj' op s',
    CreateOrUpdateWithRetries 0 serviceAccount no_mutation ex_conflicts
      = (Normal (obj', op, None), s').
Proof.
  destruct (CreateOrUpdateWithRetries_absorbs_conflicts 0 serviceAccount no_mutation
              ex_conflicts 3) as (obj' & op & s' & Hrun & _).
  - intros o. simpl. auto.
  - intros o. reflexivity.
  - reflexivity.
  - lia.
  - eauto.
Defined.

Lemma setupClusterConfig_fault_free_witness :
  exists s',
    setupClusterConfig 0 "https://kubernetes.default.svc" "in-cluster-local" None ex_blank
      = (Normal (Err (Errorf "token not found")), s') /\
    api s' = identity_manifests 0.
Proof.
  destruct (setupClusterConfig_fault_free 0 "https://kubernetes.default.svc"
              "in-cluster-local" None ex_blank) as (s' & m & Hrun & _ & Ha & _ & Hnone).
  - intros i. reflexivity.
  - rewrite Hnone in Hrun by reflexivity. exists s'. split; [exact Hrun|].
    rewrite Ha. apply (left_id_L ∅ (∪)).
Defined.

Lemma setupClusterConfig_steady_state_witness :
  exists s',
    setupClusterConfig 0 "https://kubernetes.default.svc" "in-cluster-local" None ex_b4
      = (Normal (Err (Errorf "token not found")), s') /\
    api s' = api ex_b4 /\
    length (calls s') = 4 + length (calls ex_b4).
Proof.
  destruct (setupClusterConfig_steady_state 0 "https://kubernetes.default.svc"
              "in-cluster-local" None ex_b4) as (s' & m & Hrun & Hm & Ha & Hc).
  - apply faults_nil_fault_free. compute_done.
  - compute_done.
  - assert (Hm' : api ex_b4 !! tokenSecretKey 0 = Some (freeze [] (tokenSecret serviceAccount)))
      by compute_done.
    rewrite Hm' in Hm. injection Hm as <-.
    exists s'. split; [exact Hrun|]. split; [exact Ha|]. rewrite Hc. reflexivity.
Defined.

Lemma Reconcile_fault_free_witness :
  exists s' ms,
    Reconcile ex_lib 0 ex_req ex_full = (Normal (Result_zero, None), s') /\
    gitOpsNamespace s' = "ns-a" /\
    api s' !! (0, (Secret, (gitOpsNamespace s', "r1"))) = Some ms /\
    mLabels ms = hostedLabels ex_labels.
Proof.
  destruct (Reconcile_fault_free ex_lib 0 ex_req ex_full (ex_hc ex_labels None) ex_token
              ex_kubeconfig 1 ex_config
              (api.mkNamedCluster "hosted" (api.mkCluster "https://r1.example:6443")) []
              ex_token)
    as (s' & ms & Hrun & Hns & Hms & Hlab & _).
  - intros i. reflexivity.
  - compute_done.
  - reflexivity.
  - compute_done.
  - compute_done.
  - compute_done.
  - compute_done.
  - compute_done.
  - compute_done.
  - reflexivity.
  - reflexivity.
  - reflexivity.
  - compute_done.
  - compute_done.
  - compute_done.
  - exists s', ms. split; [exact Hrun|]. split; [rewrite Hns; compute_done|].
    split; [exact Hms | exact Hlab].
Defined.


Lemma Reconcile_footprint_witness :
  exists t,
    calls ex_reconciled = t ++ calls ex_full /\
    Forall (fun c => Reconcile_keys 0 ex_req (call_key c)) t.
Proof.
  destruct (Reconcile_footprint ex_lib 0 ex_req ex_full
              (fst (Reconcile ex_lib 0 ex_req ex_full)) ex_reconciled) as (_ & H).
  - apply surjective_pairing.
  - exact H.
Defined.

Lemma Reconcile_deletes_only_on_deletion_witness :
  dom (api ex_full) ⊆ dom (api ex_reconciled) /\
  exists t, calls ex_reconciled = t ++ calls ex_full /\
            Forall (fun c => is_delete c = false) t.
Proof.
  apply (Reconcile_deletes_only_on_deletion ex_lib 0 ex_req ex_full
           (fst (Reconcile ex_lib 0 ex_req ex_full)) ex_reconciled).
  - intros m Hm.
    assert (Hm' : api ex_full !! (0, (HostedCluster, (req_Namespace ex_req, req_Name ex_req)))
                  = Some (ex_hc ex_labels None)) by compute_done.
    rewrite Hm' in Hm. injection Hm as <-. reflexivity.
  - apply surjective_pairing.
Defined.

Lemma Reconcile_converged_witness :
  exists s',
    Reconcile ex_lib 0 ex_req ex_reconciled = (Normal (Result_zero, None), s') /\
    api s' = api ex_reconciled.
Proof.
  destruct (Reconcile_converged ex_lib 0 ex_req ex_reconciled (ex_hc ex_labels None) ex_token
              ex_kubeconfig 1 ex_config
              (api.mkNamedCluster "hosted" (api.mkCluster "https://r1.example:6443")) []
              ex_token ex_local_secret ex_hosted_secret)
    as (s' & Hrun & Ha & _).
  - apply faults_nil_fault_free. compute_done.
  - compute_done.
  - reflexivity.
  - compute_done.
  - compute_done.
  - compute_done.
  - compute_done.
  - compute_done.
  - compute_done.
  - reflexivity.
  - reflexivity.
  - reflexivity.
  - compute_done.
  - compute_done.
  - compute_done.
  - compute_done.
  - compute_done.
  - compute_done.
  - reflexivity.
  - reflexivity.
  - compute_done.
  - compute_done.
  - reflexivity.
  - reflexivity.
  - compute_done.
  - eauto.
Defined.

Lemma label_loop_any_order_witness :
  let s := mkState gitOpsNamespace_init [ex_labels] ∅ [] [] in
  for_each (reverse (map_to_list ex_labels).*1) (fun k =>
      if negb (String.prefix hyperOpsLabel k) then map_delete (Some 0) k else ret tt) s
  = (Normal tt,
     set_heap [ {[ hyperOpsEnabledLabel := "true"; hyperOpsGitopsNamespaceLabel := "ns-a" ]} ]
       s).
Proof.
  cbv zeta.
  rewrite (label_loop_any_order 0 (reverse (map_to_list ex_labels).*1) ex_labels).
  - compute_done.
  - reflexivity.
  - intros k. rewrite elem_of_reverse. split.
    + intros H. apply list_elem_of_fmap in H as ([k' v] & -> & H).
      apply elem_of_map_to_list in H. eauto.
    + intros [v H]. apply list_elem_of_fmap. exists (k, v).
      split; [reflexivity|]. apply elem_of_map_to_list. exact H.
Defined.

Lemma Reconcile_fetch_failure_witness :
  Reconcile ex_lib 0 ex_req ex_blank
    = (Normal (Result_zero, None),
       mkState gitOpsNamespace_init [] ∅ [] [CallGet 0 HostedCluster "clusters" "r1"]).
Proof.
  exact (Reconcile_fetch_failure ex_lib 0 ex_req ex_blank (or_intror eq_refl)).
Defined.

Lemma Reconcile_unusable_kubeconfig_witness :
  exists s4 ml,
    Reconcile ex_lib 0 ex_req ex_badkube
      = (Normal (Result_zero, Some (Errorf "invalid configuration")), s4) /\
    head (calls s4) = Some (CallGet 0 Secret "clusters" "r1-admin-kubeconfig") /\
    api s4 !! (0, (Secret, ("ns-a", "in-cluster-local"))) = Some ml /\
    mLabels ml = localLabels.
Proof.
  destruct (Reconcile_unusable_kubeconfig ex_lib 0 ex_req ex_badkube (ex_hc ex_labels None)
              ex_token
              (mkManifest ∅ ∅ None {[ "kubeconfig" := "" ]} "Opaque" [] noRoleRef))
    as (s4 & ml & t & Hns & Hml & Hlab & _ & _ & _ & _ & Hcalls & _ & Herr & _).
  - intros i. reflexivity.
  - compute_done.
  - reflexivity.
  - compute_done.
  - compute_done.
  - compute_done.
  - compute_done.
  - compute_done.
  - exists s4, ml. split; [apply Herr; reflexivity|].
    split; [rewrite Hcalls; reflexivity|].
    split; [|exact Hlab].
    rewrite Hns in Hml. exact Hml.
Defined.


Lemma createArgoCDClusterSecret_replaces_witness :
  exists s' m',
    createArgoCDClusterSecret ex_lib 0 (Some 0) ex_local ex_relabel = (Normal None, s') /\
    api s' !! (0, (Secret, ("ns-a", "in-cluster-local"))) = Some m' /\
    mLabels m' = {[ argoCDSecretTypeLabel := argoCDSecretTypeCluster; "a" := "b" ]}.
Proof.
  destruct (createArgoCDClusterSecret_replaces ex_lib 0 0 {[ "a" := "b" ]} ex_local ex_relabel
              ex_local_secret) as (s' & m' & Hrun & Hm' & Hlab & _).
  - apply faults_nil_fault_free. compute_done.
  - reflexivity.
  - compute_done.
  - assert (Hns : gitOpsNamespace ex_relabel = "ns-a") by compute_done.
    rewrite Hns in Hm'. exists s', m'. split; [exact Hrun|]. split; [exact Hm'|].
    rewrite Hlab. reflexivity.
Defined.

Lemma setupClusterConfig_caData_url_safe_witness :
  CAData (TLSClientConfig_ (Cluster_Config ex_local)) <> "" /\
  String.length (CAData (TLSClientConfig_ (Cluster_Config ex_local))) `mod` 4 = 0.
Proof.
  destruct (setupClusterConfig_caData_url_safe 0 "https://kubernetes.default.svc"
              "in-cluster-local" None ex_full ex_local ex_bootstrapped) as (H1 & H2 & _).
  - compute_done.
  - split; [exact H1 | exact H2].
Defined.

Lemma Rev1_Reconcile_never_overwrites_witness :
  api ex_full ⊆ api (snd (Rev1.Reconcile ex_lib 0 ex_req ex_full)) /\
  exists t, calls (snd (Rev1.Reconcile ex_lib 0 ex_req ex_full)) = t ++ calls ex_full /\
            Forall (fun x => reads_or_creates x = true) t.
Proof.
  apply (Rev1_Reconcile_never_overwrites ex_lib 0 ex_req ex_full
           (fst (Rev1.Reconcile ex_lib 0 ex_req ex_full))).
  - intros m Hm.
    assert (Hm' : api ex_full !! (0, (HostedCluster, (req_Namespace ex_req, req_Name ex_req)))
                  = Some (ex_hc ex_labels None)) by compute_done.
    rewrite Hm' in Hm. injection Hm as <-. reflexivity.
  - apply surjective_pairing.
Defined.

Lemma Rev1_Reconcile_switched_off_witness :
  exists s',
    Rev1.Reconcile ex_lib 0 ex_req ex_disabled = (Normal (Result_zero, None), s') /\
    api s' = api ex_disabled /\
    calls s' = [CallGet 0 HostedCluster "clusters" "r1"].
Proof.
  destruct (Rev1_Reconcile_switched_off ex_lib 0 ex_req ex_disabled
              (ex_hc {[ hyperOpsEnabledLabel := "false" ]} None))
    as (s' & Hrun & Ha & _ & Hc).
  - reflexivity.
  - compute_done.
  - reflexivity.
  - compute_done.
  - exists s'. split; [exact Hrun|]. split; [exact Ha | exact Hc].
Defined.

Lemma Rev1_Reconcile_fault_free_witness :
  exists s',
    Rev1.Reconcile ex_lib 0 ex_req ex_full = (Normal (Result_zero, None), s') /\
    mLabels <$> api s' !! (0, (Secret, ("ns-a", "r1")))
      = Some (<[argoCDSecretTypeLabel := argoCDSecretTypeCluster]> ex_labels).
Proof.
  destruct (Rev1_Reconcile_fault_free ex_lib 0 ex_req ex_full (ex_hc ex_labels None)
              ex_kubeconfig 1 ex_config
              (api.mkNamedCluster "hosted" (api.mkCluster "https://r1.example:6443")) []
              ex_token)
    as (s' & Hrun & Hns & Ha).
  - intros i. reflexivity.
  - compute_done.
  - reflexivity.
  - compute_done.
  - compute_done.
  - compute_done.
  - reflexivity.
  - reflexivity.
  - reflexivity.
  - compute_done.
  - compute_done.
  - compute_done.
  - exists s'. split; [exact Hrun|].
    assert (Hns' : gitOpsNamespace s' = "ns-a") by (rewrite Hns; compute_done).
    rewrite Ha, Hns'. compute_done.
Defined.
